(* ===== verification/_CoqProject ===== *)
-Q . S2P
Prelude.v
JsNumber.v
JsValue.v
ObjectId.v
Mongo.v
Database.v
Express.v
Handler.v
Listing.v
Deletion.v
Creation.v
Router.v
Interleaving.v
Conservation.v
ConcurrentDelete.v
Envelope.v
Server.v
Progress.v
