(* ===== verification/Prelude.v ===== *)
(** * Smart_City mayor alerts: a verification development

    The program.  Two JavaScript modules of the server:
    - [src/server/config/database.js], [connectDB]: reads [MONGODB_URI],
      switches Mongoose command buffering off, opens one pooled connection
      and terminates the process ([process.exit(1)]) on any failure;
    - [src/server/routes/mayorAlert.js], an Express router with three
      handlers behind the [protect] and [authorize('mayor')] middleware:
      [GET /] (paginated listing), [DELETE /:id] and [POST /].
    The handlers read and write the [MayorAlert] and [User] collections
    through the connection opened by [connectDB]: the two modules interact
    through Mongoose's process-wide state (connection state and the
    [bufferCommands] flag), which every query consults.

    The library (files in dependency order).
    - [Prelude]: this header, the scope [city_scope] (the page-slice
      notation), the hint databases [city] and [city_rw], the tactics and
      the generic lemmas on lists, strings and integers.
    - [JsNumber]: JavaScript numbers as IEEE-754 doubles with integral
      finite values ([NFin], [NNegZero], [NInf], [NNaN]), which is all the
      listing computes: [round_int] rounds an exact integer to the nearest
      double (ties to even, overflow to an infinity), [js_sub], [js_mul],
      [js_add], [js_lt] and [js_ceil_div] ([Math.ceil(x / y)], through
      the correctly rounded quotient [round_quot]) follow IEEE-754 on
      zeros, infinities and [NaN]; [num_or] is [x || d].
    - [JsValue]: the JavaScript values the code manipulates and the
      built-ins it calls: truthiness, [String(x)], [parseInt] (split into
      its ECMAScript steps [parse_sign], [parse_radix], [parse_digits],
      [num_of_parsed]: the value of the digits rounded to a double),
      [String.prototype.trim], and [JSON.stringify] of a number
      ([num_json]: [null] for [NaN] and the infinities).  Characters are
      one-byte code units (0..255, Latin-1).
    - [ObjectId]: ObjectIds as 96-bit numbers, their hex form, Mongoose's
      cast of a path parameter, and [MongooseLib], the two library
      behaviours that differ between Mongoose releases.
    - [Mongo]: the store as the handlers see it: the [World] record
      (connection state, [bufferCommands], the two collections, the id
      counter, the clock, an oracle of transient faults, the console
      log), the state-and-exception monad [M] with [try]/[catch] and
      [Promise.all] ([promise_all2]), every query the code issues, all
      through [db_call], which fails a query when the connection is not
      open or the fault oracle says so, and the frame rules [keeps].  The
      page query takes the handler's doubles: the driver negates a
      negative limit ([driver_limit]) and the server reads [skip] and
      [limit] as 64-bit integers ([to_long]: [NaN] is 0, out-of-range
      values are clamped) and refuses a negative [skip].
    - [Database]: [connectDB] split at its [await] ([connectDB_start],
      [connectDB_settle], composed as [connectDB_run]), Mongoose's side of
      the call ([mongoose_connect], [mongoose_settle]), the interface
      [ConnectionManager] (a class with its laws) the process is written
      against, its instance [connectDB_manager], and the contract of the
      spec's connection manager ([connect_contract]).
    - [Express]: requests, responses, the middleware [protect] and
      [authorize] (modelled from the spec: [middleware/auth.js] is not in
      [src/]) and the rules for a handler behind them.
    - [Handler]: the [catch] block the three handlers share, and a
      concrete store for the witnesses.
    - [Listing], [Deletion], [Creation]: the three handlers, each as the
      source writes it (defaults, arithmetic in doubles, queries in order,
      guards and early returns, [try]/[catch]), with their theorems.
    - [Router]: the three route registrations ([route_get],
      [route_delete], [route_post]) tried in order by [router], and what
      holds of every request it takes (no escaping error, frame
      conditions, a well-formed store).
    - [Interleaving]: the three handlers cut at their [await]s
      ([listing_prog], [deletion_prog], [creation_prog]) and interleaved
      by an arbitrary scheduler of atomic round trips ([cstep]); run
      alone, the cut handlers are the handlers.
    - [Conservation]: the creations add one alert per success: every
      interleaving of [POST /] requests keeps the count ([stores],
      [count_inv]).
    - [ConcurrentDelete]: the deletions only remove, and each one leaves
      its id absent when it answers ([clears], [del_inv]).
    - [Envelope]: the JSON envelope every routed response has.
    - [Server]: the process as a transition system: startup, the
      settlement of the connection, requests and time, and the invariant
      of every reachable state ([sys_inv], by rule induction on
      [reachable]).
    - [Progress]: the process settles once started.

    The theorems, by claim number.
    - C1-C8 ([Listing]): on a connected store, for page [P] and limit
      [L] in the range where the handler's doubles are exact
      ([P * L <= 2^53], fewer than [2^53] alerts; [safe_page]), the
      listing returns the page [(P-1)*L, P*L) of the alerts sorted
      newest first, [total] is the page count and [hasMore] is true
      exactly when the next page is non-empty (C1-C3), also when the
      query is read from the URL as written (C8); it always answers, 200
      or 500, and never changes the collection (C4); a negative [page],
      [-Infinity] included, is a 500 with the server's message (C5); a
      negative [limit] returns [|limit|] alerts with a page count that is
      not positive (C6); a [limit] that parses to [Infinity] returns
      every alert with [total] 0 (C7).
    - C9 ([JsNumber]): [round_int] is round-to-nearest: its finite
      results are doubles and no double is nearer.
    - C10-C14 ([Deletion]): every branch of the deletion, and a deleted
      alert is absent from every later listing.
    - C15-C19 ([Creation]): every branch of the creation, errors included.
    - C20 ([JsValue]): [trim] strips exactly the outer whitespace.
    - C21 ([ObjectId]): the hex form of an ObjectId casts back to it.
    - C22 ([ConcurrentDelete]): concurrent deletions commute on the
      store: whatever the interleaving, the store ends as the initial one
      without the requested ids.
    - C23 ([Conservation]): concurrent creations on a healthy store are
      neither lost nor duplicated.
    - C24, C25 ([Interleaving]): two deletions of the same alert racing
      each other both answer 200 where one after the other the second
      gets a 404; a deletion served between the two queries of a listing
      gives a page read before it with a page count read after it.
    - C26-C28 ([Server]), C31 ([Progress]): with [connectDB] as the
      manager, a listing served before the connection settles fails fast
      with Mongoose's not-connected error (C26); unauthorised requests
      change nothing (C27); a missing URI exits with code 1 (C28); a
      started process settles, whatever the environment does (C31).
    - C29 ([Database]): [connectDB] implements the connection-manager
      contract (refinement).
    - C30 ([Envelope]): every routed response is a [{ success, ... }]
      envelope, [success] true exactly below status 400.

    Bounds and fuel.  No definition uses fuel: every recursion is
    structural on a list, a string, a numeral or a [Prog] (whose
    continuations are structurally smaller).  The listing's numbers are
    doubles ([JsNumber]): [parseInt] rounds above [2^53] and overflows to
    [Infinity] from 309 digits on, and every operation of the handler
    rounds, so the theorems that state the listing's pagination assume
    the exact range ([P * L <= 2^53], a count below [2^53]); the
    behaviour outside it is stated where the code does something the
    spec does not expect (C5-C7).  Signed zeros are kept ([NNegZero]).
    Timestamps and ObjectId counters are unbounded [Z] (they are not
    computed with by the code); ObjectIds are bounded explicitly
    ([ObjectId.oid_bound]).  Strings are one-byte characters: the
    whitespace of [trim] is its Latin-1 part (9-13, 32, 160).

    Not modelled.  JWT verification and the [User] model (the middleware
    is modelled by what it decides); Express's routing internals and body
    and query parsing (a request arrives parsed); the notification
    delivery of [server.js] (push, email, WebSocket), which the handlers
    do not call; reconnection after a dropped connection; the order of
    alerts with equal [createdAt], which MongoDB leaves unspecified and
    the model fixes as the stable merge sort's; the middleware in the
    interleaving model (it runs before the handler's first [await], so a
    request enters [Interleaving] past its guards); pool sizes and
    timeouts, passed to [mongoose.connect] but not simulated; the
    16 MB cap of a single batch, which a page of alerts does not reach.
    The code has no loops.  Every line of [src/] but the [import] and
    [export] statements is translated; what remains partly modelled (the
    middleware, the document store, the process entry point) is so
    because its other half is not in [src/] ([middleware/auth.js],
    [models/], [server.js], Mongoose itself) and is modelled from the
    spec or as library behaviour.

    Findings the theorems record: [alert.remove()] throws on Mongoose 7
    and later (C12); a blank title is a 500, not a 400 (C17); an id that
    is not an ObjectId is a 500, not a 404 (C13); a failing user lookup
    answers 500 after the alert is stored (C18); negative [page] and
    [limit] are not rejected (C5, C6); a [limit] of 309 digits or more
    lists the whole collection and reports 0 pages (C7); a listing racing
    a deletion can show the deleted alert on a page its own page count
    excludes (C25); two concurrent deletions of one alert both report
    success (C24). *)

From Stdlib Require Import ZArith Lia Ascii DecimalString DecimalNat DecimalZ Sorted.
From stdpp Require Import base list option strings.

Declare Scope city_scope.
Delimit Scope city_scope with city.

(** [l.slice(k, k + n)]: the page a [skip(k).limit(n)] query returns. *)
Notation "l '⟦' k '+:' n '⟧'" := (take n (drop k l))
  (at level 1, k at level 200, n at level 200, format "l ⟦ k  +:  n ⟧") : city_scope.
Local Open Scope city_scope.

Create HintDb city.
Create Rewrite HintDb city_rw.

(** ** Tactics *)

Ltac inv_clear H := inversion H; subst; clear H.

(** Case on every [if]/[match] of a boolean test of [Z] order in the goal. *)
Ltac destruct_Zb :=
  repeat match goal with
  | |- context [Z.ltb ?a ?b] => destruct (Z.ltb_spec a b)
  | |- context [Z.leb ?a ?b] => destruct (Z.leb_spec a b)
  | |- context [Z.eqb ?a ?b] => destruct (Z.eqb_spec a b)
  end.

(** Close a side condition on concrete data by evaluation: an equation,
    a decidable proposition (through [bool_decide]) or arithmetic. *)
Ltac concrete :=
  first [ reflexivity
        | vm_compute; first [ reflexivity | intros ?; discriminate | exact I | lia ]
        | refine (bool_decide_unpack _ _); vm_compute; exact I ].

(** ** Decimal printing, used for log lines and error messages *)

Definition str_of_nat (n : nat) : string :=
  NilEmpty.string_of_uint (Nat.to_uint n).

Definition str_of_Z (z : Z) : string :=
  NilEmpty.string_of_int (Z.to_int z).

(** The double-quote character, for messages that quote a value. *)
Definition dquote : string := String.String (ascii_of_nat 34) String.EmptyString.

(** ** Integers *)

Lemma Zleb_total (x y : Z) : (x <=? y)%Z = true \/ (y <=? x)%Z = true.
Proof. destruct (Z.leb_spec x y); [auto | right; apply Z.leb_le; lia]. Qed.

(** ** Lists *)

Lemma length_take_drop {A} (n k : nat) (l : list A) :
  length (l ⟦k +: n⟧) = n `min` (length l - k).
Proof. rewrite length_take, length_drop. lia. Qed.

Lemma take_drop_length_le {A} (n k : nat) (l : list A) :
  length (l ⟦k +: n⟧) <= n.
Proof. rewrite length_take_drop. lia. Qed.

Lemma elem_of_take_drop {A} (x : A) (n k : nat) (l : list A) :
  x ∈ l ⟦k +: n⟧ -> x ∈ l.
Proof.
  intros Hx. apply elem_of_take in Hx as [i [Hi _]].
  rewrite lookup_drop in Hi. by eapply list_elem_of_lookup_2.
Qed.

Lemma StronglySorted_weaken {A} (R R' : A -> A -> Prop) (l : list A) :
  (forall x y, R x y -> R' x y) -> StronglySorted R l -> StronglySorted R' l.
Proof.
  intros HR. induction 1 as [|a l _ IH Ha]; constructor; [done|].
  eapply Forall_impl; [exact Ha | auto].
Qed.

(** The lists of a list of lists, seen as one multiset: taking out, or
    replacing, the [i]-th list. *)
Lemma concat_delete {A} (ls : list (list A)) (i : nat) (l : list A) :
  ls !! i = Some l -> concat ls ≡ₚ l ++ concat (delete i ls).
Proof.
  revert i. induction ls as [|l' ls IH]; intros [|i] Hi; simplify_eq/=; [done|].
  rewrite (IH i Hi). solve_Permutation.
Qed.

Lemma concat_insert {A} (ls : list (list A)) (i : nat) (l l' : list A) :
  ls !! i = Some l -> concat (<[i := l']> ls) ≡ₚ l' ++ concat (delete i ls).
Proof.
  revert i. induction ls as [|l0 ls IH]; intros [|i] Hi; simplify_eq/=; [done|].
  rewrite (IH i Hi). solve_Permutation.
Qed.

Lemma NoDup_submseteq_inv {A} (l l' : list A) : l' ⊆+ l -> NoDup l -> NoDup l'.
Proof.
  intros Hsub Hnd. destruct (submseteq_Permutation _ _ Hsub) as [k Hk].
  rewrite Hk in Hnd. by apply NoDup_app in Hnd as [? _].
Qed.

Lemma Forall_submseteq_inv {A} (P : A -> Prop) (l l' : list A) :
  l' ⊆+ l -> Forall P l -> Forall P l'.
Proof.
  intros Hsub. rewrite !Forall_forall. intros H x Hx. apply H. by eapply elem_of_submseteq.
Qed.

(** Two filters of a list agree when their predicates agree on its
    elements. *)
Lemma list_filter_iff_in {A} (P Q : A -> Prop) `{!forall x, Decision (P x)}
    `{!forall x, Decision (Q x)} (l : list A) :
  (forall x, x ∈ l -> P x <-> Q x) -> filter P l = filter Q l.
Proof.
  induction l as [|a l IH]; intros HPQ; [done|].
  assert (Ha : P a <-> Q a) by (apply HPQ; constructor).
  rewrite !filter_cons, IH by (intros x Hx; apply HPQ; by constructor).
  destruct (decide (P a)), (decide (Q a)); tauto.
Qed.

Lemma list_filter_all {A} (P : A -> Prop) `{!forall x, Decision (P x)} (l : list A) :
  (forall x, x ∈ l -> P x) -> filter P l = l.
Proof.
  induction l as [|a l IH]; intros HPQ; [done|].
  rewrite filter_cons, decide_True by (apply HPQ; constructor).
  f_equal. apply IH. intros x Hx. apply HPQ. by constructor.
Qed.

#[export] Hint Resolve take_drop_length_le elem_of_take_drop : city.
