(* ===== verification/JsNumber.v ===== *)
(** JavaScript numbers as the listing of [src/server/routes/mayorAlert.js]
    computes with them (lines 13-15 and 32-33): IEEE-754 binary64 values
    whose finite values are integers, which is every value the handler
    holds, since [parseInt] returns integers (or [NaN]) and [-], [*], [+]
    and [Math.ceil] keep them integral.  A finite value is [NFin z]
    ([+0] is [NFin 0]) or [NNegZero] ([-0]); the infinities and [NaN]
    are constructors of their own.  Every operation rounds its exact
    result to the nearest double, ties to even ([round_int]), and
    overflows to an infinity.  The one non-integral intermediate,
    [total / limit], only feeds [Math.ceil], so [js_ceil_div] computes
    [Math.ceil] of the correctly rounded quotient in one step. *)

From Stdlib Require Import ZArith Lia.
From stdpp Require Import base decidable tactics.
From S2P Require Import Prelude.

Local Open Scope Z_scope.

(** ** Values *)

Inductive Num :=
  | NFin (z : Z)
  | NNegZero
  | NInf (neg : bool)
  | NNaN.

#[export] Instance Num_eq_dec : EqDecision Num.
Proof. solve_decision. Qed.

(** The finite value, [0] for the zeros and the non-finite values. *)
Definition num_z (x : Num) : Z :=
  match x with
  | NFin z => z
  | _ => 0
  end.

Definition sign_bit (x : Num) : bool :=
  match x with
  | NFin z => z <? 0
  | NNegZero => true
  | NInf s => s
  | NNaN => false
  end.

Definition is_zero (x : Num) : bool :=
  match x with
  | NFin 0 | NNegZero => true
  | _ => false
  end.

Definition signed_zero (neg : bool) : Num := if neg then NNegZero else NFin 0.

(** ** Rounding to binary64 *)

(** [a / b] ([b > 0]) to the nearest integer, ties to the even one. *)
Definition round_half_even (a b : Z) : Z :=
  let q := a / b in
  let r := a mod b in
  if (b <? 2 * r) || ((2 * r =? b) && Z.odd q) then q + 1 else q.

(** A positive integer to 53 significant bits: integers up to [2^53]
    are doubles; above, the value is rounded to a multiple of [2^k],
    [k] the number of bits beyond the 53 the significand holds. *)
Definition round_pos (z : Z) : Z :=
  if z <=? 2 ^ 53 then z
  else let k := Z.log2 z - 52 in round_half_even z (2 ^ k) * 2 ^ k.

(** The Number value of an exact integer (ECMAScript's F(x)): the nearest
    double, ties to even, an infinity from [2^1024 - 2^970] up. *)
Definition round_int (z : Z) : Num :=
  if z =? 0 then NFin 0
  else let m := round_pos (Z.abs z) in
       if 2 ^ 1024 <=? m then NInf (z <? 0) else NFin (Z.sgn z * m).

Definition num_of_nat (n : nat) : Num := round_int (Z.of_nat n).

(** The exponent of the last significand bit of [n / d] ([n, d > 0]):
    [2^52 <= n / d / 2^k < 2^53], and at least [-1074] (subnormals). *)
Definition quot_exp (n d : Z) : Z :=
  let k0 := Z.log2 n - Z.log2 d - 52 in
  let k := if 2 ^ 52 * (d * 2 ^ Z.max 0 k0) <=? n * 2 ^ Z.max 0 (- k0) then k0 else k0 - 1 in
  Z.max (-1074) k.

(** [n / d] ([n, d > 0]) rounded to binary64, as [(m, k)] for the value
    [m * 2^k]. *)
Definition round_quot (n d : Z) : Z * Z :=
  let k := quot_exp n d in
  (round_half_even (n * 2 ^ Z.max 0 (- k)) (d * 2 ^ Z.max 0 k), k).

(** [Math.ceil] of the double [(-1)^neg * m * 2^k] ([m >= 0]); [-0]
    when a negative value rounds up to zero.  The quotient of two
    integral doubles is at most the dividend in magnitude, so it never
    overflows. *)
Definition ceil_dyadic (neg : bool) (m k : Z) : Num :=
  let f := m * 2 ^ Z.max 0 k / 2 ^ Z.max 0 (- k) in
  if neg then (if f =? 0 then NNegZero else NFin (- f))
  else NFin (- (- (m * 2 ^ Z.max 0 k) / 2 ^ Z.max 0 (- k))).

(** ** Operations *)

(** Unary [-x]. *)
Definition js_neg (x : Num) : Num :=
  match x with
  | NFin 0 => NNegZero
  | NFin z => NFin (- z)
  | NNegZero => NFin 0
  | NInf s => NInf (negb s)
  | NNaN => NNaN
  end.

(** [x + y]: an exact zero sum is [+0] unless both operands are [-0]. *)
Definition js_add (x y : Num) : Num :=
  match x, y with
  | NNaN, _ | _, NNaN => NNaN
  | NInf s, NInf t => if Bool.eqb s t then NInf s else NNaN
  | NInf s, _ | _, NInf s => NInf s
  | NNegZero, NNegZero => NNegZero
  | _, _ => round_int (num_z x + num_z y)
  end.

(** [x - y] is [x + (-y)]. *)
Definition js_sub (x y : Num) : Num := js_add x (js_neg y).

(** [x * y]: a zero product has the sign of the signs' exclusive or;
    [Infinity * 0] is [NaN]. *)
Definition js_mul (x y : Num) : Num :=
  match x, y with
  | NNaN, _ | _, NNaN => NNaN
  | NInf s, _ => if is_zero y then NNaN else NInf (xorb s (sign_bit y))
  | _, NInf t => if is_zero x then NNaN else NInf (xorb (sign_bit x) t)
  | _, _ =>
      let z := num_z x * num_z y in
      if z =? 0 then signed_zero (xorb (sign_bit x) (sign_bit y)) else round_int z
  end.

(** [x < y]: false when either side is [NaN]; [-0 < +0] is false. *)
Definition js_lt (x y : Num) : bool :=
  match x, y with
  | NNaN, _ | _, NNaN => false
  | NInf s, NInf t => s && negb t
  | NInf s, _ => s
  | _, NInf t => negb t
  | _, _ => num_z x <? num_z y
  end.

(** [Math.ceil(x / y)]. *)
Definition js_ceil_div (x y : Num) : Num :=
  match x, y with
  | NNaN, _ | _, NNaN | NInf _, NInf _ => NNaN
  | NInf s, _ => NInf (xorb s (sign_bit y))
  | _, NInf t => signed_zero (xorb (sign_bit x) t)
  | _, _ =>
      if is_zero y then (if is_zero x then NNaN else NInf (xorb (sign_bit x) (sign_bit y)))
      else if is_zero x then signed_zero (xorb (sign_bit x) (sign_bit y))
      else let '(m, k) := round_quot (Z.abs (num_z x)) (Z.abs (num_z y)) in
           ceil_dyadic (xorb (sign_bit x) (sign_bit y)) m k
  end.

(** ToBoolean on a number: [0], [-0] and [NaN] are falsy. *)
Definition num_truthy (x : Num) : bool :=
  match x with
  | NFin z => negb (z =? 0)
  | NNegZero | NNaN => false
  | NInf _ => true
  end.

(** [x || d] on a number. *)
Definition num_or (x d : Num) : Num := if num_truthy x then x else d.

(** An integer that is a finite double: [m * 2^e] with a significand of
    at most 53 bits, below [2^1024]. *)
Definition is_double_int (v : Z) : Prop :=
  exists m e, v = m * 2 ^ e /\ Z.abs m <= 2 ^ 53 /\ 0 <= e /\ Z.abs v < 2 ^ 1024.

(** ** Lemmas *)

Lemma is_zero_fin (z : Z) : is_zero (NFin z) = (z =? 0).
Proof. by destruct z. Qed.

Lemma round_half_even_spec (a b : Z) :
  0 < b -> 0 <= a ->
  0 <= round_half_even a b /\ - b <= 2 * (round_half_even a b * b - a) <= b.
Proof.
  intros Hb Ha. unfold round_half_even.
  pose proof (Z.div_mod a b ltac:(lia)) as Hdm.
  pose proof (Z.mod_pos_bound a b Hb) as Hr.
  pose proof (Z.div_pos a b Ha Hb) as Hq.
  destruct ((b <? 2 * (a mod b)) || ((2 * (a mod b) =? b) && Z.odd (a / b))) eqn:E;
    rewrite ?orb_true_iff, ?orb_false_iff, ?andb_true_iff, ?andb_false_iff,
      ?Z.ltb_lt, ?Z.ltb_ge, ?Z.eqb_eq, ?Z.eqb_neq in E; nia.
Qed.

(** A multiple of [K] within [K/2] of [z] is the nearest one. *)
Lemma nearest_multiple (K m z j : Z) :
  0 < K -> - K <= 2 * (m * K - z) <= K -> Z.abs (m * K - z) <= Z.abs (j * K - z).
Proof.
  intros HK Hm. destruct (Z.eq_dec j m) as [->|Hjm]; [lia|].
  assert (K <= Z.abs (j * K - m * K)).
  { rewrite <- Z.mul_sub_distr_r, Z.abs_mul, (Z.abs_eq K) by lia. nia. }
  lia.
Qed.

Lemma round_pos_small (z : Z) : z <= 2 ^ 53 -> round_pos z = z.
Proof. intros Hz. unfold round_pos. by rewrite (proj2 (Z.leb_le _ _) Hz). Qed.

(** Above [2^53], [round_pos] keeps 53 significant bits of [z]. *)
Lemma round_pos_large (z : Z) :
  2 ^ 53 < z ->
  let k := Z.log2 z - 52 in
  1 <= k /\ 2 ^ 52 * 2 ^ k <= z /\
  exists m, round_pos z = m * 2 ^ k /\ 2 ^ 52 <= m <= 2 ^ 53 /\
            - 2 ^ k <= 2 * (m * 2 ^ k - z) <= 2 ^ k.
Proof.
  intros Hz k. unfold round_pos. rewrite (proj2 (Z.leb_gt _ _) Hz).
  assert (Hlog : 53 <= Z.log2 z).
  { apply Z.log2_le_pow2; lia. }
  destruct (Z.log2_spec z ltac:(lia)) as [Hlo Hhi].
  assert (HK : 2 ^ Z.log2 z = 2 ^ 52 * 2 ^ k) by (rewrite <- Z.pow_add_r by lia; f_equal; lia).
  assert (HK1 : 2 ^ Z.succ (Z.log2 z) = 2 ^ 53 * 2 ^ k)
    by (rewrite <- Z.pow_add_r by lia; f_equal; lia).
  assert (Hk : 0 < 2 ^ k) by (apply Z.pow_pos_nonneg; lia).
  split; [lia | split; [lia|]].
  destruct (round_half_even_spec z (2 ^ k) Hk ltac:(lia)) as [Hm Hr].
  exists (round_half_even z (2 ^ k)). split; [done|]. split; [|done]. nia.
Qed.

Lemma round_pos_pos (z : Z) : 0 < z -> 0 < round_pos z.
Proof.
  intros Hz. destruct (Z.le_gt_cases z (2 ^ 53)) as [H|H].
  - by rewrite round_pos_small.
  - destruct (round_pos_large z H) as (Hk & _ & m & -> & Hm & _).
    pose proof (Z.pow_pos_nonneg 2 (Z.log2 z - 52) ltac:(lia) ltac:(lia)). nia.
Qed.

(** Integers up to [2^53] in magnitude are doubles. *)
Lemma round_int_small (z : Z) : Z.abs z <= 2 ^ 53 -> round_int z = NFin z.
Proof.
  intros Hz. unfold round_int. destruct (Z.eqb_spec z 0) as [->|Hz0]; [done|].
  rewrite round_pos_small by lia.
  rewrite (proj2 (Z.leb_gt _ _)); [f_equal; rewrite Z.mul_comm; apply Z.abs_sgn|].
  assert (2 ^ 53 < 2 ^ 1024) by (apply Z.pow_lt_mono_r; lia). lia.
Qed.

(** Rounding keeps the sign. *)
Lemma round_int_nonneg (z : Z) :
  0 <= z -> (exists v, 0 <= v /\ round_int z = NFin v) \/ round_int z = NInf false.
Proof.
  intros Hz. unfold round_int. destruct (Z.eqb_spec z 0) as [->|Hz0]; [left; by exists 0|].
  pose proof (round_pos_pos (Z.abs z) ltac:(lia)).
  destruct (Z.leb_spec (2 ^ 1024) (round_pos (Z.abs z))); [right; f_equal; apply Z.ltb_ge; lia | left].
  exists (Z.sgn z * round_pos (Z.abs z)). split; [rewrite Z.sgn_pos by lia; lia | done].
Qed.

Lemma round_int_neg (z : Z) :
  z < 0 -> (exists v, v < 0 /\ round_int z = NFin v) \/ round_int z = NInf true.
Proof.
  intros Hz. unfold round_int. destruct (Z.eqb_spec z 0); [lia|].
  pose proof (round_pos_pos (Z.abs z) ltac:(lia)).
  destruct (Z.leb_spec (2 ^ 1024) (round_pos (Z.abs z))); [right; f_equal; apply Z.ltb_lt; lia | left].
  exists (Z.sgn z * round_pos (Z.abs z)). split; [rewrite Z.sgn_neg by lia; lia | done].
Qed.

Lemma js_add_fin (a b : Z) : js_add (NFin a) (NFin b) = round_int (a + b).
Proof. done. Qed.

Lemma js_sub_fin (a b : Z) : js_sub (NFin a) (NFin b) = round_int (a - b).
Proof. unfold js_sub. destruct b; cbn; f_equal; lia. Qed.

Lemma js_mul_fin (a b : Z) : a * b <> 0 -> js_mul (NFin a) (NFin b) = round_int (a * b).
Proof. intros Hab. cbn. by rewrite (proj2 (Z.eqb_neq _ _) Hab). Qed.

Lemma js_mul_fin_nonneg (a b : Z) :
  0 <= a -> 0 <= b -> js_mul (NFin a) (NFin b) = round_int (a * b).
Proof.
  intros Ha Hb. cbn. destruct (Z.eqb_spec (a * b) 0) as [E|E]; [|done].
  rewrite E, (proj2 (Z.ltb_ge a 0)), (proj2 (Z.ltb_ge b 0)) by lia. done.
Qed.

Lemma js_lt_fin (a b : Z) : js_lt (NFin a) (NFin b) = (a <? b).
Proof. done. Qed.

Lemma num_of_nat_small (n : nat) : Z.of_nat n <= 2 ^ 53 -> num_of_nat n = NFin (Z.of_nat n).
Proof. intros Hn. apply round_int_small. lia. Qed.

(** [Math.ceil(a / b)] on integers, [b > 0]: the least [c] with [a <= c * b]. *)
Lemma ceil_quot_spec (a b : Z) : 0 < b -> (- (- a / b) - 1) * b < a <= - (- a / b) * b.
Proof.
  intros Hb. pose proof (Z.div_mod (- a) b ltac:(lia)).
  pose proof (Z.mod_pos_bound (- a) b Hb). nia.
Qed.

Lemma ceil_quot_unique (a b c : Z) : 0 < b -> (c - 1) * b < a <= c * b -> - (- a / b) = c.
Proof.
  intros Hb Hc. enough (- a / b = - c) by lia.
  symmetry. apply (Z.div_unique_pos _ _ _ (c * b - a)); lia.
Qed.

(** For a quotient of integers below [2^53] by a divisor up to [2^53],
    the exponent is not positive and the significand is normal. *)
Lemma quot_exp_small (n d : Z) :
  1 <= n < 2 ^ 53 -> 1 <= d <= 2 ^ 53 ->
  quot_exp n d <= 0 /\ 2 ^ 52 * d <= n * 2 ^ (- quot_exp n d).
Proof.
  intros Hn Hd.
  assert (Hln : Z.log2 n < 53) by (apply Z.log2_lt_pow2; lia).
  assert (Hld : Z.log2 d <= 53)
    by (rewrite <- (Z.log2_pow2 53) by lia; apply Z.log2_le_mono; lia).
  pose proof (Z.log2_nonneg n). pose proof (Z.log2_nonneg d).
  destruct (Z.log2_spec n ltac:(lia)) as [Hn1 _].
  destruct (Z.log2_spec d ltac:(lia)) as [_ Hd1].
  unfold quot_exp. set (k0 := Z.log2 n - Z.log2 d - 52).
  rewrite (Z.max_l 0 k0), (Z.max_r 0 (- k0)), Z.pow_0_r, Z.mul_1_r by lia.
  destruct (Z.leb_spec (2 ^ 52 * d) (n * 2 ^ (- k0))) as [Ht|Ht].
  - rewrite Z.max_r by lia. split; [lia | done].
  - rewrite Z.max_r by lia. split; [lia|].
    replace (- (k0 - 1)) with (Z.log2 d + 53 - Z.log2 n) by lia.
    assert (Hp : 2 ^ Z.log2 n * 2 ^ (Z.log2 d + 53 - Z.log2 n) = 2 ^ 52 * 2 ^ Z.succ (Z.log2 d)).
    { rewrite <- !Z.pow_add_r by lia. f_equal. lia. }
    assert (0 < 2 ^ (Z.log2 d + 53 - Z.log2 n)) by (apply Z.pow_pos_nonneg; lia). nia.
Qed.

(** [Math.ceil(N / L)] is exact for a count [N] below [2^53] and a
    limit [1 <= L <= 2^53]: rounding the quotient cannot cross an
    integer, because the quotient is at least [1/L] away from the
    integers it is not equal to, more than half its unit in the last
    place. *)
Lemma js_ceil_div_small (N L : Z) :
  0 <= N < 2 ^ 53 -> 1 <= L <= 2 ^ 53 ->
  js_ceil_div (NFin N) (NFin L) = NFin (- (- N / L)).
Proof.
  intros HN HL. unfold js_ceil_div. rewrite !is_zero_fin.
  rewrite (proj2 (Z.eqb_neq L 0)) by lia. cbn [sign_bit num_z].
  rewrite (proj2 (Z.ltb_ge L 0)) by lia.
  destruct (Z.eqb_spec N 0) as [->|HN0]; [done|].
  rewrite (proj2 (Z.ltb_ge N 0)), !Z.abs_eq by lia.
  destruct (quot_exp_small N L ltac:(lia) HL) as [Hk Hnorm].
  unfold round_quot. set (k := quot_exp N L) in *.
  rewrite (Z.max_r 0 (- k)), (Z.max_l 0 k), Z.pow_0_r, Z.mul_1_r by lia.
  set (K := 2 ^ (- k)). assert (HK : 0 < K) by (apply Z.pow_pos_nonneg; lia).
  destruct (round_half_even_spec (N * K) L ltac:(lia) ltac:(nia)) as [Hm0 Hm].
  set (m := round_half_even (N * K) L) in *.
  unfold ceil_dyadic. cbn [xorb]. rewrite (Z.max_r 0 (- k)), (Z.max_l 0 k), Z.pow_0_r, Z.mul_1_r by lia.
  f_equal. apply ceil_quot_unique; [done|].
  pose proof (ceil_quot_spec N L ltac:(lia)) as Hc. set (c := - (- N / L)) in *.
  assert (N * K <= c * L * K) by nia.
  assert ((c - 1) * L * K + K <= N * K) by nia.
  split.
  - destruct (Z.le_gt_cases m ((c - 1) * K)) as [Hle|]; [|done].
    assert (m * L <= (c - 1) * K * L) by nia. nia.
  - destruct (Z.le_gt_cases m (c * K)) as [|Hgt]; [done|].
    assert ((c * K + 1) * L <= m * L) by nia. nia.
Qed.

(** A negative divisor gives a page count that is not positive. *)
Lemma js_ceil_div_neg (N L : Z) :
  0 <= N -> L < 0 ->
  js_ceil_div (NFin N) (NFin L) = NNegZero \/
  exists t, t <= 0 /\ js_ceil_div (NFin N) (NFin L) = NFin t.
Proof.
  intros HN HL. unfold js_ceil_div. rewrite !is_zero_fin.
  rewrite (proj2 (Z.eqb_neq L 0)) by lia. cbn [sign_bit num_z].
  rewrite (proj2 (Z.ltb_lt L 0)), (proj2 (Z.ltb_ge N 0)) by lia. cbn [xorb].
  destruct (Z.eqb_spec N 0) as [->|HN0]; [by left|].
  unfold round_quot. set (k := quot_exp _ _).
  assert (0 < 2 ^ Z.max 0 k) by (apply Z.pow_pos_nonneg; lia).
  assert (0 < 2 ^ Z.max 0 (- k)) by (apply Z.pow_pos_nonneg; lia).
  destruct (round_half_even_spec (Z.abs N * 2 ^ Z.max 0 (- k)) (Z.abs L * 2 ^ Z.max 0 k))
    as [Hm _]; [nia | nia |].
  unfold ceil_dyadic. match goal with |- context [?f =? 0] => destruct (Z.eqb_spec f 0) end; [by left | right].
  eexists. split; [|reflexivity].
  apply Z.opp_nonpos_nonneg, Z.div_pos; nia.
Qed.

Lemma is_double_int_opp (r : Z) : is_double_int r -> is_double_int (- r).
Proof. intros (m & e & -> & Hm & He & Hr). exists (- m), e. split_and!; lia. Qed.

(** A double below [2^52 * 2^k] in magnitude, or a multiple of [2^k]. *)
Lemma is_double_int_cases (r k : Z) :
  1 <= k -> is_double_int r -> (exists j, r = j * 2 ^ k) \/ Z.abs r <= 2 ^ 52 * 2 ^ k.
Proof.
  intros Hk (m & e & -> & Hm & He & _). destruct (Z.le_gt_cases k e) as [Hke|Hke].
  - left. exists (m * 2 ^ (e - k)). rewrite <- Z.mul_assoc, <- Z.pow_add_r by lia. do 2 f_equal. lia.
  - right. rewrite Z.abs_mul, (Z.abs_eq (2 ^ e)) by (apply Z.pow_nonneg; lia).
    assert (2 ^ e <= 2 ^ (k - 1)) by (apply Z.pow_le_mono_r; lia).
    assert (Hp : 2 ^ 53 * 2 ^ (k - 1) = 2 ^ 52 * 2 ^ k) by (rewrite <- !Z.pow_add_r by lia; f_equal; lia).
    pose proof (Z.pow_nonneg 2 e ltac:(lia)). nia.
Qed.

(** [round_pos] returns a double nearest to [z]. *)
Lemma round_pos_nearest (z : Z) :
  0 < z ->
  (exists m e, round_pos z = m * 2 ^ e /\ 0 <= m <= 2 ^ 53 /\ 0 <= e) /\
  forall r, is_double_int r -> Z.abs (round_pos z - z) <= Z.abs (r - z).
Proof.
  intros Hz. destruct (Z.le_gt_cases z (2 ^ 53)) as [Hs|Hl].
  - rewrite round_pos_small by done. split; [exists z, 0; rewrite Z.pow_0_r; lia | intros; lia].
  - destruct (round_pos_large z Hl) as (Hk & Hlo & m & -> & Hm & Hr).
    set (k := Z.log2 z - 52) in *.
    split; [exists m, k; lia|].
    intros r Hdr. destruct (is_double_int_cases r k Hk Hdr) as [[j ->]|Hsmall].
    + apply nearest_multiple; [apply Z.pow_pos_nonneg; lia | done].
    + pose proof (nearest_multiple (2 ^ k) m z (2 ^ 52) ltac:(apply Z.pow_pos_nonneg; lia) Hr).
      lia.
Qed.

(** C9. The Number value [round_int z] of an integer
    [z] (what [parseInt] returns for the digits it reads, and what
    [-], [*] and [+] return for integral operands) is, when finite, a
    double, and no double is nearer to [z]: round to nearest as
    IEEE-754 requires. *)
Theorem round_int_nearest (z v : Z) :
  round_int z = NFin v ->
  is_double_int v /\ forall r, is_double_int r -> Z.abs (v - z) <= Z.abs (r - z).
Proof.
  unfold round_int. destruct (Z.eqb_spec z 0) as [->|Hz].
  { intros [= <-]. split; [exists 0, 0; split_and!; cbn; lia | intros; lia]. }
  destruct (Z.leb_spec (2 ^ 1024) (round_pos (Z.abs z))) as [|Hov]; [done|]. intros [= <-].
  destruct (round_pos_nearest (Z.abs z) ltac:(lia)) as ((m & e & Hme & Hm & He) & Hnear).
  pose proof (round_pos_pos (Z.abs z) ltac:(lia)).
  split.
  - exists (Z.sgn z * m), e. rewrite Hme in Hov |- *.
    assert (z < 0 \/ 0 < z) as [Hn|Hp] by lia; [rewrite Z.sgn_neg | rewrite Z.sgn_pos]; try lia;
      split_and!; lia.
  - intros r Hr. assert (z < 0 \/ 0 < z) as [Hn|Hp] by lia.
    + rewrite Z.sgn_neg by lia. specialize (Hnear (- r) (is_double_int_opp r Hr)). lia.
    + rewrite Z.sgn_pos by lia. specialize (Hnear r Hr). lia.
Qed.

(** ** Witnesses *)

Lemma round_int_nearest_witness :
  round_int (2 ^ 53 + 1) = NFin (2 ^ 53) /\
  is_double_int (2 ^ 53) /\
  forall r, is_double_int r -> Z.abs (2 ^ 53 - (2 ^ 53 + 1)) <= Z.abs (r - (2 ^ 53 + 1)).
Proof.
  assert (H : round_int (2 ^ 53 + 1) = NFin (2 ^ 53)) by (vm_compute; reflexivity).
  split; [exact H | exact (round_int_nearest (2 ^ 53 + 1) (2 ^ 53) H)].
Defined.
