(* ===== verification/JsValue.v ===== *)
(** JavaScript values and the built-ins the routes of
    [src/server/routes/mayorAlert.js] call: truthiness ([!x], [x || d]),
    [String(x)], [parseInt(x)] with no radix, [String.prototype.trim] and
    [JSON.stringify] of a number; the numbers themselves are [JsNumber].
    In a parsed request body a number is [JNum] (only its truthiness and
    its having no [trim] method matter to the routes); characters are
    one-byte code units (0..255, the Latin-1 block of UTF-16), which keeps
    every whitespace character of that block: TAB, LF, VT, FF, CR, SPACE
    and NO-BREAK SPACE (160). *)

From Stdlib Require Import ZArith Lia Ascii DecimalString DecimalPos DecimalZ.
From stdpp Require Import base list option strings.
From S2P Require Import Prelude JsNumber.

Local Open Scope Z_scope.
Local Set Warnings "-register-all".

(** ** Values *)

(** A value as the code receives it from Express ([req.query], parsed by
    [qs] into strings, arrays and objects; [req.body], parsed JSON) or
    builds it for [res.json]. *)
Inductive JsVal :=
  | JUndefined
  | JNull
  | JBool (b : bool)
  | JNum (n : Z)
  | JNaN
  | JStr (s : string)
  | JArr (xs : list JsVal)
  | JObj (fields : list (string * JsVal)).

(** [obj.key]: the first binding of [key], [undefined] when absent. *)
Definition js_get (fields : list (string * JsVal)) (key : string) : JsVal :=
  match list_find (fun kv => kv.1 = key) fields with
  | Some (_, (_, v)) => v
  | None => JUndefined
  end.

(** ToBoolean: [!x] is [negb (truthy x)]. *)
Definition truthy (v : JsVal) : bool :=
  match v with
  | JUndefined | JNull | JNaN => false
  | JBool b => b
  | JNum n => negb (n =? 0)
  | JStr s => negb (String.eqb s "")
  | JArr _ | JObj _ => true
  end.

(** ToString, as [parseInt] applies it to its argument.  An array prints
    its elements joined by commas, [undefined] and [null] as empty. *)
Fixpoint js_to_string (v : JsVal) : string :=
  match v with
  | JUndefined => "undefined"
  | JNull => "null"
  | JBool b => if b then "true" else "false"
  | JNum n => str_of_Z n
  | JNaN => "NaN"
  | JStr s => s
  | JArr xs =>
      String.concat ","
        (List.map (fun x => match x with
                            | JUndefined | JNull => ""%string
                            | _ => js_to_string x
                            end) xs)
  | JObj _ => "[object Object]"
  end.

(** ** Whitespace and [trim] *)

(** WhiteSpace or LineTerminator among the code units 0..255. *)
Definition is_js_space (c : ascii) : bool :=
  let n := nat_of_ascii c in
  ((9 <=? n) && (n <=? 13))%nat || (n =? 32)%nat || (n =? 160)%nat.

Fixpoint drop_ws (s : list ascii) : list ascii :=
  match s with
  | c :: s' => if is_js_space c then drop_ws s' else s
  | [] => []
  end.

Definition trim_list (s : list ascii) : list ascii :=
  rev (drop_ws (rev (drop_ws s))).

(** [String.prototype.trim] (TrimString with [start+end]). *)
Definition trim (s : string) : string :=
  String.string_of_list_ascii (trim_list (String.list_ascii_of_string s)).

(** [v.trim()]: strings trim; any other value has no [trim] method, and
    the call throws a [TypeError] ([None]). *)
Definition js_trim (v : JsVal) : option string :=
  match v with
  | JStr s => Some (trim s)
  | _ => None
  end.

(** ** [parseInt] *)

(** The value of a digit of radix up to 36. *)
Definition digit_value (c : ascii) : option Z :=
  let n := Z.of_nat (nat_of_ascii c) in
  if (48 <=? n) && (n <=? 57) then Some (n - 48)
  else if (97 <=? n) && (n <=? 122) then Some (n - 87)
  else if (65 <=? n) && (n <=? 90) then Some (n - 55)
  else None.

(** The longest prefix of radix-[r] digits, as digit values. *)
Fixpoint radix_digits (r : Z) (s : list ascii) : list Z :=
  match s with
  | c :: s' =>
      match digit_value c with
      | Some d => if d <? r then d :: radix_digits r s' else []
      | None => []
      end
  | [] => []
  end.

Definition digits_value (r : Z) (ds : list Z) : Z :=
  fold_left (fun acc d => acc * r + d) ds 0.

(** Steps 4-6 of [parseInt] (ECMAScript 19.2.5): one sign character. *)
Definition parse_sign (s : list ascii) : Z * list ascii :=
  match s with
  | c :: s' =>
      if Ascii.eqb c "-"%char then (-1, s')
      else if Ascii.eqb c "+"%char then (1, s')
      else (1, s)
  | [] => (1, s)
  end.

(** Steps 8-10 with the radix left undefined: the [0x] or [0X] prefix. *)
Definition parse_radix (s : list ascii) : Z * list ascii :=
  match s with
  | z :: x :: s' =>
      if Ascii.eqb z "0"%char && (Ascii.eqb x "x"%char || Ascii.eqb x "X"%char)
      then (16, s') else (10, s)
  | _ => (10, s)
  end.

(** Steps 11-13 of [parseInt] with the radix left undefined: radix 16
    after a [0x] or [0X] prefix, else 10, and the value of the longest
    prefix of digits ([mathInt]), [None] when it is empty. *)
Definition parse_digits (s : list ascii) : option Z :=
  let '(r, s) := parse_radix s in
  match radix_digits r s with
  | [] => None
  | ds => Some (digits_value r ds)
  end.

(** Steps 15-16: the Number value of [sign * mathInt], rounded to the
    nearest double (V8 rounds correctly in every radix the code can
    reach), [-0] for a negative zero. *)
Definition num_of_parsed (sign n : Z) : Num :=
  if (n =? 0) && (sign <? 0) then NNegZero else round_int (sign * n).

(** [parseInt(v)] with the radix left undefined (ECMAScript 19.2.5):
    ToString, trim the start, read one sign, the digits, [NaN] when there
    are none. *)
Definition parseInt (v : JsVal) : Num :=
  let s := drop_ws (String.list_ascii_of_string (js_to_string v)) in
  let '(sign, s) := parse_sign s in
  match parse_digits s with
  | None => NNaN
  | Some n => num_of_parsed sign n
  end.

(** A number as [JSON.stringify] writes it: [-0] as [0], [NaN] and the
    infinities as [null]. *)
Definition num_json (x : Num) : JsVal :=
  match x with
  | NFin z => JNum z
  | NNegZero => JNum 0
  | NInf _ | NNaN => JNull
  end.

(** Whether a code-unit list starts with a whitespace character. *)
Definition starts_ws (l : list ascii) : bool :=
  match l with
  | c :: _ => is_js_space c
  | [] => false
  end.

(** The digits of a decimal numeral, most significant first, and the
    decimal digit characters ([0]-[9]): what [Number.prototype.toString]
    prints, read back by [parseInt]. *)
Fixpoint uint_digits (d : Decimal.uint) : list Z :=
  match d with
  | Decimal.Nil => []
  | Decimal.D0 d => 0 :: uint_digits d
  | Decimal.D1 d => 1 :: uint_digits d
  | Decimal.D2 d => 2 :: uint_digits d
  | Decimal.D3 d => 3 :: uint_digits d
  | Decimal.D4 d => 4 :: uint_digits d
  | Decimal.D5 d => 5 :: uint_digits d
  | Decimal.D6 d => 6 :: uint_digits d
  | Decimal.D7 d => 7 :: uint_digits d
  | Decimal.D8 d => 8 :: uint_digits d
  | Decimal.D9 d => 9 :: uint_digits d
  end.

Definition is_dec_digit (c : ascii) : bool :=
  ((48 <=? nat_of_ascii c) && (nat_of_ascii c <=? 57))%nat.

(** ** Lemmas *)

Lemma js_get_cons_eq (k : string) (v : JsVal) (fs : list (string * JsVal)) :
  js_get ((k, v) :: fs) k = v.
Proof. unfold js_get. simpl. by rewrite decide_True. Qed.

Lemma js_get_cons_ne (k k' : string) (v : JsVal) (fs : list (string * JsVal)) :
  k' <> k -> js_get ((k', v) :: fs) k = js_get fs k.
Proof.
  intros Hk. unfold js_get. simpl. rewrite decide_False by done.
  by destruct (list_find _ fs) as [[? []]|].
Qed.

Lemma drop_ws_noop (l : list ascii) : starts_ws l = false -> drop_ws l = l.
Proof. destruct l as [|c l]; simpl; [done|]. by intros ->. Qed.

Lemma drop_ws_starts (l : list ascii) : starts_ws (drop_ws l) = false.
Proof.
  induction l as [|c l IH]; simpl; [done|].
  destruct (is_js_space c) eqn:E; simpl; [done | by rewrite E].
Qed.

Lemma drop_ws_split (l : list ascii) :
  exists lead, l = lead ++ drop_ws l /\ Forall (fun c => is_js_space c = true) lead.
Proof.
  induction l as [|c l [lead [Hl Hf]]]; simpl; [by exists []|].
  destruct (is_js_space c) eqn:E.
  - exists (c :: lead). split; [by rewrite Hl at 1 | by constructor].
  - by exists [].
Qed.

Lemma drop_ws_idem (l : list ascii) : drop_ws (drop_ws l) = drop_ws l.
Proof. apply drop_ws_noop, drop_ws_starts. Qed.

(** A prefix of a list that does not start with whitespace does not
    start with whitespace either, unless it is empty. *)
Lemma starts_ws_prefix (p q : list ascii) :
  starts_ws (p ++ q) = false -> starts_ws p = false.
Proof. destruct p; simpl; [done | auto]. Qed.

Lemma trim_list_starts (l : list ascii) : starts_ws (trim_list l) = false.
Proof.
  unfold trim_list.
  destruct (drop_ws_split (rev (drop_ws l))) as [lead [Hl _]].
  apply (starts_ws_prefix _ (rev lead)).
  rewrite <- rev_app_distr, <- Hl, rev_involutive. apply drop_ws_starts.
Qed.

Lemma trim_list_ends (l : list ascii) : starts_ws (rev (trim_list l)) = false.
Proof. unfold trim_list. rewrite rev_involutive. apply drop_ws_starts. Qed.

#[export] Hint Resolve drop_ws_starts trim_list_starts trim_list_ends : city.

Lemma trim_list_idem (l : list ascii) : trim_list (trim_list l) = trim_list l.
Proof.
  unfold trim_list at 1.
  rewrite (drop_ws_noop (trim_list l)) by apply trim_list_starts.
  rewrite (drop_ws_noop (rev (trim_list l))) by apply trim_list_ends.
  apply rev_involutive.
Qed.

Lemma trim_list_split (l : list ascii) :
  exists lead trail,
    l = lead ++ trim_list l ++ trail /\
    Forall (fun c => is_js_space c = true) lead /\
    Forall (fun c => is_js_space c = true) trail.
Proof.
  destruct (drop_ws_split l) as [lead [Hl Hlead]].
  destruct (drop_ws_split (rev (drop_ws l))) as [trail [Ht Htrail]].
  exists lead, (rev trail). split; [|split; [done | by apply Forall_rev]].
  rewrite Hl at 1. f_equal. unfold trim_list.
  rewrite <- rev_app_distr, <- Ht. by rewrite rev_involutive.
Qed.

Lemma drop_ws_nil_iff (l : list ascii) :
  drop_ws l = [] <-> Forall (fun c => is_js_space c = true) l.
Proof.
  induction l as [|c l IH]; simpl; [split; by auto|].
  rewrite Forall_cons. destruct (is_js_space c).
  - rewrite IH. split; [by intros ? | by intros [_ ?]].
  - split; [done | intros [? _]; discriminate].
Qed.

Lemma trim_list_nil_iff (l : list ascii) :
  trim_list l = [] <-> Forall (fun c => is_js_space c = true) l.
Proof.
  unfold trim_list. rewrite <- drop_ws_nil_iff.
  split; intros H.
  - apply (f_equal (@rev ascii)) in H. simpl in H. rewrite rev_involutive in H.
    apply drop_ws_nil_iff, Forall_rev in H. rewrite rev_involutive in H.
    apply drop_ws_nil_iff in H. by rewrite drop_ws_idem in H.
  - by rewrite H.
Qed.

Lemma list_ascii_of_trim (s : string) :
  String.list_ascii_of_string (trim s) = trim_list (String.list_ascii_of_string s).
Proof. unfold trim. apply String.list_ascii_of_string_of_list_ascii. Qed.

(** C20. [trim] removes exactly the whitespace at both ends: the string is the
    trimmed string framed by whitespace only, and the trimmed string
    neither starts nor ends with whitespace. *)
Theorem trim_spec (s : string) :
  exists lead trail,
    String.list_ascii_of_string s =
      lead ++ String.list_ascii_of_string (trim s) ++ trail /\
    Forall (fun c => is_js_space c = true) lead /\
    Forall (fun c => is_js_space c = true) trail /\
    starts_ws (String.list_ascii_of_string (trim s)) = false /\
    starts_ws (rev (String.list_ascii_of_string (trim s))) = false.
Proof.
  rewrite list_ascii_of_trim.
  destruct (trim_list_split (String.list_ascii_of_string s)) as (lead & trail & ? & ? & ?).
  exists lead, trail. auto with city.
Qed.

(** Trimming twice is trimming once. *)
Lemma trim_idempotent (s : string) : trim (trim s) = trim s.
Proof. unfold trim at 1. by rewrite list_ascii_of_trim, trim_list_idem. Qed.

(** [x.trim()] is empty exactly when [x] is made of whitespace only
    (so such a non-empty [x] is truthy while its trimmed form is not). *)
Lemma trim_empty_iff (s : string) :
  trim s = ""%string <->
  Forall (fun c => is_js_space c = true) (String.list_ascii_of_string s).
Proof.
  rewrite <- trim_list_nil_iff, <- list_ascii_of_trim.
  split; [by intros -> |].
  intros H. rewrite <- (String.string_of_list_ascii_of_string (trim s)), H. done.
Qed.

(** ** Reading back a printed number *)

Lemma digits_value_acc (r acc : Z) (ds : list Z) :
  fold_left (fun a d => a * r + d) ds acc = acc * r ^ Z.of_nat (length ds) + digits_value r ds.
Proof.
  unfold digits_value. revert acc. induction ds as [|d ds IH]; intros acc; simpl; [lia|].
  rewrite (IH (acc * r + d)), (IH (0 * r + d)), Nat2Z.inj_succ, Z.pow_succ_r by lia. ring.
Qed.

Lemma digits_value_cons (r d : Z) (ds : list Z) :
  digits_value r (d :: ds) = d * r ^ Z.of_nat (length ds) + digits_value r ds.
Proof. unfold digits_value at 1. simpl. by rewrite digits_value_acc. Qed.

Lemma length_uint_digits (u : Decimal.uint) :
  Z.of_nat (length (uint_digits u)) = Z.of_N (DecimalPos.Unsigned.usize u).
Proof. induction u; simpl; rewrite ?N2Z.inj_succ; lia. Qed.

(** Prepending a digit [k] to a numeral of [n] digits adds [k * 10 ^ n]. *)
Lemma Z_of_uint_cons (u : Decimal.uint) (f : Decimal.uint -> Decimal.uint) :
  Decimal.revapp u (f Decimal.Nil) = Decimal.rev (f u) ->
  Z.of_uint (f u) =
  Z.of_N (DecimalPos.Unsigned.of_lu (f Decimal.Nil)) * 10 ^ Z.of_N (DecimalPos.Unsigned.usize u)
  + Z.of_uint u.
Proof.
  intros Hf. unfold Z.of_uint. rewrite !DecimalPos.Unsigned.of_uint_alt, <- Hf.
  rewrite DecimalPos.Unsigned.of_lu_revapp, N2Z.inj_add, N2Z.inj_mul, N2Z.inj_pow. lia.
Qed.

Lemma digits_value_uint (u : Decimal.uint) : digits_value 10 (uint_digits u) = Z.of_uint u.
Proof.
  induction u as [|u IH|u IH|u IH|u IH|u IH|u IH|u IH|u IH|u IH|u IH]; [reflexivity|..];
    simpl uint_digits; rewrite digits_value_cons, IH, length_uint_digits;
    match goal with |- _ = Z.of_uint (?f u) => rewrite (Z_of_uint_cons u f) by reflexivity end;
    reflexivity.
Qed.

Lemma radix_digits_uint (u : Decimal.uint) :
  radix_digits 10 (String.list_ascii_of_string (NilEmpty.string_of_uint u)) = uint_digits u.
Proof. induction u; simpl; rewrite ?IHu; reflexivity. Qed.

Lemma dec_digits_uint (u : Decimal.uint) :
  Forall (fun c => is_dec_digit c = true) (String.list_ascii_of_string (NilEmpty.string_of_uint u)).
Proof. induction u; simpl; constructor; done. Qed.

(** A decimal digit is neither whitespace, nor a sign, nor the [x] of a
    hexadecimal prefix. *)
Lemma dec_digit_not_special (c : ascii) :
  is_dec_digit c = true ->
  is_js_space c = false /\ Ascii.eqb c "-" = false /\ Ascii.eqb c "+" = false /\
  Ascii.eqb c "x" = false /\ Ascii.eqb c "X" = false.
Proof.
  unfold is_dec_digit, is_js_space. intros Hd. apply andb_true_iff in Hd as [H1 H2].
  apply Nat.leb_le in H1, H2.
  split_and!;
    [ repeat (apply orb_false_iff; split); rewrite ?andb_false_iff, ?Nat.leb_gt, ?Nat.eqb_neq; lia
    | .. ];
    apply Ascii.eqb_neq; intros ->; vm_compute in H1, H2; lia.
Qed.

Lemma uint_digits_nonempty (u : Decimal.uint) :
  u <> Decimal.Nil -> uint_digits u <> [].
Proof. by destruct u. Qed.

Lemma parse_sign_digit (c : ascii) (l : list ascii) :
  is_dec_digit c = true -> parse_sign (c :: l) = (1, c :: l).
Proof. intros Hc. destruct (dec_digit_not_special c) as (_ & Hm & Hp & _); [done|]. simpl. by rewrite Hm, Hp. Qed.

(** The second character of a numeral is a digit: no [0x] prefix. *)
Lemma parse_radix_digits (l : list ascii) :
  Forall (fun c => is_dec_digit c = true) l -> parse_radix l = (10, l).
Proof.
  intros Hl. destruct l as [|z [|x l]]; [done | done|].
  inv_clear Hl. match goal with H : Forall _ (x :: l) |- _ => inv_clear H end.
  destruct (dec_digit_not_special x) as (_ & _ & _ & Hx & HX); [done|].
  simpl. by rewrite Hx, HX, andb_false_r.
Qed.

(** The digits [parseInt] reads from a numeral, and what they are worth. *)
Lemma parse_numeral (u : Decimal.uint) :
  u <> Decimal.Nil ->
  parse_digits (String.list_ascii_of_string (NilEmpty.string_of_uint u)) = Some (Z.of_uint u).
Proof.
  intros Hu. unfold parse_digits. rewrite parse_radix_digits by apply dec_digits_uint.
  rewrite radix_digits_uint, <- digits_value_uint.
  destruct (uint_digits u) eqn:Hds; [by apply uint_digits_nonempty in Hu | done].
Qed.

(** [parseInt] of a decimal numeral with a non-empty digit string. *)
Lemma parseInt_int (d : Decimal.int) :
  match d with Decimal.Pos u | Decimal.Neg u => u end <> Decimal.Nil ->
  parseInt (JStr (NilEmpty.string_of_int d)) =
  match d with
  | Decimal.Pos u => num_of_parsed 1 (Z.of_uint u)
  | Decimal.Neg u => num_of_parsed (-1) (Z.of_uint u)
  end.
Proof.
  intros Hu. unfold parseInt. simpl js_to_string.
  destruct d as [u|u]; simpl NilEmpty.string_of_int.
  - pose proof (dec_digits_uint u) as Hdig.
    destruct (String.list_ascii_of_string (NilEmpty.string_of_uint u)) as [|c l] eqn:Hl;
      [by destruct u|].
    inv_clear Hdig. destruct (dec_digit_not_special c) as (Hsp & _); [done|].
    rewrite drop_ws_noop by done. rewrite parse_sign_digit by done.
    rewrite <- Hl. cbn beta iota zeta. by rewrite (parse_numeral u Hu).
  - rewrite drop_ws_noop by reflexivity. simpl parse_sign. cbn beta iota zeta.
    by rewrite (parse_numeral u Hu).
Qed.

(** [parseInt] reads the decimal form of an integer as the nearest
    double. *)
Lemma parseInt_decimal (z : Z) : parseInt (JStr (str_of_Z z)) = round_int z.
Proof.
  unfold str_of_Z. pose proof (DecimalZ.of_to z) as Hz.
  rewrite parseInt_int.
  - unfold num_of_parsed.
    destruct (Z.to_int z) as [u|u] eqn:Ht; simpl in Hz.
    + rewrite (proj2 (Z.ltb_ge 1 0)), andb_false_r by lia. f_equal. lia.
    + destruct (Z.eqb_spec (Z.of_uint u) 0) as [E|E]; simpl.
      * exfalso. subst z. rewrite E in Ht. discriminate Ht.
      * f_equal. lia.
  - destruct (Z.to_int z) as [u|u] eqn:Ht; intros ->; simpl in Hz; subst z; discriminate Ht.
Qed.
