(* ===== verification/ObjectId.v ===== *)
(** MongoDB ObjectIds and the cast Mongoose applies to [req.params.id] in
    [MayorAlert.findById(req.params.id)] ([mayorAlert.js], line 55).  An
    ObjectId is a 96-bit number; it prints as 24 lowercase hex digits.
    The cast accepts a 24-character hex string in either case and, in the
    BSON versions under Mongoose 6 and 7, also a 12-character string read
    as its 12 bytes; anything else is a [CastError].  Which Mongoose
    release the server runs is not recorded in [src/], so the behaviours
    that differ between releases are fields of [MongooseLib]. *)

From Stdlib Require Import ZArith Lia Ascii.
From stdpp Require Import base list option strings.
From S2P Require Import Prelude JsValue.

Local Open Scope Z_scope.

(** The library behaviours that differ between Mongoose releases:
    [Document.prototype.remove] exists up to Mongoose 6, and a
    12-character string casts to an ObjectId up to BSON 5 (Mongoose 7). *)
Record MongooseLib := {
  lib_doc_remove : bool;
  lib_oid_12 : bool
}.

Definition mongoose6 : MongooseLib := {| lib_doc_remove := true; lib_oid_12 := true |}.
Definition mongoose7 : MongooseLib := {| lib_doc_remove := false; lib_oid_12 := true |}.
Definition mongoose8 : MongooseLib := {| lib_doc_remove := false; lib_oid_12 := false |}.

Definition oid_bound : Z := 2 ^ 96.

(** The [k] base-16 digits of [n mod 16^k], most significant first. *)
Fixpoint hex_values (k : nat) (n : Z) : list Z :=
  match k with
  | O => []
  | S k => hex_values k (n / 16) ++ [n mod 16]
  end.

Definition hex_digit (d : Z) : ascii :=
  ascii_of_nat (Z.to_nat (if d <? 10 then 48 + d else 87 + d)).

(** [ObjectId.prototype.toHexString]. *)
Definition oid_hex (n : Z) : string :=
  String.string_of_list_ascii (map hex_digit (hex_values 24 n)).

(** The cast of a path parameter to an ObjectId; [None] is the
    [CastError] Mongoose throws. *)
Definition cast_oid (lib : MongooseLib) (s : string) : option Z :=
  let l := String.list_ascii_of_string s in
  if ((length l =? 24)%nat && (length (radix_digits 16 l) =? 24)%nat)%bool
  then Some (digits_value 16 (radix_digits 16 l))
  else if (lib_oid_12 lib && (length l =? 12)%nat
           && forallb (fun c => (nat_of_ascii c <? 128)%nat) l)%bool
  then Some (digits_value 256 (map (fun c => Z.of_nat (nat_of_ascii c)) l))
  else None.

(** ** Lemmas *)

Lemma length_hex_values (k : nat) (n : Z) : length (hex_values k n) = k.
Proof.
  revert n. induction k as [|k IH]; intros n; simpl; [done|].
  rewrite length_app, IH. simpl. lia.
Qed.

Lemma hex_values_range (k : nat) (n : Z) :
  Forall (fun d => 0 <= d < 16) (hex_values k n).
Proof.
  revert n. induction k as [|k IH]; intros n; simpl; [done|].
  apply Forall_app; split; [apply IH|].
  constructor; [|done]. apply Z.mod_pos_bound. lia.
Qed.

Lemma digit_value_hex_digit (d : Z) :
  0 <= d < 16 -> digit_value (hex_digit d) = Some d.
Proof.
  intros Hd.
  assert (d = 0 \/ d = 1 \/ d = 2 \/ d = 3 \/ d = 4 \/ d = 5 \/ d = 6 \/ d = 7 \/
          d = 8 \/ d = 9 \/ d = 10 \/ d = 11 \/ d = 12 \/ d = 13 \/ d = 14 \/ d = 15)
    as Hcases by lia.
  repeat destruct Hcases as [-> | Hcases]; try reflexivity; subst; reflexivity.
Qed.

Lemma radix_digits_hex (ds : list Z) :
  Forall (fun d => 0 <= d < 16) ds -> radix_digits 16 (map hex_digit ds) = ds.
Proof.
  induction 1 as [|d ds Hd _ IH]; simpl; [done|].
  rewrite digit_value_hex_digit by done. destruct_Zb; [by rewrite IH | lia].
Qed.

Lemma digits_value_snoc (r : Z) (ds : list Z) (d : Z) :
  digits_value r (ds ++ [d]) = digits_value r ds * r + d.
Proof. unfold digits_value. by rewrite fold_left_app. Qed.

Lemma digits_value_hex_values (k : nat) (n : Z) :
  digits_value 16 (hex_values k n) = n mod 16 ^ Z.of_nat k.
Proof.
  revert n. induction k as [|k IH]; intros n; simpl.
  - by rewrite Z.mod_1_r.
  - rewrite digits_value_snoc, IH, Nat2Z.inj_succ, Z.pow_succ_r by lia.
    rewrite Z.rem_mul_r by (try apply Z.pow_pos_nonneg; lia).
    lia.
Qed.

#[export] Hint Resolve hex_values_range : city.

(** C21. Printing an ObjectId and casting the printed form back gives the
    ObjectId, in every Mongoose release. *)
Theorem cast_oid_hex (lib : MongooseLib) (n : Z) :
  0 <= n < oid_bound -> cast_oid lib (oid_hex n) = Some n.
Proof.
  intros Hn. unfold cast_oid, oid_hex.
  rewrite String.list_ascii_of_string_of_list_ascii.
  rewrite radix_digits_hex by apply hex_values_range.
  rewrite length_map, length_hex_values, digits_value_hex_values. simpl.
  rewrite Z.mod_small; [done|].
  unfold oid_bound in Hn. simpl. lia.
Qed.

Lemma cast_oid_hex_witness : cast_oid mongoose8 (oid_hex 3) = Some 3.
Proof. apply cast_oid_hex. unfold oid_bound. lia. Defined.
