(* ===== verification/Mongo.v ===== *)
(** The document store as the route handlers see it through Mongoose: the
    process-wide [World] (connection state and [bufferCommands], which
    [connectDB] in [database.js] sets; the [mayoralerts] and [users]
    collections; the console), the state-and-exception monad [M] in which
    the [async] handlers are written ([await] is [let*], [throw] and
    [try]/[catch] are [Mthrow] and [Mtry]), and the queries the handlers
    issue.  A query that makes a round trip to the server first consults
    the connection state ([db_call]): with [bufferCommands = false] a
    query issued before the connection is open throws at once.  Each round
    trip also consumes one entry of the fault oracle [w_faults]; [true]
    makes that round trip fail as a dropped or timed-out socket does.
    Dates are milliseconds since the epoch.  The page query receives the
    handler's [skip] and [limit] as doubles and applies them as the
    driver and the server do ([driver_limit], [to_long]). *)

From Stdlib Require Import ZArith Lia Ascii Orders Mergesort Sorted Permutation.
From stdpp Require Import base list option strings sets.
From S2P Require Import Prelude JsNumber JsValue ObjectId.

Local Open Scope Z_scope.

(** ** Documents *)

(** A [MayorAlert] document ([models/MayorAlert.js] is not in [src/]; its
    fields are the ones the routes write and the spec lists). *)
Record Alert := mkAlert {
  al_id : Z;
  al_title : string;
  al_message : string;
  al_sentBy : Z;
  al_createdAt : Z
}.

(** A [User] document, as far as the routes read it. *)
Record User := mkUser {
  us_id : Z;
  us_role : string
}.

(** The JSON form of an alert ([lean()] objects and [toJSON]). *)
Definition alert_json (a : Alert) : JsVal :=
  JObj [("_id", JStr (oid_hex (al_id a)));
        ("title", JStr (al_title a));
        ("message", JStr (al_message a));
        ("sentBy", JStr (oid_hex (al_sentBy a)));
        ("createdAt", JNum (al_createdAt a))].

(** ** The world *)

Inductive ConnState :=
  | Disconnected
  | Connecting
  | Connected (host : string).

Record JsError := mkError {
  err_name : string;
  err_message : string
}.

(** [console.log(msg)], [console.error(prefix, error)] and
    [console.error(msg)]. *)
Inductive LogLine :=
  | LogInfo (msg : string)
  | LogError (prefix : string) (e : JsError)
  | LogErrorText (msg : string).

Record World := mkWorld {
  w_conn : ConnState;
  w_buffer : bool;
  w_alerts : list Alert;
  w_users : list User;
  w_next_oid : Z;
  w_now : Z;
  w_faults : list bool;
  w_log : list LogLine
}.

Definition set_conn (c : ConnState) (w : World) : World :=
  mkWorld c (w_buffer w) (w_alerts w) (w_users w) (w_next_oid w) (w_now w) (w_faults w) (w_log w).
Definition set_buffer (b : bool) (w : World) : World :=
  mkWorld (w_conn w) b (w_alerts w) (w_users w) (w_next_oid w) (w_now w) (w_faults w) (w_log w).
Definition set_alerts (l : list Alert) (w : World) : World :=
  mkWorld (w_conn w) (w_buffer w) l (w_users w) (w_next_oid w) (w_now w) (w_faults w) (w_log w).
Definition set_next_oid (n : Z) (w : World) : World :=
  mkWorld (w_conn w) (w_buffer w) (w_alerts w) (w_users w) n (w_now w) (w_faults w) (w_log w).
Definition set_faults (fs : list bool) (w : World) : World :=
  mkWorld (w_conn w) (w_buffer w) (w_alerts w) (w_users w) (w_next_oid w) (w_now w) fs (w_log w).
Definition add_log (l : LogLine) (w : World) : World :=
  mkWorld (w_conn w) (w_buffer w) (w_alerts w) (w_users w) (w_next_oid w) (w_now w) (w_faults w)
    (w_log w ++ [l]).

(** ** The monad *)

Inductive Outcome (A : Type) :=
  | Ok (a : A)
  | Throw (e : JsError).
Arguments Ok {A} a.
Arguments Throw {A} e.

Definition M (A : Type) : Type := World -> Outcome A * World.

Definition Mret {A} (a : A) : M A := fun w => (Ok a, w).

Definition Mbind {A B} (m : M A) (k : A -> M B) : M B := fun w =>
  match m w with
  | (Ok a, w') => k a w'
  | (Throw e, w') => (Throw e, w')
  end.

Definition Mthrow {A} (e : JsError) : M A := fun w => (Throw e, w).

(** [try { m } catch (e) { h(e) }]. *)
Definition Mtry {A} (m : M A) (h : JsError -> M A) : M A := fun w =>
  match m w with
  | (Throw e, w') => h e w'
  | r => r
  end.

Declare Scope m_scope.
Delimit Scope m_scope with M.
Notation "'let*' x ':=' m 'in' k" := (Mbind m (fun x => k))
  (at level 10, x name, m at level 100, k at level 200) : m_scope.
Notation "'let*' ' p ':=' m 'in' k" := (Mbind m (fun x => match x with p => k end))
  (at level 10, p pattern, m at level 100, k at level 200) : m_scope.
Local Open Scope m_scope.

Definition console_log (s : string) : M unit := fun w => (Ok tt, add_log (LogInfo s) w).
Definition console_error (prefix : string) (e : JsError) : M unit :=
  fun w => (Ok tt, add_log (LogError prefix e) w).

(** [Promise.all([p1, p2])]: both operations are dispatched, in this
    order, before either is awaited; the first rejection rejects the
    whole. *)
Definition promise_all2 {A B} (p1 : M A) (p2 : M B) : M (A * B) := fun w =>
  let (r1, w1) := p1 w in
  let (r2, w2) := p2 w1 in
  match r1, r2 with
  | Ok a, Ok b => (Ok (a, b), w2)
  | Throw e, _ => (Throw e, w2)
  | _, Throw e => (Throw e, w2)
  end.

(** ** Round trips to the server *)

Definition not_connected_error (op : string) : JsError :=
  mkError "MongooseError"
    ("Cannot call `" ++ op ++ "` before initial connection is complete if `bufferCommands = false`. Make sure you `await mongoose.connect()` if you have `bufferCommands = false`.").

(** With buffering on, a query issued while disconnected waits
    [bufferTimeoutMS] (10 s) for a connection; the model takes the
    timeout.  [connectDB] turns buffering off before it first awaits, so
    no reachable state takes this branch (see [Server]). *)
Definition buffering_timeout_error (op : string) : JsError :=
  mkError "MongooseError" ("Operation `" ++ op ++ "` buffering timed out after 10000ms").

Definition network_error : JsError :=
  mkError "MongoNetworkError" "connection timed out".

Definition db_call {A} (op : string) (k : World -> Outcome A * World) : M A := fun w =>
  match w_conn w with
  | Connected _ =>
      match w_faults w with
      | true :: fs => (Throw network_error, set_faults fs w)
      | false :: fs => k (set_faults fs w)
      | [] => k w
      end
  | _ =>
      (Throw (if w_buffer w then buffering_timeout_error op else not_connected_error op), w)
  end.

(** ** Queries *)

(** [sort({ createdAt: -1 })]: newest first; a stable merge sort, so
    alerts created in the same millisecond keep their natural order. *)
Module CreatedAtDesc <: Orders.TotalLeBool'.
Definition t := Alert.
Definition leb (a b : Alert) : bool := al_createdAt b <=? al_createdAt a.
Definition leb_total (a b : Alert) : leb a b = true \/ leb b a = true :=
  Zleb_total (al_createdAt b) (al_createdAt a).
End CreatedAtDesc.

Module AlertSort := Sort CreatedAtDesc.

Definition sort_desc (l : list Alert) : list Alert := AlertSort.sort l.

Definition skip_error (n : Z) : JsError :=
  mkError "MongoServerError"
    ("BSON field 'skip' value must be >= 0, actual value '" ++ str_of_Z n ++ "'").

(** The server reads the [skip] and [limit] of a [find] command as
    64-bit integers ([safeInt64]; [BSONElement::safeNumberLong] on a
    double): [NaN] is 0, values beyond the range are clamped to it.  The
    listing's doubles are integral, so no truncation is involved. *)
Definition to_long (x : Num) : Z :=
  match x with
  | NFin z => Z.max (- 2 ^ 63) (Z.min (2 ^ 63 - 1) z)
  | NNegZero | NNaN => 0
  | NInf false => 2 ^ 63 - 1
  | NInf true => - 2 ^ 63
  end.

(** The Node driver's [limit] option ([makeFindCommand]): a negative
    limit is sent negated, with [singleBatch]. *)
Definition driver_limit (limit : Num) : Num :=
  if js_lt limit (NFin 0) then js_neg limit else limit.

(** [.limit(n)] as the server applies it: zero means no limit. *)
Definition apply_limit (n : Z) (l : list Alert) : list Alert :=
  if n =? 0 then l else take (Z.to_nat n) l.

(** [MayorAlert.find().sort({ createdAt: -1 }).skip(skip).limit(limit).lean()]:
    the server refuses a negative [skip]. *)
Definition find_sorted_page (skip limit : Num) : M (list Alert) :=
  db_call "mayoralerts.find()" (fun w =>
    let s := to_long skip in
    if s <? 0 then (Throw (skip_error s), w)
    else (Ok (apply_limit (to_long (driver_limit limit)) (drop (Z.to_nat s) (sort_desc (w_alerts w)))), w)).

(** [MayorAlert.countDocuments()]. *)
Definition count_documents : M nat :=
  db_call "mayoralerts.countDocuments()" (fun w => (Ok (length (w_alerts w)), w)).

Definition cast_error (s : string) : JsError :=
  mkError "CastError"
    ("Cast to ObjectId failed for value " ++ dquote ++ s ++ dquote ++
     " (type string) at path " ++ dquote ++ "_id" ++ dquote ++
     " for model " ++ dquote ++ "MayorAlert" ++ dquote).

(** [MayorAlert.findById(id)]: the cast runs before any round trip. *)
Definition find_alert (n : Z) (l : list Alert) : option Alert :=
  List.find (fun a => al_id a =? n) l.

Definition find_by_id (lib : MongooseLib) (s : string) : M (option Alert) :=
  match cast_oid lib s with
  | None => Mthrow (cast_error s)
  | Some n => db_call "mayoralerts.findOne()" (fun w => (Ok (find_alert n (w_alerts w)), w))
  end.

(** [new MayorAlert({ title, message, sentBy })]: the ObjectId is made on
    the client, and [createdAt] is the current time. *)
Definition new_alert (title message : string) (sentBy : Z) : M Alert := fun w =>
  (Ok (mkAlert (w_next_oid w) title message sentBy (w_now w)),
   set_next_oid (w_next_oid w + 1) w).

(** The schema's [required] validators (spec: title and message are
    required), which reject the empty string; they run before the insert. *)
Definition validation_error (missing : list string) : JsError :=
  mkError "ValidationError"
    ("MayorAlert validation failed: " ++
     String.concat ", " (map (fun p : string => (p ++ ": Path `" ++ p ++ "` is required.")%string) missing)).

Definition missing_paths (a : Alert) : list string :=
  (if String.eqb (al_title a) "" then ["title"] else []) ++
  (if String.eqb (al_message a) "" then ["message"] else []).

(** [alert.save()]. *)
Definition save (a : Alert) : M Alert :=
  match missing_paths a with
  | [] => db_call "mayoralerts.insertOne()" (fun w => (Ok a, set_alerts (w_alerts w ++ [a]) w))
  | missing => Mthrow (validation_error missing)
  end.

Fixpoint delete_first (n : Z) (l : list Alert) : list Alert :=
  match l with
  | [] => []
  | a :: l' => if al_id a =? n then l' else a :: delete_first n l'
  end.

Definition remove_not_a_function : JsError :=
  mkError "TypeError" "alert.remove is not a function".

(** [alert.remove()]: a [deleteOne] by [_id] up to Mongoose 6; from
    Mongoose 7 on, documents have no [remove] method and the call throws. *)
Definition doc_remove (lib : MongooseLib) (a : Alert) : M unit :=
  if lib_doc_remove lib then
    db_call "mayoralerts.deleteOne()"
      (fun w => (Ok tt, set_alerts (delete_first (al_id a) (w_alerts w)) w))
  else Mthrow remove_not_a_function.

(** [User.find({ role: { $in: roles } })]. *)
Definition users_in_roles (roles : list string) : M (list User) :=
  db_call "users.find()" (fun w =>
    (Ok (List.filter (fun u => existsb (String.eqb (us_role u)) roles) (w_users w)), w)).

(** A healthy world: connected, and the fault oracle has no fault left. *)
Definition healthy (w : World) : Prop :=
  (exists h, w_conn w = Connected h) /\ w_faults w = [].

(** Every normal result of [m] satisfies [P]. *)
Definition returns {A} (P : A -> Prop) (m : M A) : Prop :=
  forall w a w', m w = (Ok a, w') -> P a.

(** Whatever [m] does, normally or by throwing, the world it leaves is
    related to the world it started from by [R] (a preorder: a frame
    condition or an invariant). *)
Definition keeps (R : World -> World -> Prop) {A} (m : M A) : Prop :=
  forall w, R w (snd (m w)).

(** The [mayoralerts] collection is unchanged. *)
Definition same_alerts (w w' : World) : Prop := w_alerts w' = w_alerts w.

(** The connection, the buffering flag, the clock and the users are
    unchanged: no handler touches them. *)
Definition same_env (w w' : World) : Prop :=
  w_conn w' = w_conn w /\ w_buffer w' = w_buffer w /\ w_now w' = w_now w /\
  w_users w' = w_users w.

(** The store's well-formedness: ids are distinct and below the ObjectId
    counter (so the next [new MayorAlert] gets a fresh id), and no alert is
    dated in the future. *)
Definition wf (w : World) : Prop :=
  NoDup (map al_id (w_alerts w)) /\
  Forall (fun a => al_id a < w_next_oid w /\ al_createdAt a <= w_now w) (w_alerts w).

(** [wf] is preserved from [w] to [w']. *)
Definition wf_pre (w w' : World) : Prop := wf w -> wf w'.

(** ** Lemmas *)

Lemma Mbind_ok {A B} (m : M A) (k : A -> M B) (w w' : World) (a : A) :
  m w = (Ok a, w') -> Mbind m k w = k a w'.
Proof. unfold Mbind. by intros ->. Qed.

Lemma Mbind_throw {A B} (m : M A) (k : A -> M B) (w w' : World) (e : JsError) :
  m w = (Throw e, w') -> Mbind m k w = (Throw e, w').
Proof. unfold Mbind. by intros ->. Qed.

Lemma Mtry_ok {A} (m : M A) (h : JsError -> M A) (w w' : World) (a : A) :
  m w = (Ok a, w') -> Mtry m h w = (Ok a, w').
Proof. unfold Mtry. by intros ->. Qed.

Lemma Mtry_throw {A} (m : M A) (h : JsError -> M A) (w w' : World) (e : JsError) :
  m w = (Throw e, w') -> Mtry m h w = h e w'.
Proof. unfold Mtry. by intros ->. Qed.

Lemma returns_ret {A} (P : A -> Prop) (a : A) : P a -> returns P (Mret a).
Proof. intros Ha w a' w' [= <- _]. done. Qed.

Lemma returns_throw {A} (P : A -> Prop) (e : JsError) : returns P (Mthrow e).
Proof. by intros w a w'. Qed.

Lemma returns_bind {A B} (P : B -> Prop) (m : M A) (k : A -> M B) :
  (forall a, returns P (k a)) -> returns P (Mbind m k).
Proof.
  intros Hk w b w'. unfold Mbind.
  destruct (m w) as [[a|e] w1]; [apply Hk | done].
Qed.

Lemma returns_try {A} (P : A -> Prop) (m : M A) (h : JsError -> M A) :
  returns P m -> (forall e, returns P (h e)) -> returns P (Mtry m h).
Proof.
  intros Hm Hh w a w'. unfold Mtry.
  destruct (m w) as [[a'|e] w1] eqn:E; [intros [= -> ->]; by eapply Hm | apply Hh].
Qed.

#[export] Instance same_alerts_preorder : PreOrder same_alerts.
Proof. split; [intros w; done | intros w1 w2 w3 H1 H2; unfold same_alerts in *; congruence]. Qed.

#[export] Instance same_env_preorder : PreOrder same_env.
Proof.
  split; [intros w; done|].
  intros w1 w2 w3 (?&?&?&?) (?&?&?&?). repeat split; congruence.
Qed.

#[export] Instance wf_pre_preorder : PreOrder wf_pre.
Proof. split; [intros w H; exact H | intros w1 w2 w3 H1 H2 H; auto]. Qed.

Section Keeps.
Context (R : World -> World -> Prop) `{!PreOrder R}.

Lemma keeps_ret {A} (a : A) : keeps R (Mret a).
Proof. intros w. simpl. reflexivity. Qed.

Lemma keeps_throw {A} (e : JsError) : keeps R (@Mthrow A e).
Proof. intros w. simpl. reflexivity. Qed.

Lemma keeps_bind {A B} (m : M A) (k : A -> M B) :
  keeps R m -> (forall a, keeps R (k a)) -> keeps R (Mbind m k).
Proof.
  intros Hm Hk w. unfold Mbind. specialize (Hm w).
  destruct (m w) as [[a|e] w1]; simpl in *; [|done].
  etransitivity; [exact Hm | apply Hk].
Qed.

Lemma keeps_try {A} (m : M A) (h : JsError -> M A) :
  keeps R m -> (forall e, keeps R (h e)) -> keeps R (Mtry m h).
Proof.
  intros Hm Hh w. unfold Mtry. specialize (Hm w).
  destruct (m w) as [[a|e] w1]; simpl in *; [done|].
  etransitivity; [exact Hm | apply Hh].
Qed.

Lemma keeps_promise_all2 {A B} (p1 : M A) (p2 : M B) :
  keeps R p1 -> keeps R p2 -> keeps R (promise_all2 p1 p2).
Proof.
  intros H1 H2 w. unfold promise_all2. specialize (H1 w).
  destruct (p1 w) as [r1 w1]. specialize (H2 w1). destruct (p2 w1) as [r2 w2].
  simpl in *. assert (R w w2) by (etransitivity; eauto).
  destruct r1, r2; done.
Qed.

(** A round trip keeps [R] when its body does and consuming a fault
    does. *)
Lemma keeps_db_call {A} (op : string) (k : World -> Outcome A * World) :
  (forall w fs, R w (set_faults fs w)) -> (forall w, R w (snd (k w))) ->
  keeps R (db_call op k).
Proof.
  intros Hf Hk w. unfold db_call.
  destruct (w_conn w); simpl; [reflexivity | reflexivity |].
  destruct (w_faults w) as [|[|] fs]; [apply Hk | apply Hf |].
  etransitivity; [apply (Hf w fs) | apply Hk].
Qed.

End Keeps.

Lemma keeps_console_log (R : World -> World -> Prop) (s : string) :
  (forall w l, R w (add_log l w)) -> keeps R (console_log s).
Proof. intros H w. apply H. Qed.

Lemma keeps_console_error (R : World -> World -> Prop) (p : string) (e : JsError) :
  (forall w l, R w (add_log l w)) -> keeps R (console_error p e).
Proof. intros H w. apply H. Qed.

Lemma same_alerts_find_sorted_page (skip limit : Num) :
  keeps same_alerts (find_sorted_page skip limit).
Proof. apply keeps_db_call; [apply _ | done | intros w; cbv zeta; by destruct (to_long skip <? 0)]. Qed.

Lemma same_alerts_count_documents : keeps same_alerts count_documents.
Proof. by apply keeps_db_call; [apply _ | ..]. Qed.

Lemma same_alerts_find_by_id (lib : MongooseLib) (s : string) : keeps same_alerts (find_by_id lib s).
Proof.
  unfold find_by_id. destruct (cast_oid lib s); [|apply keeps_throw; apply _].
  by apply keeps_db_call; [apply _ | ..].
Qed.

Lemma same_alerts_users_in_roles (roles : list string) : keeps same_alerts (users_in_roles roles).
Proof. by apply keeps_db_call; [apply _ | ..]. Qed.

Lemma same_alerts_new_alert (t m : string) (u : Z) : keeps same_alerts (new_alert t m u).
Proof. done. Qed.

Lemma same_env_set_faults (fs : list bool) (w : World) : same_env w (set_faults fs w).
Proof. done. Qed.

Lemma same_env_add_log (l : LogLine) (w : World) : same_env w (add_log l w).
Proof. done. Qed.

Lemma same_env_db_call {A} (op : string) (k : World -> Outcome A * World) :
  (forall w, same_env w (snd (k w))) -> keeps same_env (db_call op k).
Proof. intros Hk. apply keeps_db_call; [apply _ | intros w fs; apply same_env_set_faults | done]. Qed.

Lemma wf_pre_db_call {A} (op : string) (k : World -> Outcome A * World) :
  (forall w, wf_pre w (snd (k w))) -> keeps wf_pre (db_call op k).
Proof. intros Hk. apply keeps_db_call; [apply _ | by intros w fs Hw | done]. Qed.

(** The queries that do not write leave both the environment and [wf]. *)
Lemma reads_keep (R : World -> World -> Prop) `{!PreOrder R} (lib : MongooseLib) :
  (forall w fs, R w (set_faults fs w)) ->
  (forall skip limit, keeps R (find_sorted_page skip limit)) /\
  keeps R count_documents /\
  (forall s, keeps R (find_by_id lib s)) /\
  (forall roles, keeps R (users_in_roles roles)).
Proof.
  intros Hf. split_and!.
  - intros skip limit. apply keeps_db_call; [done|done|].
    intros w. cbv zeta. destruct (to_long skip <? 0); simpl; reflexivity.
  - apply keeps_db_call; [done|done|]. intros w. simpl. reflexivity.
  - intros s. unfold find_by_id. destruct (cast_oid lib s); [|apply keeps_throw, _].
    apply keeps_db_call; [done|done|]. intros w. simpl. reflexivity.
  - intros roles. apply keeps_db_call; [done|done|]. intros w. simpl. reflexivity.
Qed.

Lemma same_env_new_alert (t m : string) (u : Z) : keeps same_env (new_alert t m u).
Proof. done. Qed.

Lemma same_env_save (a : Alert) : keeps same_env (save a).
Proof.
  unfold save. destruct (missing_paths a); [|apply keeps_throw, _].
  apply same_env_db_call. done.
Qed.

Lemma same_env_doc_remove (lib : MongooseLib) (a : Alert) : keeps same_env (doc_remove lib a).
Proof.
  unfold doc_remove. destruct (lib_doc_remove lib); [|apply keeps_throw, _].
  apply same_env_db_call. done.
Qed.

(** [wf] sees the alerts as a multiset: dropping or reordering alerts
    keeps it. *)
Lemma wf_submseteq (w w' : World) :
  w_next_oid w' = w_next_oid w -> w_now w' = w_now w -> w_alerts w' ⊆+ w_alerts w ->
  wf w -> wf w'.
Proof.
  intros Hn Ht Hsub [Hnd Hf]. unfold wf. rewrite Hn, Ht. split.
  - eapply NoDup_submseteq_inv; [|exact Hnd]. by apply fmap_submseteq.
  - by eapply Forall_submseteq_inv.
Qed.

(** Raising the ObjectId counter keeps [wf]. *)
Lemma wf_set_next_oid (n : Z) (w : World) : w_next_oid w <= n -> wf w -> wf (set_next_oid n w).
Proof.
  intros Hle [Hnd Hf]. split; [done|]. eapply Forall_impl; [exact Hf|]. simpl. lia.
Qed.

Lemma delete_first_sublist (n : Z) (l : list Alert) : delete_first n l `sublist_of` l.
Proof.
  induction l as [|a l IH]; simpl; [done|].
  destruct (al_id a =? n); [by apply sublist_cons | by apply sublist_skip].
Qed.

Lemma delete_first_wf (n : Z) (w : World) : wf w -> wf (set_alerts (delete_first n (w_alerts w)) w).
Proof.
  apply wf_submseteq; [done | done |]. simpl. by apply sublist_submseteq, delete_first_sublist.
Qed.

Lemma wf_pre_doc_remove (lib : MongooseLib) (a : Alert) : keeps wf_pre (doc_remove lib a).
Proof.
  unfold doc_remove. destruct (lib_doc_remove lib); [|apply keeps_throw, _].
  apply wf_pre_db_call. intros w Hw. by apply delete_first_wf.
Qed.

(** Appending an alert whose id is above every stored id and below the
    counter, dated no later than now, keeps [wf]. *)
Lemma insert_wf (a : Alert) (w : World) :
  wf w -> (forall x, x ∈ w_alerts w -> al_id x < al_id a) ->
  al_id a < w_next_oid w -> al_createdAt a <= w_now w ->
  wf (set_alerts (w_alerts w ++ [a]) w).
Proof.
  intros [Hnd Hf] Hlt Hnext Hnow. unfold wf. cbn [w_alerts set_alerts w_next_oid w_now].
  split.
  - rewrite map_app. apply NoDup_app. split_and!; [done| |by apply NoDup_singleton].
    intros x Hx Hin. apply list_elem_of_fmap in Hx as (y & -> & Hy).
    simpl in Hin. apply list_elem_of_singleton in Hin. specialize (Hlt y Hy). lia.
  - apply Forall_app. split; [done|]. by constructor.
Qed.

(** [new MayorAlert(...)] followed by [save()]: the new id is fresh, so
    the insert keeps [wf] whatever the continuation does after it. *)
Lemma wf_pre_new_save {B} (t m : string) (u : Z) (k : Alert -> M B) :
  (forall a, keeps wf_pre (k a)) ->
  keeps wf_pre (Mbind (new_alert t m u) (fun a => Mbind (save a) k)).
Proof.
  intros Hk w Hw. unfold Mbind at 1. simpl.
  set (a := mkAlert (w_next_oid w) t m u (w_now w)).
  set (w1 := set_next_oid (w_next_oid w + 1) w).
  assert (Hw1 : wf w1) by (apply wf_set_next_oid; [lia | done]).
  assert (Hfresh : forall x, x ∈ w_alerts w1 -> al_id x < al_id a).
  { intros x Hx. destruct Hw as [_ Hf]. rewrite Forall_forall in Hf.
    destruct (Hf x Hx). simpl. lia. }
  assert (Hsave : wf (snd (save a w1))).
  { unfold save. destruct (missing_paths a); [|exact Hw1].
    unfold db_call. destruct (w_conn w1); [exact Hw1 | exact Hw1 |].
    destruct (w_faults w1) as [|[|] fs]; simpl.
    - apply (insert_wf a w1); [done | done | simpl; lia | simpl; lia].
    - done.
    - apply (insert_wf a (set_faults fs w1)); [done | done | simpl; lia | simpl; lia]. }
  revert Hsave. unfold Mbind. destruct (save a w1) as [[b|e] w2]; simpl; intros Hs.
  - by apply Hk.
  - done.
Qed.

Lemma db_call_no_fault {A} (op : string) (k : World -> Outcome A * World) (w : World)
    (h : string) (fs : list bool) :
  w_conn w = Connected h -> w_faults w = false :: fs -> db_call op k w = k (set_faults fs w).
Proof. intros Hc Hf. unfold db_call. by rewrite Hc, Hf. Qed.

Lemma db_call_fault {A} (op : string) (k : World -> Outcome A * World) (w : World)
    (h : string) (fs : list bool) :
  w_conn w = Connected h -> w_faults w = true :: fs ->
  db_call op k w = (Throw network_error, set_faults fs w).
Proof. intros Hc Hf. unfold db_call. by rewrite Hc, Hf. Qed.

Lemma healthy_set_next_oid (n : Z) (w : World) : healthy (set_next_oid n w) <-> healthy w.
Proof. done. Qed.

Lemma healthy_add_log (l : LogLine) (w : World) : healthy (add_log l w) <-> healthy w.
Proof. done. Qed.

Lemma healthy_set_alerts (l : list Alert) (w : World) : healthy (set_alerts l w) <-> healthy w.
Proof. done. Qed.

Lemma delete_first_not_in (n : Z) (l : list Alert) :
  NoDup (map al_id l) -> forall x, x ∈ delete_first n l -> al_id x <> n.
Proof.
  induction l as [|a l IH]; simpl; intros Hnd x Hx; [by apply not_elem_of_nil in Hx|].
  apply NoDup_cons in Hnd as [Ha Hnd].
  destruct (Z.eqb_spec (al_id a) n) as [<-|Hne].
  - intros Heq. apply Ha, list_elem_of_fmap. eauto.
  - apply elem_of_cons in Hx as [->|Hx]; [done | by apply IH].
Qed.

(** With no alert of id [n] left, [findById(n)] finds nothing and
    [deleteOne] deletes nothing. *)
Lemma find_alert_absent (n : Z) (l : list Alert) :
  (forall x, x ∈ l -> al_id x <> n) -> find_alert n l = None.
Proof.
  induction l as [|a l IH]; intros H; [done|]. unfold find_alert. simpl.
  rewrite (proj2 (Z.eqb_neq _ _) (H a (list_elem_of_here _ _))).
  apply IH. intros x Hx. apply H. by apply list_elem_of_further.
Qed.

Lemma delete_first_absent (n : Z) (l : list Alert) :
  (forall x, x ∈ l -> al_id x <> n) -> delete_first n l = l.
Proof.
  induction l as [|a l IH]; intros H; [done|]. simpl.
  rewrite (proj2 (Z.eqb_neq _ _) (H a (list_elem_of_here _ _))).
  f_equal. apply IH. intros x Hx. apply H. by apply list_elem_of_further.
Qed.

(** With distinct ids, [deleteOne] by id removes every alert with that
    id. *)
Lemma delete_first_filter (n : Z) (l : list Alert) :
  NoDup (map al_id l) -> delete_first n l = filter (fun x => al_id x <> n) l.
Proof.
  induction l as [|a l IH]; intros Hnd; [done|]. simpl.
  apply NoDup_cons in Hnd as [Ha Hnd]. rewrite filter_cons.
  destruct (Z.eqb_spec (al_id a) n) as [<-|Hne].
  - rewrite decide_False by tauto. symmetry. apply list_filter_all.
    intros x Hx Heq. apply Ha, list_elem_of_fmap. exists x. by rewrite Heq.
  - rewrite decide_True by done. f_equal. by apply IH.
Qed.

Lemma find_alert_None (n : Z) (l : list Alert) :
  find_alert n l = None -> forall x, x ∈ l -> al_id x <> n.
Proof.
  unfold find_alert. intros H x Hx Heq.
  apply list_elem_of_In in Hx. apply (find_none _ _ H) in Hx.
  by rewrite Heq, Z.eqb_refl in Hx.
Qed.

#[export] Hint Resolve returns_ret returns_throw returns_bind returns_try : city.
#[export] Hint Resolve keeps_ret keeps_throw keeps_bind keeps_try keeps_promise_all2
  same_alerts_find_sorted_page same_alerts_count_documents same_alerts_find_by_id
  same_alerts_users_in_roles same_alerts_new_alert : city.

Lemma db_call_healthy {A} (op : string) (k : World -> Outcome A * World) (w : World) :
  healthy w -> db_call op k w = k w.
Proof. intros [[h Hc] Hf]. unfold db_call. by rewrite Hc, Hf. Qed.

(** Before the connection is open and with buffering off, every round
    trip throws and leaves the world unchanged. *)
Lemma db_call_not_connected {A} (op : string) (k : World -> Outcome A * World) (w : World) :
  (forall h, w_conn w <> Connected h) -> w_buffer w = false ->
  db_call op k w = (Throw (not_connected_error op), w).
Proof.
  intros Hc Hb. unfold db_call. rewrite Hb.
  destruct (w_conn w); [done | done | by destruct (Hc host)].
Qed.

Lemma sort_desc_perm (l : list Alert) : Permutation (sort_desc l) l.
Proof. symmetry. apply AlertSort.Permuted_sort. Qed.

Lemma sort_desc_sorted (l : list Alert) :
  StronglySorted (fun a b => al_createdAt b <= al_createdAt a) (sort_desc l).
Proof.
  eapply StronglySorted_weaken; [|apply AlertSort.StronglySorted_sort].
  - intros a b H. unfold is_true, CreatedAtDesc.leb in H. by apply Z.leb_le.
  - intros a b c. unfold is_true, CreatedAtDesc.leb. rewrite !Z.leb_le. lia.
Qed.

Lemma length_sort_desc (l : list Alert) : length (sort_desc l) = length l.
Proof. apply Permutation_length, sort_desc_perm. Qed.

#[export] Hint Resolve db_call_healthy sort_desc_perm sort_desc_sorted : city.
#[export] Hint Rewrite length_sort_desc : city_rw.
