(* ===== verification/Database.v ===== *)
(** [connectDB] of [src/server/config/database.js], and the contract of
    the connection manager it implements.  The function is [async] and
    awaits once, on [mongoose.connect] (line 12); other work of the
    process (HTTP requests in particular) runs while that promise is
    pending, so the model splits it at the [await]: [connectDB_start] is
    the synchronous part (lines 3-12: the [MONGODB_URI] check,
    [bufferCommands] off, the call of [mongoose.connect]) and
    [connectDB_settle] the continuation once the promise settles (lines
    12-28: the log of the host, or the [catch] block).  Each part ends in
    a [ConnectStep]: suspended at the [await], returned, or
    [process.exit(code)] called.  What Mongoose itself does on the call
    and on the settlement (its connection state) is [mongoose_connect] and
    [mongoose_settle], kept apart from the code of the repository.

    [ConnectionManager] is the interface between the process and its
    connection manager: the two parts as functions, with the laws
    [start_law] and [settle_law] the process relies on.  [Server] is
    proved against the class; [connectDB_manager] is the instance
    [connectDB] provides.  [connect_contract] is the contract of the
    spec's connection manager ([connect(uri, options) -> Connection |
    fatal exit]); [connectDB_refines] shows that [connectDB] run to
    completion implements it. *)

From Stdlib Require Import ZArith Lia.
From stdpp Require Import base list option strings.
From S2P Require Import Prelude JsValue ObjectId Mongo.

Local Open Scope Z_scope.

(** The options object of lines 13-21, field by field. *)
Record ConnectOptions := mkConnectOptions {
  useNewUrlParser : bool;
  useUnifiedTopology : bool;
  maxPoolSize : Z;
  minPoolSize : Z;
  maxIdleTimeMS : Z;
  socketTimeoutMS : Z;
  readPreference : string
}.

Definition connect_options : ConnectOptions :=
  {| useNewUrlParser := true;
     useUnifiedTopology := true;
     maxPoolSize := 10;
     minPoolSize := 5;
     maxIdleTimeMS := 30000;
     socketTimeoutMS := 30000;
     readPreference := "nearest" |}.

(** The arguments of a call [mongoose.connect(uri, options)]. *)
Record ConnectAttempt := mkAttempt {
  att_uri : string;
  att_options : ConnectOptions
}.

(** How the promise of [mongoose.connect] settles: with the connection
    ([conn.connection.host]) or with an error. *)
Inductive ConnectOutcome :=
  | ConnectResolved (host : string)
  | ConnectRejected (e : JsError).

(** Where the body of [connectDB] stands when it gives control back. *)
Inductive ConnectStep :=
  | Await (att : ConnectAttempt)
  | Returned
  | Exit (code : Z).

(** [new Error('MONGODB_URI is not defined in environment variables')]. *)
Definition missing_uri_error : JsError :=
  mkError "Error" "MONGODB_URI is not defined in environment variables".

(** The [catch] block: [console.error] and [process.exit(1)]. *)
Definition connect_catch (e : JsError) (w : World) : World * ConnectStep :=
  (add_log (LogErrorText ("❌ Error connecting to MongoDB: " ++ err_message e)) w, Exit 1).

(** Mongoose's side of the call [mongoose.connect(uri, options)]: the
    default connection starts connecting. *)
Definition mongoose_connect (uri : string) (opts : ConnectOptions) (w : World)
  : World * ConnectAttempt :=
  (set_conn Connecting w, mkAttempt uri opts).

(** Mongoose's side of the settlement: connected to the host, or back to
    disconnected. *)
Definition mongoose_settle (o : ConnectOutcome) (w : World) : World :=
  match o with
  | ConnectResolved host => set_conn (Connected host) w
  | ConnectRejected _ => set_conn Disconnected w
  end.

(** [connectDB()] up to its [await]; [env_uri] is
    [process.env.MONGODB_URI] ([None] when unset). *)
Definition connectDB_start (env_uri : option string) (w : World) : World * ConnectStep :=
  match env_uri with
  | Some uri =>
      if truthy (JStr uri) then
        let '(w', att) := mongoose_connect uri connect_options (set_buffer false w) in
        (w', Await att)
      else connect_catch missing_uri_error w
  | None => connect_catch missing_uri_error w
  end.

(** The rest of [connectDB()] once [mongoose.connect] settles. *)
Definition connectDB_settle (o : ConnectOutcome) (w : World) : World * ConnectStep :=
  let w := mongoose_settle o w in
  match o with
  | ConnectResolved host => (add_log (LogInfo ("✅ MongoDB Connected: " ++ host)) w, Returned)
  | ConnectRejected e => connect_catch e w
  end.

(** [connectDB()] run to completion, the promise settling with [o]. *)
Definition connectDB_run (env_uri : option string) (o : ConnectOutcome) (w : World)
  : World * ConnectStep :=
  match connectDB_start env_uri w with
  | (w', Await _) => connectDB_settle o w'
  | r => r
  end.

(** ** The contract of the connection manager *)

(** [connect(uri, options) -> Connection | fatal exit]: a configured URI
    and a connection that succeeds give the connection; an absent URI
    ([ConfigurationError]) or a failed connection ([ConnectionError]) is
    fatal. *)
Inductive ConnResult :=
  | Connection (host : string)
  | FatalExit (e : JsError).

Definition connect_contract (env_uri : option string) (o : ConnectOutcome) : ConnResult :=
  match env_uri with
  | Some uri =>
      if String.eqb uri "" then FatalExit missing_uri_error
      else match o with
           | ConnectResolved host => Connection host
           | ConnectRejected e => FatalExit e
           end
  | None => FatalExit missing_uri_error
  end.

(** What a result of the contract means for the process: the store is not
    touched; a connection leaves the handle connected, buffering off and
    the host logged, and [connectDB] returns; a fatal result logs the
    error and exits with code 1. *)
Definition implements (c : ConnResult) (w : World) (r : World * ConnectStep) : Prop :=
  let '(w', st) := r in
  w_alerts w' = w_alerts w /\ w_users w' = w_users w /\
  match c with
  | Connection host =>
      st = Returned /\ w_conn w' = Connected host /\ w_buffer w' = false /\
      w_log w' = w_log w ++ [LogInfo ("✅ MongoDB Connected: " ++ host)]
  | FatalExit e =>
      st = Exit 1 /\
      w_log w' = w_log w ++ [LogErrorText ("❌ Error connecting to MongoDB: " ++ err_message e)]
  end.

(** ** The connection manager as the process sees it *)

(** The collections, the users, the id counter and the clock. *)
Definition same_store (w w' : World) : Prop :=
  w_alerts w' = w_alerts w /\ w_users w' = w_users w /\
  w_next_oid w' = w_next_oid w /\ w_now w' = w_now w.

(** What the synchronous part of a connection manager may do: with a
    configured URI, make one attempt with the options of the source,
    buffering off and the connection connecting; without one, exit with
    code 1.  The store is untouched. *)
Definition start_law (env_uri : option string) (w : World) (r : World * ConnectStep) : Prop :=
  same_store w r.1 /\
  ((exists uri, env_uri = Some uri /\ uri <> ""%string /\
      r.2 = Await (mkAttempt uri connect_options) /\
      w_conn r.1 = Connecting /\ w_buffer r.1 = false) \/
   ((env_uri = None \/ env_uri = Some ""%string) /\ r.2 = Exit 1)).

(** What the settlement may do: connected to the host, the buffering
    flag kept, [connectDB] returning; or exit with code 1. *)
Definition settle_law (o : ConnectOutcome) (w : World) (r : World * ConnectStep) : Prop :=
  same_store w r.1 /\
  ((exists host, o = ConnectResolved host /\ r.2 = Returned /\
      w_conn r.1 = Connected host /\ w_buffer r.1 = w_buffer w) \/
   (exists e, o = ConnectRejected e /\ r.2 = Exit 1)).

(** The interface between the process and its connection manager: the
    process ([Server]) is proved against it, [connectDB] implements it
    ([connectDB_manager]). *)
Class ConnectionManager := {
  cm_start : option string -> World -> World * ConnectStep;
  cm_settle : ConnectOutcome -> World -> World * ConnectStep;
  cm_start_law : forall env_uri w, start_law env_uri w (cm_start env_uri w);
  cm_settle_law : forall o w, settle_law o w (cm_settle o w)
}.

(** ** Lemmas *)

Lemma truthy_JStr (s : string) : truthy (JStr s) = negb (String.eqb s "").
Proof. done. Qed.

(** The two ways [connectDB_start] ends. *)
Lemma connectDB_start_cases (env_uri : option string) (w : World) :
  (exists uri, env_uri = Some uri /\ uri <> ""%string /\
     connectDB_start env_uri w =
       (set_conn Connecting (set_buffer false w), Await (mkAttempt uri connect_options))) \/
  ((env_uri = None \/ env_uri = Some ""%string) /\
     connectDB_start env_uri w = connect_catch missing_uri_error w).
Proof.
  unfold connectDB_start. destruct env_uri as [uri|]; [|by right; split; [left|]].
  rewrite truthy_JStr. destruct (String.eqb_spec uri "") as [->|Hne]; simpl.
  - right. split; [by right | done].
  - left. by exists uri.
Qed.

Lemma connectDB_settle_cases (o : ConnectOutcome) (w : World) :
  (exists host, o = ConnectResolved host /\
     connectDB_settle o w =
       (add_log (LogInfo ("✅ MongoDB Connected: " ++ host)) (set_conn (Connected host) w),
        Returned)) \/
  (exists e, o = ConnectRejected e /\
     connectDB_settle o w = connect_catch e (set_conn Disconnected w)).
Proof. destruct o as [h|e]; [left; by exists h | right; by exists e]. Qed.

Lemma connect_catch_store (e : JsError) (w : World) :
  w_alerts (connect_catch e w).1 = w_alerts w /\ w_users (connect_catch e w).1 = w_users w /\
  w_conn (connect_catch e w).1 = w_conn w /\ w_buffer (connect_catch e w).1 = w_buffer w /\
  (connect_catch e w).2 = Exit 1.
Proof. done. Qed.

#[export] Hint Resolve connect_catch_store : city.

Lemma connectDB_start_law (env_uri : option string) (w : World) :
  start_law env_uri w (connectDB_start env_uri w).
Proof.
  destruct (connectDB_start_cases env_uri w) as [(uri & Henv & Hne & ->) | (Henv & ->)].
  - split; [done|]. left. by exists uri.
  - split; [done|]. by right.
Qed.

Lemma connectDB_settle_law (o : ConnectOutcome) (w : World) :
  settle_law o w (connectDB_settle o w).
Proof.
  destruct (connectDB_settle_cases o w) as [(h & -> & ->) | (e & -> & ->)];
    (split; [done|]); [left; by exists h | right; by exists e].
Qed.

(** [connectDB] is a connection manager. *)
#[export] Instance connectDB_manager : ConnectionManager := {|
  cm_start := connectDB_start;
  cm_settle := connectDB_settle;
  cm_start_law := connectDB_start_law;
  cm_settle_law := connectDB_settle_law
|}.

(** C29. [connectDB], run to completion with the promise of
    [mongoose.connect] settling either way, implements the contract of
    the connection manager: without a configured URI or with a failed
    connection it logs the error and exits with code 1; otherwise it
    leaves the connection open to the host with buffering off and logs
    the host; the collections are never touched. *)
Theorem connectDB_refines (env_uri : option string) (o : ConnectOutcome) (w : World) :
  implements (connect_contract env_uri o) w (connectDB_run env_uri o w).
Proof.
  unfold connectDB_run, connect_contract.
  destruct (connectDB_start_cases env_uri w) as [(uri & -> & Hne & ->) | ([-> | ->] & ->)];
    [apply String.eqb_neq in Hne as ->; destruct o | |]; done.
Qed.
