(* ===== verification/Express.v ===== *)
(** The Express side of the routes: requests as the handlers read them
    ([req.query], [req.body], [req.params.id], [req.user]), responses as
    they write them ([res.json], [res.status(code).json]), and the two
    middleware functions the router puts in front of every handler,
    [protect] and [authorize('mayor')].  The middleware lives in
    [middleware/auth.js], which is not part of [src/]; it is modelled from
    the spec: [protect] refuses a request whose token identifies no user
    (401) and otherwise attaches the user, [authorize(roles)] refuses a
    user whose role is not listed (403). *)

From Stdlib Require Import ZArith Lia.
From stdpp Require Import base list option strings.
From S2P Require Import Prelude JsValue Mongo.

Local Open Scope Z_scope.

Inductive Method := GET | POST | DELETE | PUT | PATCH.

(** A request after body parsing.  [rq_path] is the path below the
    router's mount point, split at slashes; [rq_user] is the user the
    bearer token identifies, if any. *)
Record Request := mkRequest {
  rq_method : Method;
  rq_path : list string;
  rq_query : list (string * JsVal);
  rq_body : JsVal;
  rq_user : option User
}.

Record Response := mkResponse {
  res_status : Z;
  res_body : JsVal
}.

(** [res.json(body)]. *)
Definition res_json (body : JsVal) : Response := mkResponse 200 body.

(** [res.status(code).json(body)]. *)
Definition res_status_json (code : Z) (body : JsVal) : Response := mkResponse code body.

Definition fail_body (msg : string) : JsVal :=
  JObj [("success", JBool false); ("message", JStr msg)].

(** [protect]: the authenticated user, or the 401 response. *)
Definition protect (rq : Request) : User + Response :=
  match rq_user rq with
  | Some u => inl u
  | None => inr (res_status_json 401 (fail_body "Not authorized to access this route"))
  end.

(** [authorize(...roles)]: [None] lets the request through. *)
Definition authorize (roles : list string) (u : User) : option Response :=
  if existsb (String.eqb (us_role u)) roles then None
  else Some (res_status_json 403
               (fail_body ("User role " ++ us_role u ++ " is not authorized to access this route"))).

(** [protect, authorize(roles), handler]: the handler runs only for an
    authenticated user whose role is listed; a refused request touches
    nothing. *)
Definition guarded (roles : list string) (rq : Request) (handler : User -> M Response)
  : M Response :=
  match protect rq with
  | inr r => Mret r
  | inl u =>
      match authorize roles u with
      | Some r => Mret r
      | None => handler u
      end
  end.

Lemma guarded_refused (roles : list string) (rq : Request) (handler : User -> M Response)
    (w : World) :
  (forall u, rq_user rq = Some u -> existsb (String.eqb (us_role u)) roles = false) ->
  exists r, guarded roles rq handler w = (Ok r, w) /\ (res_status r = 401 \/ res_status r = 403).
Proof.
  intros H. unfold guarded, protect, authorize.
  destruct (rq_user rq) as [u|] eqn:Hu; [rewrite (H u eq_refl)|]; eexists; split; eauto.
Qed.

Lemma guarded_pass (roles : list string) (rq : Request) (handler : User -> M Response)
    (u : User) :
  rq_user rq = Some u -> existsb (String.eqb (us_role u)) roles = true ->
  guarded roles rq handler = handler u.
Proof. intros Hu Hr. unfold guarded, protect, authorize. by rewrite Hu, Hr. Qed.

(** The middleware in front of a handler: a property every handler run
    has, and every refusal has, the guarded handler has. *)
Section Guarded.

Context (roles : list string) (rq : Request) (handler : User -> M Response).

Lemma keeps_guarded (R : World -> World -> Prop) `{!PreOrder R} :
  (forall u, keeps R (handler u)) -> keeps R (guarded roles rq handler).
Proof.
  intros Hh. unfold guarded. destruct (protect rq) as [u|r]; [|apply keeps_ret, _].
  destruct (authorize roles u); [apply keeps_ret, _ | apply Hh].
Qed.

Lemma guarded_ok (w : World) :
  (forall u, exists r w', handler u w = (Ok r, w')) ->
  exists r w', guarded roles rq handler w = (Ok r, w').
Proof.
  intros Hh. unfold guarded. destruct (protect rq) as [u|r]; [|by eexists _, _].
  destruct (authorize roles u); [by eexists _, _ | apply Hh].
Qed.

Lemma returns_guarded (P : Response -> Prop) :
  (forall msg, P (res_status_json 401 (fail_body msg))) ->
  (forall msg, P (res_status_json 403 (fail_body msg))) ->
  (forall u, returns P (handler u)) -> returns P (guarded roles rq handler).
Proof.
  intros H401 H403 Hh. unfold guarded, protect, authorize.
  destruct (rq_user rq) as [u|]; [destruct existsb|]; try apply Hh; by apply returns_ret.
Qed.

End Guarded.
