(* ===== verification/Handler.v ===== *)
(** What the three handlers of [src/server/routes/mayorAlert.js] share:
    the [catch] block that turns any thrown error into a 500 envelope
    echoing [error.message] after a [console.error], its run lemmas, and
    a concrete connected store for the witnesses of the handler files. *)

From Stdlib Require Import ZArith Lia Sorted Permutation.
From stdpp Require Import base list option strings.
From S2P Require Import Prelude JsValue ObjectId Mongo Express.

Local Open Scope Z_scope.
Local Open Scope m_scope.
Local Open Scope city_scope.

(** ** The 500 envelope of the [catch] blocks *)

Definition error_body (msg : string) (e : JsError) : JsVal :=
  JObj [("success", JBool false); ("message", JStr msg); ("error", JStr (err_message e))].

(** The 500 branch shared by the three [catch] blocks. *)
Definition server_error (prefix msg : string) (e : JsError) : M Response :=
  let* _ := console_error prefix e in
  Mret (res_status_json 500 (error_body msg e)).

(** ** A concrete store, for the witnesses *)

Definition demo_alert (i : nat) : Alert :=
  mkAlert (Z.of_nat i) "Alert" "Message" 7 (Z.of_nat i).

(** [n] alerts created one per millisecond, four users, connected. *)
Definition demo_world (n : nat) : World :=
  mkWorld (Connected "cluster0.mongodb.net") false (map demo_alert (seq 1 n))
    [mkUser 7 "mayor"; mkUser 8 "citizen"; mkUser 9 "admin"; mkUser 10 "police"]
    1000 5000 [] [].


(** ** Lemmas *)

Lemma server_error_run (prefix msg : string) (e : JsError) (w : World) :
  server_error prefix msg e w =
  (Ok (res_status_json 500 (error_body msg e)), add_log (LogError prefix e) w).
Proof. reflexivity. Qed.

(** A handler wrapped in the [catch] of the routes never throws. *)
Lemma Mtry_server_error_ok (m : M Response) (prefix msg : string) (w : World) :
  exists r w', Mtry m (server_error prefix msg) w = (Ok r, w').
Proof. unfold Mtry. destruct (m w) as [[r|e] w']; eauto. Qed.

Lemma demo_world_healthy (n : nat) : healthy (demo_world n).
Proof. split; [eexists; reflexivity | reflexivity]. Qed.
