(* ===== verification/Listing.v ===== *)
(** The listing, [router.get('/')] of [src/server/routes/mayorAlert.js]
    (lines 11-45): the defaults of [page] and [limit], the offset, the two
    queries under [Promise.all], the pagination metadata, and the [catch]
    block, all with the doubles of [JsNumber].  [safe_page] is the range
    where that arithmetic is exact.  [listing_spec] is the contract of
    the spec's list operation; the theorems show that the handler meets
    it on a connected store (a refinement), what it does on negative and
    infinite inputs, on a failing query, and before the connection is
    open. *)

From Stdlib Require Import ZArith Lia Sorted Permutation.
From stdpp Require Import base list option strings.
From S2P Require Import Prelude JsNumber JsValue ObjectId Mongo Express Handler.

Local Open Scope Z_scope.
Local Open Scope m_scope.
Local Open Scope city_scope.

(** ** The listing, [GET /] *)

(** [parseInt(req.query.page) || 1] and [parseInt(req.query.limit) || 10]. *)
Definition page_of (query : list (string * JsVal)) : Num :=
  num_or (parseInt (js_get query "page")) (NFin 1).

Definition limit_of (query : list (string * JsVal)) : Num :=
  num_or (parseInt (js_get query "limit")) (NFin 10).

(** [const skip = (page - 1) * limit]. *)
Definition offset (page limit : Num) : Num := js_mul (js_sub page (NFin 1)) limit.

Definition list_body (alerts : list Alert) (page total : Num) (hasMore : bool) : JsVal :=
  JObj [("success", JBool true);
        ("data", JObj [("alerts", JArr (map alert_json alerts));
                       ("pagination", JObj [("current", num_json page);
                                            ("total", num_json total);
                                            ("hasMore", JBool hasMore)])])].

(** The [try] block of the handler: [total] comes back from
    [countDocuments] as a number, [alerts.length] is exact. *)
Definition get_alerts_body (query : list (string * JsVal)) : M Response :=
  let page := page_of query in
  let limit := limit_of query in
  let skip := offset page limit in
  let* '(alerts, total) := promise_all2 (find_sorted_page skip limit) count_documents in
  Mret (res_json
          (list_body alerts page (js_ceil_div (num_of_nat total) limit)
             (js_lt (js_add skip (num_of_nat (length alerts))) (num_of_nat total)))).

Definition get_alerts (query : list (string * JsVal)) : M Response :=
  Mtry (get_alerts_body query)
    (server_error "Error fetching mayor alerts:" "Server error while fetching alerts").

(** ** The listing's contract *)

(** What [GET /] promises for a page [P >= 1] and a limit [L >= 1] over a
    collection [all]: the alerts are the [L] alerts of the newest-first
    order starting at offset [(P - 1) * L] (fewer on the last page),
    [total] is the number of pages [ceil(N / L)], and [hasMore] says
    whether alerts remain after this page. *)
Definition listing_spec (all : list Alert) (P L : Z) (alerts : list Alert) (total : Z)
    (hasMore : bool) : Prop :=
  let N := length all in
  let skip := Z.to_nat ((P - 1) * L) in
  length alerts = Nat.min (Z.to_nat L) (N - skip) /\
  (forall i, (i < length alerts)%nat -> alerts !! i = sort_desc all !! (skip + i)%nat) /\
  (total - 1) * L < Z.of_nat N <= total * L /\
  (hasMore = true <-> P * L < Z.of_nat N).

Definition demo_query (page limit : string) : list (string * JsVal) :=
  [("page", JStr page); ("limit", JStr limit)].

(** The query [?page=P&limit=L] as Express's query parser hands it to
    the handler: the two values as the strings written in the URL, here
    the decimal forms of [P] and [L]. *)
Definition page_limit_query (P L : Z) : list (string * JsVal) :=
  [("page", JStr (str_of_Z P)); ("limit", JStr (str_of_Z L))].

(** A limit of 400 digits. *)
Definition huge_limit : string :=
  "1" ++ String.string_of_list_ascii (List.repeat (Ascii.ascii_of_nat 48) 400).

(** A query for page [P] of [L] alerts, both exact integers in the range
    where the handler's arithmetic on doubles is exact ([P * L <= 2^53]),
    over a collection of fewer than [2^53] alerts. *)
Definition safe_page (query : list (string * JsVal)) (w : World) (P L : Z) : Prop :=
  page_of query = NFin P /\ limit_of query = NFin L /\ 1 <= P /\ 1 <= L /\
  P * L <= 2 ^ 53 /\ Z.of_nat (length (w_alerts w)) < 2 ^ 53.

(** ** The numbers of a listing *)

Lemma to_long_small (z : Z) : 0 <= z <= 2 ^ 53 -> to_long (NFin z) = z.
Proof.
  intros Hz. assert (2 ^ 53 < 2 ^ 63) by (apply Z.pow_lt_mono_r; lia).
  cbn. lia.
Qed.

Lemma to_long_lt0 (x : Num) : js_lt x (NFin 0) = true -> to_long x < 0.
Proof.
  destruct x as [a| |[]|]; cbn; try discriminate; [|lia].
  intros Ha%Z.ltb_lt. lia.
Qed.

Lemma round_int_lt0 (z : Z) : z < 0 -> js_lt (round_int z) (NFin 0) = true.
Proof.
  intros Hz. destruct (round_int_neg z Hz) as [(v & Hv & ->) | ->]; [|done].
  by apply Z.ltb_lt.
Qed.

Lemma js_sub_one_lt0 (x : Num) :
  js_lt x (NFin 0) = true -> js_lt (js_sub x (NFin 1)) (NFin 0) = true.
Proof.
  destruct x as [a| |[]|]; try discriminate; [|done].
  cbn [js_lt num_z]. intros Ha%Z.ltb_lt. rewrite js_sub_fin. apply round_int_lt0. lia.
Qed.

(** A negative number times a positive one is negative, infinities
    included. *)
Lemma js_mul_lt0 (x y : Num) :
  js_lt x (NFin 0) = true -> js_lt (NFin 0) y = true -> js_lt (js_mul x y) (NFin 0) = true.
Proof.
  destruct x as [a| |[]|], y as [b| |[]|]; try discriminate; cbn [js_lt num_z];
    intros Hx Hy.
  - apply Z.ltb_lt in Hx, Hy. rewrite js_mul_fin by nia. apply round_int_lt0. nia.
  - apply Z.ltb_lt in Hx as Ha. cbn [js_mul]. rewrite is_zero_fin, (proj2 (Z.eqb_neq a 0)) by lia.
    cbn [sign_bit]. by rewrite Hx.
  - apply Z.ltb_lt in Hy. cbn [js_mul].
    rewrite is_zero_fin, (proj2 (Z.eqb_neq b 0)) by lia. cbn [sign_bit].
    rewrite (proj2 (Z.ltb_ge b 0)) by lia. done.
  - done.
Qed.

(** A negative page makes a negative offset, whatever the positive
    limit. *)
Lemma offset_negative (p l : Num) :
  js_lt p (NFin 0) = true -> js_lt (NFin 0) l = true -> to_long (offset p l) < 0.
Proof.
  intros Hp Hl. apply to_long_lt0, js_mul_lt0; [by apply js_sub_one_lt0 | done].
Qed.

(** A page and a limit of at least 1 make an offset the server takes. *)
Lemma offset_nonneg (P L : Z) : 1 <= P -> 1 <= L -> 0 <= to_long (offset (NFin P) (NFin L)).
Proof.
  intros HP HL. unfold offset. rewrite js_sub_fin.
  destruct (round_int_nonneg (P - 1) ltac:(lia)) as [(v & Hv & ->) | ->].
  - rewrite js_mul_fin_nonneg by lia.
    destruct (round_int_nonneg (v * L) ltac:(nia)) as [(u & Hu & ->) | ->]; cbn; lia.
  - cbn [js_mul]. rewrite is_zero_fin, (proj2 (Z.eqb_neq L 0)) by lia. cbn [sign_bit].
    rewrite (proj2 (Z.ltb_ge L 0)) by lia. cbn. lia.
Qed.

Lemma offset_safe (P L : Z) :
  1 <= P -> 1 <= L -> P * L <= 2 ^ 53 -> offset (NFin P) (NFin L) = NFin ((P - 1) * L).
Proof.
  intros HP HL HPL. unfold offset.
  rewrite js_sub_fin, round_int_small, js_mul_fin_nonneg, round_int_small by nia. done.
Qed.

Lemma driver_limit_pos (L : Z) : 0 <= L -> driver_limit (NFin L) = NFin L.
Proof. intros HL. unfold driver_limit. by rewrite js_lt_fin, (proj2 (Z.ltb_ge L 0)). Qed.

Lemma driver_limit_neg (L : Z) : L < 0 -> driver_limit (NFin L) = NFin (- L).
Proof.
  intros HL. unfold driver_limit. rewrite js_lt_fin, (proj2 (Z.ltb_lt L 0)) by done.
  destruct L; [lia | lia | done].
Qed.

(** ** Queries on a healthy world *)

Lemma find_sorted_page_healthy (skip limit : Num) (w : World) :
  healthy w -> 0 <= to_long skip ->
  find_sorted_page skip limit w =
  (Ok (apply_limit (to_long (driver_limit limit))
         (drop (Z.to_nat (to_long skip)) (sort_desc (w_alerts w)))), w).
Proof.
  intros Hw Hs. unfold find_sorted_page. rewrite db_call_healthy by done.
  cbv zeta. by rewrite (proj2 (Z.ltb_ge _ 0) Hs).
Qed.

Lemma count_documents_healthy (w : World) :
  healthy w -> count_documents w = (Ok (length (w_alerts w)), w).
Proof. intros Hw. unfold count_documents. by rewrite db_call_healthy. Qed.

(** The listing on a healthy world and an offset the server takes. *)
Lemma get_alerts_healthy (query : list (string * JsVal)) (w : World) :
  healthy w -> 0 <= to_long (offset (page_of query) (limit_of query)) ->
  get_alerts query w =
  (let page := page_of query in
   let limit := limit_of query in
   let skip := offset page limit in
   let alerts := apply_limit (to_long (driver_limit limit))
                   (drop (Z.to_nat (to_long skip)) (sort_desc (w_alerts w))) in
   let total := length (w_alerts w) in
   (Ok (res_json (list_body alerts page (js_ceil_div (num_of_nat total) limit)
                    (js_lt (js_add skip (num_of_nat (length alerts))) (num_of_nat total)))), w)).
Proof.
  intros Hw Hs. unfold get_alerts, get_alerts_body. apply Mtry_ok. simpl.
  unfold Mbind, promise_all2.
  rewrite find_sorted_page_healthy, count_documents_healthy by done. reflexivity.
Qed.

Lemma apply_limit_pos (n : Z) (l : list Alert) :
  1 <= n -> apply_limit n l = take (Z.to_nat n) l.
Proof. intros Hn. unfold apply_limit. by rewrite (proj2 (Z.eqb_neq n 0)) by lia. Qed.

(** In the safe range every number of the handler is exact: the page
    of [L] alerts from offset [(P - 1) * L], [ceil(N / L)] pages, and
    [hasMore] from the exact sum. *)
Lemma get_alerts_safe (query : list (string * JsVal)) (w : World) (P L : Z) :
  healthy w -> safe_page query w P L ->
  let N := Z.of_nat (length (w_alerts w)) in
  let alerts := (sort_desc (w_alerts w)) ⟦Z.to_nat ((P - 1) * L) +: Z.to_nat L⟧ in
  get_alerts query w =
  (Ok (res_json (list_body alerts (NFin P) (NFin (- (- N / L)))
                   ((P - 1) * L + Z.of_nat (length alerts) <? N))), w).
Proof.
  intros Hw (HP & HL & HP1 & HL1 & HPL & HN) N alerts.
  assert (Hs : to_long (offset (page_of query) (limit_of query)) = (P - 1) * L).
  { rewrite HP, HL, offset_safe, to_long_small by nia. done. }
  rewrite get_alerts_healthy by (done || (rewrite Hs; nia)). cbv zeta.
  rewrite Hs, HP, HL, offset_safe, driver_limit_pos, to_long_small, apply_limit_pos by nia.
  fold alerts.
  assert (Ha : Z.of_nat (length alerts) <= L).
  { subst alerts. rewrite length_take. lia. }
  rewrite (num_of_nat_small (length alerts)), (num_of_nat_small (length (w_alerts w))) by nia.
  rewrite js_add_fin, round_int_small, js_lt_fin, js_ceil_div_small by nia. done.
Qed.

(** Whatever the limit, a page holds alerts of the collection. *)
Lemma apply_limit_subseteq (n : Z) (k : nat) (all : list Alert) (x : Alert) :
  x ∈ apply_limit n (drop k (sort_desc all)) -> x ∈ all.
Proof.
  intros Hx. apply list_elem_of_In. eapply Permutation_in; [apply sort_desc_perm|].
  apply list_elem_of_In. apply (subseteq_drop k). unfold apply_limit in Hx.
  destruct (n =? 0); [done | by apply (subseteq_take (Z.to_nat n))].
Qed.

(** Page [P >= 1] of [L >= 1] alerts on a healthy store is answered
    with alerts of the collection, however large [P] and [L] are. *)
Lemma get_alerts_elements (query : list (string * JsVal)) (w : World) (P L : Z) :
  healthy w -> page_of query = NFin P -> limit_of query = NFin L -> 1 <= P -> 1 <= L ->
  exists alerts total hasMore,
    get_alerts query w = (Ok (res_json (list_body alerts (NFin P) total hasMore)), w) /\
    forall x, x ∈ alerts -> x ∈ w_alerts w.
Proof.
  intros Hw HP HL HP1 HL1.
  rewrite get_alerts_healthy by (done || (rewrite HP, HL; by apply offset_nonneg)).
  cbv zeta. rewrite HP. do 3 eexists. split; [reflexivity|]. intros x. apply apply_limit_subseteq.
Qed.

Lemma page_slice_spec (all : list Alert) (P L : Z) :
  1 <= P -> 1 <= L ->
  let alerts := (sort_desc all) ⟦Z.to_nat ((P - 1) * L) +: Z.to_nat L⟧ in
  length alerts = Nat.min (Z.to_nat L) (length all - Z.to_nat ((P - 1) * L)) /\
  (forall i, (i < length alerts)%nat ->
             alerts !! i = sort_desc all !! (Z.to_nat ((P - 1) * L) + i)%nat) /\
  (((P - 1) * L + Z.of_nat (length alerts) <? Z.of_nat (length all)) = true
    <-> P * L < Z.of_nat (length all)).
Proof.
  intros HP HL alerts. subst alerts.
  rewrite length_take_drop, length_sort_desc.
  split; [done | split].
  - intros i Hi. rewrite lookup_take_lt by lia. by rewrite lookup_drop.
  - rewrite Z.ltb_lt. nia.
Qed.

Lemma listing_spec_nonempty (all : list Alert) (P L : Z) (alerts : list Alert) (t : Z)
    (hm : bool) :
  1 <= P -> 1 <= L -> listing_spec all P L alerts t hm ->
  (alerts <> [] <-> (P - 1) * L < Z.of_nat (length all)).
Proof.
  intros HP HL (Hlen & _ & _ & _).
  rewrite <- length_zero_iff_nil, Hlen. nia.
Qed.

Lemma get_alerts_listing_run (query : list (string * JsVal)) (w : World) (P L : Z) :
  healthy w -> safe_page query w P L ->
  exists alerts total hasMore,
    get_alerts query w = (Ok (res_json (list_body alerts (NFin P) (NFin total) hasMore)), w) /\
    listing_spec (w_alerts w) P L alerts total hasMore.
Proof.
  intros Hw Hq. pose proof (get_alerts_safe query w P L Hw Hq) as Hrun.
  destruct Hq as (_ & _ & HP & HL & _).
  destruct (page_slice_spec (w_alerts w) P L HP HL) as (Hlen & Hlook & Hmore).
  pose proof (ceil_quot_spec (Z.of_nat (length (w_alerts w))) L ltac:(lia)).
  do 3 eexists. split; [exact Hrun|]. unfold listing_spec. split_and!; first [done | lia].
Qed.

(** C1. On a connected store, [GET /] for page [P] of
    [L] alerts ([P, L >= 1], exact doubles with [P * L <= 2^53], fewer
    than [2^53] alerts) answers 200 with the listing's contract: the
    [L] newest-first alerts from offset [(P - 1) * L], [ceil(N / L)]
    pages, and [hasMore] exactly when [P * L < N]; the store is left as
    it was. *)
Theorem get_alerts_listing (query : list (string * JsVal)) (w : World) (P L : Z) :
  healthy w -> safe_page query w P L ->
  exists alerts total hasMore,
    get_alerts query w = (Ok (res_json (list_body alerts (NFin P) (NFin total) hasMore)), w) /\
    listing_spec (w_alerts w) P L alerts total hasMore.
Proof. apply get_alerts_listing_run. Qed.

(** C2. [hasMore] on page [P] is true
    exactly when page [P + 1] (same limit) is not empty, in the range
    where the handler's numbers are exact. *)
Theorem get_alerts_hasMore_next_page (q q' : list (string * JsVal)) (w : World) (P L : Z) :
  healthy w -> safe_page q w P L ->
  page_of q' = NFin (P + 1) -> limit_of q' = NFin L -> (P + 1) * L <= 2 ^ 53 ->
  exists a t hm a' t' hm',
    get_alerts q w = (Ok (res_json (list_body a (NFin P) (NFin t) hm)), w) /\
    get_alerts q' w = (Ok (res_json (list_body a' (NFin (P + 1)) (NFin t') hm')), w) /\
    (hm = true <-> a' <> []).
Proof.
  intros Hw Hq HP' HL' HPL'.
  assert (Hq' : safe_page q' w (P + 1) L)
    by (destruct Hq as (_ & _ & ? & ? & _ & ?); split_and!; (done || lia)).
  destruct (get_alerts_listing_run q w P L Hw Hq) as (a & t & hm & Hrun & Hspec).
  destruct (get_alerts_listing_run q' w (P + 1) L Hw Hq') as (a' & t' & hm' & Hrun' & Hspec').
  exists a, t, hm, a', t', hm'. split; [done | split; [done|]].
  destruct Hq as (_ & _ & HP & HL & _).
  rewrite (listing_spec_nonempty (w_alerts w) (P + 1) L a' t' hm' ltac:(lia) HL Hspec').
  destruct Hspec as (_ & _ & _ & ->). nia.
Qed.

(** C3. A page [P] is not empty exactly
    when [P] is at most the page count the same response reports, in
    the range where the handler's numbers are exact. *)
Theorem get_alerts_page_within_total (query : list (string * JsVal)) (w : World) (P L : Z) :
  healthy w -> safe_page query w P L ->
  exists alerts total hasMore,
    get_alerts query w = (Ok (res_json (list_body alerts (NFin P) (NFin total) hasMore)), w) /\
    (alerts <> [] <-> P <= total).
Proof.
  intros Hw Hq.
  destruct (get_alerts_listing_run query w P L Hw Hq) as (a & t & hm & Hrun & Hspec).
  destruct Hq as (_ & _ & HP & HL & _).
  exists a, t, hm. split; [done|].
  rewrite (listing_spec_nonempty _ _ _ _ _ _ HP HL Hspec).
  destruct Hspec as (_ & _ & Ht & _). nia.
Qed.

(** C4. The listing always answers (every error
    is caught), answers 200 or 500, and never changes the [mayoralerts]
    collection. *)
Theorem get_alerts_total_readonly (query : list (string * JsVal)) (w : World) :
  exists r w', get_alerts query w = (Ok r, w') /\ w_alerts w' = w_alerts w /\
               (res_status r = 200 \/ res_status r = 500).
Proof.
  destruct (Mtry_server_error_ok (get_alerts_body query)
              "Error fetching mayor alerts:" "Server error while fetching alerts" w)
    as (r & w' & Hrun).
  change (get_alerts query w = (Ok r, w')) in Hrun.
  exists r, w'. split; [done|split].
  - assert (Hk : keeps same_alerts (get_alerts query)).
    { unfold get_alerts, get_alerts_body, server_error.
      apply keeps_try; [apply _| |intros e; apply keeps_bind; [apply _|by apply keeps_console_error|
                                                           intros; apply keeps_ret, _]].
      apply keeps_bind; [apply _| |intros [? ?]; apply keeps_ret, _].
      apply keeps_promise_all2; [apply _|apply same_alerts_find_sorted_page|
                                 apply same_alerts_count_documents]. }
    specialize (Hk w). by rewrite Hrun in Hk.
  - assert (Hr : returns (fun r => res_status r = 200 \/ res_status r = 500)
                   (get_alerts query)).
    { unfold get_alerts, get_alerts_body, server_error. apply returns_try.
      - apply returns_bind. intros [? ?]. apply returns_ret. by left.
      - intros e. apply returns_bind. intros _. apply returns_ret. by right. }
    exact (Hr w r w' Hrun).
Qed.

Lemma find_sorted_page_negative (skip limit : Num) (w : World) :
  healthy w -> to_long skip < 0 ->
  find_sorted_page skip limit w = (Throw (skip_error (to_long skip)), w).
Proof.
  intros Hw Hs. unfold find_sorted_page. rewrite db_call_healthy by done.
  cbv zeta. by rewrite (proj2 (Z.ltb_lt _ 0) Hs).
Qed.

(** C5. A negative [page] ([-Infinity] included;
    the code does not clamp it) with a positive [limit] makes a negative
    offset: the server rejects the query and the client gets a 500 that
    echoes the server's message with the offset as a 64-bit integer;
    only the console changes. *)
Theorem get_alerts_negative_page (query : list (string * JsVal)) (w : World) :
  healthy w -> js_lt (page_of query) (NFin 0) = true -> js_lt (NFin 0) (limit_of query) = true ->
  let e := skip_error (to_long (offset (page_of query) (limit_of query))) in
  get_alerts query w =
  (Ok (res_status_json 500 (error_body "Server error while fetching alerts" e)),
   add_log (LogError "Error fetching mayor alerts:" e) w).
Proof.
  intros Hw HP HL e. unfold get_alerts.
  rewrite (Mtry_throw _ _ w w e); [reflexivity|].
  unfold get_alerts_body. apply Mbind_throw. unfold promise_all2.
  rewrite find_sorted_page_negative, count_documents_healthy by (done || by apply offset_negative).
  done.
Qed.

(** C6. A negative [limit] (the code does not
    clamp it either) is sent as a limit of [|limit|] documents, and the
    page count it reports is not positive although alerts come back. *)
Theorem get_alerts_negative_limit (query : list (string * JsVal)) (w : World) (L : Z) :
  healthy w -> page_of query = NFin 1 -> limit_of query = NFin L -> L < 0 ->
  Z.of_nat (length (w_alerts w)) < 2 ^ 53 ->
  exists alerts total hasMore,
    get_alerts query w = (Ok (res_json (list_body alerts (NFin 1) total hasMore)), w) /\
    (total = NNegZero \/ exists t, t <= 0 /\ total = NFin t) /\
    length alerts = Nat.min (Z.to_nat (- L)) (length (w_alerts w)).
Proof.
  intros Hw HP HL HL0 HN.
  assert (Hs : offset (page_of query) (limit_of query) = NNegZero).
  { rewrite HP, HL. unfold offset. rewrite js_sub_fin, round_int_small by lia. cbn.
    by rewrite (proj2 (Z.ltb_lt L 0)). }
  rewrite get_alerts_healthy by (done || (rewrite Hs; cbn; lia)). cbv zeta.
  rewrite Hs, HP, HL, driver_limit_neg by done.
  rewrite num_of_nat_small by lia.
  do 3 eexists. split; [reflexivity|]. split; [apply js_ceil_div_neg; lia|].
  assert (2 ^ 53 < 2 ^ 63) by (apply Z.pow_lt_mono_r; lia).
  unfold apply_limit. cbn [to_long]. rewrite (proj2 (Z.eqb_neq _ 0)) by lia.
  rewrite length_take, drop_0, length_sort_desc. lia.
Qed.

(** C7. A [limit] of 309 or more digits parses
    to [Infinity]: on page 1 the offset [0 * Infinity] is [NaN], which
    the server reads as 0, and the limit is no limit, so the response
    lists every alert, newest first, while reporting 0 pages and
    [hasMore = false]. *)
Theorem get_alerts_infinite_limit (query : list (string * JsVal)) (w : World) :
  healthy w -> page_of query = NFin 1 -> limit_of query = NInf false ->
  Z.of_nat (length (w_alerts w)) < 2 ^ 53 ->
  get_alerts query w =
  (Ok (res_json (list_body (sort_desc (w_alerts w)) (NFin 1) (NFin 0) false)), w).
Proof.
  intros Hw HP HL HN.
  assert (Hs : offset (page_of query) (limit_of query) = NNaN) by (by rewrite HP, HL).
  rewrite get_alerts_healthy by (done || (rewrite Hs; cbn; lia)). cbv zeta.
  rewrite Hs, HP, HL, num_of_nat_small by lia.
  assert (2 ^ 53 < 2 ^ 63) by (apply Z.pow_lt_mono_r; lia).
  unfold apply_limit. cbn [driver_limit js_lt to_long].
  rewrite (proj2 (Z.eqb_neq _ 0)) by lia. change (Z.to_nat 0) with 0%nat.
  rewrite drop_0, take_ge by (rewrite length_sort_desc; lia).
  cbn [js_ceil_div js_add js_lt sign_bit]. by rewrite (proj2 (Z.ltb_ge _ 0)) by lia.
Qed.

(** ** Before the connection is open *)

Lemma get_alerts_not_connected_run (query : list (string * JsVal)) (w : World) :
  (forall h, w_conn w <> Connected h) -> w_buffer w = false ->
  let e := not_connected_error "mayoralerts.find()" in
  get_alerts query w =
  (Ok (res_status_json 500 (error_body "Server error while fetching alerts" e)),
   add_log (LogError "Error fetching mayor alerts:" e) w).
Proof.
  intros Hc Hb e. unfold get_alerts.
  rewrite (Mtry_throw _ _ w w e); [reflexivity|].
  unfold get_alerts_body. apply Mbind_throw. unfold promise_all2, find_sorted_page, count_documents.
  by rewrite !db_call_not_connected.
Qed.

(** ** The listing from the URL *)

Lemma page_limit_query_values (P L : Z) :
  1 <= P <= 2 ^ 53 -> 1 <= L <= 2 ^ 53 ->
  page_of (page_limit_query P L) = NFin P /\ limit_of (page_limit_query P L) = NFin L.
Proof.
  intros HP HL. unfold page_of, limit_of, page_limit_query, num_or.
  rewrite js_get_cons_eq, js_get_cons_ne, js_get_cons_eq by done.
  rewrite !parseInt_decimal, !round_int_small by lia. cbn [num_truthy].
  by rewrite (proj2 (Z.eqb_neq P 0)), (proj2 (Z.eqb_neq L 0)) by lia.
Qed.

(** C8. The listing as a client calls it:
    [GET /?page=P&limit=L] with [P, L >= 1] written in decimal and
    [P * L <= 2^53] answers page [P] of the newest-first order, [L]
    alerts per page, with the pagination the spec requires, and changes
    nothing. *)
Theorem get_alerts_decimal_query (P L : Z) (w : World) :
  healthy w -> 1 <= P -> 1 <= L -> P * L <= 2 ^ 53 -> Z.of_nat (length (w_alerts w)) < 2 ^ 53 ->
  exists alerts total hasMore,
    get_alerts (page_limit_query P L) w =
      (Ok (res_json (list_body alerts (NFin P) (NFin total) hasMore)), w) /\
    listing_spec (w_alerts w) P L alerts total hasMore.
Proof.
  intros Hw HP HL HPL HN. destruct (page_limit_query_values P L) as [Hp Hl]; [nia | nia |].
  apply get_alerts_listing_run; [done|]. split_and!; done.
Qed.

(** ** Witnesses *)

Lemma get_alerts_decimal_query_witness :
  exists alerts total hasMore,
    get_alerts (page_limit_query 2 10) (demo_world 25) =
      (Ok (res_json (list_body alerts (NFin 2) (NFin total) hasMore)), demo_world 25) /\
    listing_spec (w_alerts (demo_world 25)) 2 10 alerts total hasMore.
Proof. apply get_alerts_decimal_query; [apply demo_world_healthy | lia | lia | lia | concrete]. Defined.

Lemma get_alerts_listing_witness :
  exists alerts total hasMore,
    get_alerts (demo_query "2" "10") (demo_world 25) =
      (Ok (res_json (list_body alerts (NFin 2) (NFin total) hasMore)), demo_world 25) /\
    listing_spec (w_alerts (demo_world 25)) 2 10 alerts total hasMore.
Proof.
  apply get_alerts_listing; [apply demo_world_healthy|].
  split_and!; concrete.
Defined.

Lemma get_alerts_hasMore_next_page_witness :
  exists a t hm a' t' hm',
    get_alerts (demo_query "2" "10") (demo_world 25) =
      (Ok (res_json (list_body a (NFin 2) (NFin t) hm)), demo_world 25) /\
    get_alerts (demo_query "3" "10") (demo_world 25) =
      (Ok (res_json (list_body a' (NFin (2 + 1)) (NFin t') hm')), demo_world 25) /\
    (hm = true <-> a' <> []).
Proof.
  apply (get_alerts_hasMore_next_page _ _ _ 2 10);
    [apply demo_world_healthy | split_and!; concrete | concrete | concrete | concrete].
Defined.

Lemma get_alerts_page_within_total_witness :
  exists alerts total hasMore,
    get_alerts (demo_query "4" "10") (demo_world 25) =
      (Ok (res_json (list_body alerts (NFin 4) (NFin total) hasMore)), demo_world 25) /\
    (alerts <> [] <-> 4 <= total).
Proof.
  apply (get_alerts_page_within_total _ _ 4 10); [apply demo_world_healthy | split_and!; concrete].
Defined.

Lemma get_alerts_negative_page_witness :
  let e := skip_error (to_long (offset (page_of (demo_query "-1" "10"))
                                  (limit_of (demo_query "-1" "10")))) in
  get_alerts (demo_query "-1" "10") (demo_world 3) =
  (Ok (res_status_json 500 (error_body "Server error while fetching alerts" e)),
   add_log (LogError "Error fetching mayor alerts:" e) (demo_world 3)).
Proof. apply get_alerts_negative_page; [apply demo_world_healthy | concrete | concrete]. Defined.

Lemma get_alerts_negative_limit_witness :
  exists alerts total hasMore,
    get_alerts (demo_query "1" "-5") (demo_world 25) =
      (Ok (res_json (list_body alerts (NFin 1) total hasMore)), demo_world 25) /\
    (total = NNegZero \/ exists t, t <= 0 /\ total = NFin t) /\
    length alerts = Nat.min (Z.to_nat (- (-5))) (length (w_alerts (demo_world 25))).
Proof.
  apply get_alerts_negative_limit;
    [apply demo_world_healthy | concrete | concrete | lia | concrete].
Defined.

Lemma get_alerts_infinite_limit_witness :
  get_alerts (demo_query "1" huge_limit) (demo_world 12) =
  (Ok (res_json (list_body (sort_desc (w_alerts (demo_world 12))) (NFin 1) (NFin 0) false)),
   demo_world 12).
Proof.
  apply get_alerts_infinite_limit; [apply demo_world_healthy | concrete | concrete | concrete].
Defined.

(** The scenario of the spec: with 25 alerts, [GET /?page=2&limit=10]
    returns the 11th to the 20th newest alerts, reports 3 pages and
    [hasMore = true]. *)
Example get_alerts_spec_scenario :
  exists alerts,
    get_alerts (demo_query "2" "10") (demo_world 25) =
      (Ok (res_json (list_body alerts (NFin 2) (NFin 3) true)), demo_world 25) /\
    map al_createdAt alerts = [15; 14; 13; 12; 11; 10; 9; 8; 7; 6].
Proof.
  exists (map demo_alert [15; 14; 13; 12; 11; 10; 9; 8; 7; 6]%nat).
  split; vm_compute; reflexivity.
Qed.
