(* ===== verification/Deletion.v ===== *)
(** The deletion, [router.delete('/:id')] of
    [src/server/routes/mayorAlert.js] (lines 53-78): [findById] with the
    cast of the path parameter, the 404 branch, [alert.remove()] and the
    [catch] block.  Which Mongoose release runs is the section variable
    [lib]: [remove] exists on documents up to Mongoose 6 only.  The
    theorems cover every branch, and that a deleted alert is absent from
    every later listing. *)

From Stdlib Require Import ZArith Lia Sorted Permutation.
From stdpp Require Import base list option strings.
From S2P Require Import Prelude JsNumber JsValue ObjectId Mongo Express Handler Listing.

Local Open Scope Z_scope.
Local Open Scope m_scope.
Local Open Scope city_scope.

Section Deletion.

Context (lib : MongooseLib).

(** ** [DELETE /:id] *)

Definition delete_alert (id : string) : M Response :=
  Mtry
    (let* found := find_by_id lib id in
     match found with
     | None => Mret (res_status_json 404 (fail_body "Alert not found"))
     | Some alert =>
         let* _ := doc_remove lib alert in
         Mret (res_json (JObj [("success", JBool true);
                               ("message", JStr "Alert deleted successfully")]))
     end)
    (server_error "Error deleting mayor alert:" "Server error while deleting alert").

End Deletion.

(** ** [DELETE /:id] *)

Lemma find_by_id_healthy (lib : MongooseLib) (id : string) (n : Z) (w : World) :
  healthy w -> cast_oid lib id = Some n ->
  find_by_id lib id w = (Ok (find_alert n (w_alerts w)), w).
Proof. intros Hw Hc. unfold find_by_id. rewrite Hc. by rewrite db_call_healthy. Qed.

Lemma doc_remove_healthy (lib : MongooseLib) (a : Alert) (w : World) :
  healthy w -> lib_doc_remove lib = true ->
  doc_remove lib a w = (Ok tt, set_alerts (delete_first (al_id a) (w_alerts w)) w).
Proof. intros Hw Hl. unfold doc_remove. rewrite Hl. by rewrite db_call_healthy. Qed.

Lemma find_alert_id (n : Z) (l : list Alert) (a : Alert) :
  find_alert n l = Some a -> al_id a = n /\ a ∈ l.
Proof.
  unfold find_alert. intros H.
  destruct (find_some _ _ H) as [Hin Hid]. apply Z.eqb_eq in Hid.
  split; [done | by apply list_elem_of_In].
Qed.

Lemma delete_alert_not_found_run (lib : MongooseLib) (id : string) (n : Z) (w : World) :
  healthy w -> cast_oid lib id = Some n -> find_alert n (w_alerts w) = None ->
  delete_alert lib id w = (Ok (res_status_json 404 (fail_body "Alert not found")), w).
Proof.
  intros Hw Hc Hf. unfold delete_alert. apply Mtry_ok.
  rewrite (Mbind_ok _ _ w w _ (find_by_id_healthy lib id n w Hw Hc)). by rewrite Hf.
Qed.

(** C10. Deleting an id that casts but names no alert answers 404 and
    changes nothing at all. *)
Theorem delete_alert_not_found (lib : MongooseLib) (id : string) (n : Z) (w : World) :
  healthy w -> cast_oid lib id = Some n -> find_alert n (w_alerts w) = None ->
  delete_alert lib id w = (Ok (res_status_json 404 (fail_body "Alert not found")), w).
Proof. apply delete_alert_not_found_run. Qed.

Lemma delete_alert_found_run (lib : MongooseLib) (id : string) (n : Z) (a : Alert) (w : World) :
  healthy w -> lib_doc_remove lib = true ->
  cast_oid lib id = Some n -> find_alert n (w_alerts w) = Some a ->
  delete_alert lib id w =
  (Ok (res_json (JObj [("success", JBool true); ("message", JStr "Alert deleted successfully")])),
   set_alerts (delete_first n (w_alerts w)) w).
Proof.
  intros Hw Hl Hc Hf. unfold delete_alert. apply Mtry_ok.
  rewrite (Mbind_ok _ _ w w _ (find_by_id_healthy lib id n w Hw Hc)). rewrite Hf.
  rewrite (Mbind_ok _ _ w _ _ (doc_remove_healthy lib a w Hw Hl)).
  by destruct (find_alert_id _ _ _ Hf) as [-> _].
Qed.

(** C11. Where documents still have [remove] (Mongoose 6), deleting an
    existing alert answers 200 and removes exactly that alert: the
    collection is the old one without its first document of that id. *)
Theorem delete_alert_found (lib : MongooseLib) (id : string) (n : Z) (a : Alert) (w : World) :
  healthy w -> lib_doc_remove lib = true ->
  cast_oid lib id = Some n -> find_alert n (w_alerts w) = Some a ->
  delete_alert lib id w =
  (Ok (res_json (JObj [("success", JBool true); ("message", JStr "Alert deleted successfully")])),
   set_alerts (delete_first n (w_alerts w)) w).
Proof. apply delete_alert_found_run. Qed.

(** C12. From Mongoose 7 on documents have no [remove] method: deleting an
    existing alert answers 500 with a [TypeError] and the alert stays. *)
Theorem delete_alert_no_remove (lib : MongooseLib) (id : string) (n : Z) (a : Alert)
    (w : World) :
  healthy w -> lib_doc_remove lib = false ->
  cast_oid lib id = Some n -> find_alert n (w_alerts w) = Some a ->
  delete_alert lib id w =
  (Ok (res_status_json 500
         (error_body "Server error while deleting alert" remove_not_a_function)),
   add_log (LogError "Error deleting mayor alert:" remove_not_a_function) w).
Proof.
  intros Hw Hl Hc Hf. unfold delete_alert.
  rewrite (Mtry_throw _ _ w w remove_not_a_function); [reflexivity|].
  rewrite (Mbind_ok _ _ w w _ (find_by_id_healthy lib id n w Hw Hc)). rewrite Hf.
  unfold doc_remove. rewrite Hl. reflexivity.
Qed.

(** C13. An id that is not an ObjectId (for instance ["abc123"]) is a
    [CastError]: the answer is 500, not the 404 of an absent alert, and
    it comes before any round trip, connected or not. *)
Theorem delete_alert_cast_error (lib : MongooseLib) (id : string) (w : World) :
  cast_oid lib id = None ->
  delete_alert lib id w =
  (Ok (res_status_json 500 (error_body "Server error while deleting alert" (cast_error id))),
   add_log (LogError "Error deleting mayor alert:" (cast_error id)) w).
Proof.
  intros Hc. unfold delete_alert.
  rewrite (Mtry_throw _ _ w w (cast_error id)); [reflexivity|].
  unfold Mbind, find_by_id. by rewrite Hc.
Qed.

(** C14. After [DELETE /:id] on a collection with distinct ids
    (Mongoose 6), no page of a later listing ([page], [limit] at least
    1, however large) shows an alert with that id, whether the alert
    existed or not. *)
Theorem delete_then_list_excludes (lib : MongooseLib) (id : string) (n : Z) (w w' : World)
    (r : Response) (query : list (string * JsVal)) (P L : Z) :
  healthy w -> lib_doc_remove lib = true -> NoDup (map al_id (w_alerts w)) ->
  cast_oid lib id = Some n -> delete_alert lib id w = (Ok r, w') ->
  page_of query = NFin P -> limit_of query = NFin L -> 1 <= P -> 1 <= L ->
  exists alerts total hasMore,
    get_alerts query w' = (Ok (res_json (list_body alerts (NFin P) total hasMore)), w') /\
    forall x, x ∈ alerts -> al_id x <> n.
Proof.
  intros Hw Hl Hnd Hc Hdel HP HL HP1 HL1.
  assert (Hw' : healthy w' /\ forall x, x ∈ w_alerts w' -> al_id x <> n).
  { destruct (find_alert n (w_alerts w)) as [a|] eqn:Hf.
    - rewrite (delete_alert_found_run lib id n a w Hw Hl Hc Hf) in Hdel.
      injection Hdel as _ <-. split; [by apply healthy_set_alerts|].
      by apply delete_first_not_in.
    - rewrite (delete_alert_not_found_run lib id n w Hw Hc Hf) in Hdel.
      injection Hdel as _ <-. split; [done|]. by apply find_alert_None. }
  destruct Hw' as [Hw' Hnot].
  destruct (get_alerts_elements query w' P L Hw' HP HL HP1 HL1) as (a & t & hm & Hrun & Hsub).
  exists a, t, hm. split; [done|].
  intros x Hx. by apply Hnot, Hsub.
Qed.

(** ** Witnesses *)

Lemma delete_alert_not_found_witness :
  delete_alert mongoose6 (oid_hex 99) (demo_world 25) =
  (Ok (res_status_json 404 (fail_body "Alert not found")), demo_world 25).
Proof. apply (delete_alert_not_found _ _ 99); [apply demo_world_healthy | concrete | concrete]. Defined.

Lemma delete_alert_found_witness :
  delete_alert mongoose6 (oid_hex 3) (demo_world 25) =
  (Ok (res_json (JObj [("success", JBool true); ("message", JStr "Alert deleted successfully")])),
   set_alerts (delete_first 3 (w_alerts (demo_world 25))) (demo_world 25)).
Proof.
  apply (delete_alert_found _ _ 3 (demo_alert 3));
    [apply demo_world_healthy | concrete | concrete | concrete].
Defined.

Lemma delete_alert_no_remove_witness :
  delete_alert mongoose8 (oid_hex 3) (demo_world 25) =
  (Ok (res_status_json 500
         (error_body "Server error while deleting alert" remove_not_a_function)),
   add_log (LogError "Error deleting mayor alert:" remove_not_a_function) (demo_world 25)).
Proof.
  apply (delete_alert_no_remove _ _ 3 (demo_alert 3));
    [apply demo_world_healthy | concrete | concrete | concrete].
Defined.

Lemma delete_alert_cast_error_witness :
  delete_alert mongoose6 "abc123" (demo_world 25) =
  (Ok (res_status_json 500
         (error_body "Server error while deleting alert" (cast_error "abc123"))),
   add_log (LogError "Error deleting mayor alert:" (cast_error "abc123")) (demo_world 25)).
Proof. apply delete_alert_cast_error. concrete. Defined.

Lemma delete_then_list_excludes_witness :
  exists alerts total hasMore,
    get_alerts (demo_query "1" "10") (snd (delete_alert mongoose6 (oid_hex 25) (demo_world 25))) =
      (Ok (res_json (list_body alerts (NFin 1) total hasMore)),
       snd (delete_alert mongoose6 (oid_hex 25) (demo_world 25))) /\
    forall x, x ∈ alerts -> al_id x <> 25.
Proof.
  apply (delete_then_list_excludes mongoose6 (oid_hex 25) 25 (demo_world 25) _
           (match fst (delete_alert mongoose6 (oid_hex 25) (demo_world 25)) with
            | Ok r => r | Throw _ => res_json JNull end) _ 1 10);
    [apply demo_world_healthy | concrete ..].
Defined.
