(* ===== verification/Creation.v ===== *)
(** The creation, [router.post('/')] of [src/server/routes/mayorAlert.js]
    (lines 80-128): the destructuring of [req.body], the 400 guard, the
    trims, [new MayorAlert(...)] and [save()], the lookup of the users to
    notify, the log line and the response, and the [catch] block.  The
    theorems cover every branch, the error branches included. *)

From Stdlib Require Import ZArith Lia Sorted Permutation.
From stdpp Require Import base list option strings.
From S2P Require Import Prelude JsValue ObjectId Mongo Express Handler.

Local Open Scope Z_scope.
Local Open Scope m_scope.
Local Open Scope city_scope.

(** ** [POST /] *)

(** [x.trim()] on a value that is not a string. *)
Definition not_a_function (what : string) : JsError :=
  mkError "TypeError" (what ++ " is not a function").

Definition trim_or_throw (name : string) (v : JsVal) : M string :=
  match js_trim v with
  | Some s => Mret s
  | None => Mthrow (not_a_function (name ++ ".trim"))
  end.

(** [const { title, message } = req.body]: reading a property of
    [undefined] or [null] throws. *)
Definition body_field (body : JsVal) (key : string) : M JsVal :=
  match body with
  | JUndefined | JNull =>
      Mthrow (mkError "TypeError"
                ("Cannot destructure property '" ++ key ++ "' of 'req.body' as it is undefined."))
  | JObj fields => Mret (js_get fields key)
  | _ => Mret JUndefined
  end.

Definition notify_roles : list string := ["citizen"; "admin"].

Definition created_body (alert : Alert) : JsVal :=
  JObj [("success", JBool true);
        ("message", JStr "Alert sent successfully to all users and admins");
        ("data", JObj [("alert", alert_json alert)])].

Definition sent_log (n : nat) : string :=
  "Mayor alert sent to " ++ str_of_nat n ++ " users and admins".

Definition create_alert (body : JsVal) (user : User) : M Response :=
  Mtry
    (let* title := body_field body "title" in
     let* message := body_field body "message" in
     if negb (truthy title) || negb (truthy message) then
       Mret (res_status_json 400 (fail_body "Title and message are required"))
     else
       let* t := trim_or_throw "title" title in
       let* m := trim_or_throw "message" message in
       let* alert := new_alert t m (us_id user) in
       let* saved := save alert in
       let* allUsers := users_in_roles notify_roles in
       let* _ := console_log (sent_log (length allUsers)) in
       Mret (res_json (created_body saved)))
    (server_error "Error sending mayor alert:" "Server error while sending alert").

Definition demo_body (title message : JsVal) : JsVal :=
  JObj [("title", title); ("message", message)].

(** ** [POST /] *)

Lemma body_field_obj (fs : list (string * JsVal)) (k : string) (w : World) :
  body_field (JObj fs) k w = (Ok (js_get fs k), w).
Proof. reflexivity. Qed.

Lemma truthy_str (s : string) : s <> ""%string -> truthy (JStr s) = true.
Proof. intros Hs. simpl. by rewrite (proj2 (String.eqb_neq _ _) Hs). Qed.

Lemma trim_nonempty (s : string) : trim s <> ""%string -> s <> ""%string.
Proof. intros Ht ->. by apply Ht. Qed.

Lemma trim_or_throw_str (name s : string) (w : World) :
  trim_or_throw name (JStr s) w = (Ok (trim s), w).
Proof. reflexivity. Qed.

Lemma save_healthy (a : Alert) (w : World) :
  healthy w -> al_title a <> ""%string -> al_message a <> ""%string ->
  save a w = (Ok a, set_alerts (w_alerts w ++ [a]) w).
Proof.
  intros Hw Ht Hm. unfold save, missing_paths.
  rewrite (proj2 (String.eqb_neq _ _) Ht), (proj2 (String.eqb_neq _ _) Hm).
  cbn [app]. by rewrite db_call_healthy.
Qed.

Lemma users_in_roles_healthy (roles : list string) (w : World) :
  healthy w ->
  users_in_roles roles w =
  (Ok (List.filter (fun u => existsb (String.eqb (us_role u)) roles) (w_users w)), w).
Proof. intros Hw. unfold users_in_roles. by rewrite db_call_healthy. Qed.

Ltac run_step H := rewrite (Mbind_ok _ _ _ _ _ H).

(** C15. A request whose [title] or [message] is missing or falsy
    answers 400 and touches nothing. *)
Theorem create_alert_missing (fs : list (string * JsVal)) (u : User) (w : World) :
  truthy (js_get fs "title") = false \/ truthy (js_get fs "message") = false ->
  create_alert (JObj fs) u w =
  (Ok (res_status_json 400 (fail_body "Title and message are required")), w).
Proof.
  intros H. unfold create_alert. apply Mtry_ok.
  run_step (body_field_obj fs "title" w). run_step (body_field_obj fs "message" w).
  destruct H as [-> | ->]; [done|]. by rewrite orb_true_r.
Qed.

(** C16. A request with string fields that stay non-empty after trimming
    answers 200 with the new alert; exactly one alert is appended, with
    the trimmed title and message, the caller as [sentBy] and a fresh
    ObjectId; the console reports how many citizens and admins exist. *)
Theorem create_alert_valid (fs : list (string * JsVal)) (t m : string) (u : User) (w : World) :
  healthy w -> js_get fs "title" = JStr t -> js_get fs "message" = JStr m ->
  trim t <> ""%string -> trim m <> ""%string ->
  let a := mkAlert (w_next_oid w) (trim t) (trim m) (us_id u) (w_now w) in
  let n := length (List.filter (fun x => existsb (String.eqb (us_role x)) notify_roles)
                     (w_users w)) in
  create_alert (JObj fs) u w =
  (Ok (res_json (created_body a)),
   add_log (LogInfo (sent_log n))
     (set_alerts (w_alerts w ++ [a]) (set_next_oid (w_next_oid w + 1) w))).
Proof.
  intros Hw Ht Hm Htt Htm a n. unfold create_alert. apply Mtry_ok.
  run_step (body_field_obj fs "title" w). run_step (body_field_obj fs "message" w).
  rewrite Ht, Hm, !truthy_str by (by apply trim_nonempty). cbn [negb orb].
  run_step (trim_or_throw_str "title" t w). run_step (trim_or_throw_str "message" m w).
  assert (Hw1 : healthy (set_next_oid (w_next_oid w + 1) w)) by done.
  run_step (eq_refl : new_alert (trim t) (trim m) (us_id u) w =
                      (Ok a, set_next_oid (w_next_oid w + 1) w)).
  run_step (save_healthy a _ Hw1 Htt Htm).
  run_step (users_in_roles_healthy notify_roles _
              (proj2 (healthy_set_alerts (w_alerts w ++ [a]) _) Hw1)).
  reflexivity.
Qed.

(** C17. A title made only of whitespace passes the handler's guard (a
    non-empty string is truthy) and is trimmed to the empty string; the
    schema then rejects it on [save()], and the client gets a 500, not the
    400 of a missing field.  No alert is stored. *)
Theorem create_alert_blank_title (fs : list (string * JsVal)) (t m : string) (u : User)
    (w : World) :
  js_get fs "title" = JStr t -> js_get fs "message" = JStr m ->
  t <> ""%string -> trim t = ""%string -> trim m <> ""%string ->
  let e := validation_error ["title"%string] in
  create_alert (JObj fs) u w =
  (Ok (res_status_json 500 (error_body "Server error while sending alert" e)),
   add_log (LogError "Error sending mayor alert:" e) (set_next_oid (w_next_oid w + 1) w)).
Proof.
  intros Ht Hm Ht0 Htt Htm e. unfold create_alert.
  rewrite (Mtry_throw _ _ w (set_next_oid (w_next_oid w + 1) w) e); [reflexivity|].
  run_step (body_field_obj fs "title" w). run_step (body_field_obj fs "message" w).
  rewrite Ht, Hm, !truthy_str by (done || by apply trim_nonempty). cbn [negb orb].
  run_step (trim_or_throw_str "title" t w). run_step (trim_or_throw_str "message" m w).
  run_step (eq_refl : new_alert (trim t) (trim m) (us_id u) w =
                      (Ok (mkAlert (w_next_oid w) (trim t) (trim m) (us_id u) (w_now w)),
                       set_next_oid (w_next_oid w + 1) w)).
  apply Mbind_throw. unfold save, missing_paths. cbn [al_title al_message].
  rewrite Htt, (proj2 (String.eqb_neq _ _) Htm). reflexivity.
Qed.

(** C18. The user lookup after the save is not best-effort: if that round
    trip fails, the client gets a 500 although the alert is stored. *)
Theorem create_alert_lookup_fault (fs : list (string * JsVal)) (t m : string) (u : User)
    (w : World) (h : string) :
  w_conn w = Connected h -> w_faults w = [false; true] ->
  js_get fs "title" = JStr t -> js_get fs "message" = JStr m ->
  trim t <> ""%string -> trim m <> ""%string ->
  let a := mkAlert (w_next_oid w) (trim t) (trim m) (us_id u) (w_now w) in
  exists w',
    create_alert (JObj fs) u w =
      (Ok (res_status_json 500 (error_body "Server error while sending alert" network_error)),
       w') /\
    w_alerts w' = w_alerts w ++ [a].
Proof.
  intros Hc Hf Ht Hm Htt Htm a. unfold create_alert.
  set (w1 := set_next_oid (w_next_oid w + 1) w).
  set (w2 := set_alerts (w_alerts w ++ [a]) (set_faults [true] w1)).
  exists (add_log (LogError "Error sending mayor alert:" network_error) (set_faults [] w2)).
  split; [|reflexivity].
  rewrite (Mtry_throw _ _ w (set_faults [] w2) network_error); [reflexivity|].
  run_step (body_field_obj fs "title" w). run_step (body_field_obj fs "message" w).
  rewrite Ht, Hm, !truthy_str by (by apply trim_nonempty). cbn [negb orb].
  run_step (trim_or_throw_str "title" t w). run_step (trim_or_throw_str "message" m w).
  run_step (eq_refl : new_alert (trim t) (trim m) (us_id u) w = (Ok a, w1)).
  assert (Hsave : save a w1 = (Ok a, w2)).
  { unfold save, missing_paths. unfold a at 1 2. cbn [al_title al_message].
    rewrite (proj2 (String.eqb_neq _ _) Htt), (proj2 (String.eqb_neq _ _) Htm).
    cbn [app]. by rewrite (db_call_no_fault _ _ w1 h [true]). }
  run_step Hsave. apply Mbind_throw.
  unfold users_in_roles. by rewrite (db_call_fault _ _ w2 h []).
Qed.

(** C19. A title that is truthy but not a string (a number, an array, an
    object) makes [title.trim()] throw: the answer is a 500 with a
    [TypeError], and nothing is stored. *)
Theorem create_alert_title_not_string (fs : list (string * JsVal)) (u : User) (w : World) :
  truthy (js_get fs "title") = true -> truthy (js_get fs "message") = true ->
  js_trim (js_get fs "title") = None ->
  let e := not_a_function "title.trim" in
  create_alert (JObj fs) u w =
  (Ok (res_status_json 500 (error_body "Server error while sending alert" e)),
   add_log (LogError "Error sending mayor alert:" e) w).
Proof.
  intros Ht Hm Hn e. unfold create_alert.
  rewrite (Mtry_throw _ _ w w e); [reflexivity|].
  run_step (body_field_obj fs "title" w). run_step (body_field_obj fs "message" w).
  rewrite Ht, Hm. cbn [negb orb]. apply Mbind_throw.
  unfold trim_or_throw. by rewrite Hn.
Qed.

(** ** Witnesses *)

Lemma create_alert_missing_witness :
  create_alert (demo_body (JStr "") (JStr "Main St closed")) (mkUser 7 "mayor") (demo_world 2) =
  (Ok (res_status_json 400 (fail_body "Title and message are required")), demo_world 2).
Proof. apply create_alert_missing. left. concrete. Defined.

Lemma create_alert_valid_witness :
  let w := demo_world 2 in
  let a := mkAlert (w_next_oid w) (trim " Road Closure ") (trim " Main St closed ") 7 (w_now w) in
  let n := length (List.filter (fun x => existsb (String.eqb (us_role x)) notify_roles)
                     (w_users w)) in
  create_alert (JObj [("title", JStr " Road Closure "); ("message", JStr " Main St closed ")])
    (mkUser 7 "mayor") w =
  (Ok (res_json (created_body a)),
   add_log (LogInfo (sent_log n))
     (set_alerts (w_alerts w ++ [a]) (set_next_oid (w_next_oid w + 1) w))).
Proof.
  apply create_alert_valid; [apply demo_world_healthy | concrete | concrete | concrete | concrete].
Defined.

Lemma create_alert_blank_title_witness :
  let e := validation_error ["title"%string] in
  create_alert (JObj [("title", JStr "   "); ("message", JStr "Main St closed")])
    (mkUser 7 "mayor") (demo_world 2) =
  (Ok (res_status_json 500 (error_body "Server error while sending alert" e)),
   add_log (LogError "Error sending mayor alert:" e)
     (set_next_oid (w_next_oid (demo_world 2) + 1) (demo_world 2))).
Proof.
  apply (create_alert_blank_title _ "   " "Main St closed");
    [concrete | concrete | concrete | concrete | concrete].
Defined.

Lemma create_alert_lookup_fault_witness :
  let w := set_faults [false; true] (demo_world 2) in
  let a := mkAlert (w_next_oid w) (trim "Road Closure") (trim "Main St closed") 7 (w_now w) in
  exists w',
    create_alert (JObj [("title", JStr "Road Closure"); ("message", JStr "Main St closed")])
      (mkUser 7 "mayor") w =
      (Ok (res_status_json 500 (error_body "Server error while sending alert" network_error)),
       w') /\
    w_alerts w' = w_alerts w ++ [a].
Proof.
  apply (create_alert_lookup_fault _ "Road Closure" "Main St closed" (mkUser 7 "mayor")
           (set_faults [false; true] (demo_world 2)) "cluster0.mongodb.net");
    [concrete | concrete | concrete | concrete | concrete | concrete].
Defined.

Lemma create_alert_title_not_string_witness :
  let e := not_a_function "title.trim" in
  create_alert (demo_body (JNum 5) (JStr "Main St closed")) (mkUser 7 "mayor") (demo_world 2) =
  (Ok (res_status_json 500 (error_body "Server error while sending alert" e)),
   add_log (LogError "Error sending mayor alert:" e) (demo_world 2)).
Proof. apply create_alert_title_not_string; concrete. Defined.
