(* ===== verification/Router.v ===== *)
(** The router of [src/server/routes/mayorAlert.js]: the three routes in
    registration order, each behind [protect] and [authorize('mayor')],
    and what holds of every request it takes: the handlers never let an
    error escape, never touch the connection, the buffering flag, the
    clock or the users, and keep the store well formed.  The frame
    conditions are proved once per handler for any preorder [R] on worlds
    that the console and the fault oracle respect. *)

From Stdlib Require Import ZArith Lia Sorted Permutation.
From stdpp Require Import base list option strings.
From S2P Require Import Prelude JsValue ObjectId Mongo Express Handler Listing Deletion Creation.

Local Open Scope Z_scope.
Local Open Scope m_scope.
Local Open Scope city_scope.

Section Router.

Context (lib : MongooseLib).

(** ** The router *)

(** [router.get('/', protect, authorize('mayor'), ...)]. *)
Definition route_get (rq : Request) : option (M Response) :=
  match rq_method rq, rq_path rq with
  | GET, [] => Some (guarded ["mayor"] rq (fun _ => get_alerts (rq_query rq)))
  | _, _ => None
  end.

(** [router.delete('/:id', protect, authorize('mayor'), ...)]. *)
Definition route_delete (rq : Request) : option (M Response) :=
  match rq_method rq, rq_path rq with
  | DELETE, [id] => Some (guarded ["mayor"] rq (fun _ => delete_alert lib id))
  | _, _ => None
  end.

(** [router.post('/', protect, authorize('mayor'), ...)]. *)
Definition route_post (rq : Request) : option (M Response) :=
  match rq_method rq, rq_path rq with
  | POST, [] => Some (guarded ["mayor"] rq (create_alert (rq_body rq)))
  | _, _ => None
  end.

(** [express.Router()] with the three routes: Express tries them in
    registration order; [None] is a request no route matches, which
    Express passes on. *)
Definition router (rq : Request) : option (M Response) :=
  match route_get rq with
  | Some h => Some h
  | None => match route_delete rq with
            | Some h => Some h
            | None => route_post rq
            end
  end.

End Router.

(** ** Frame conditions of the handlers *)

Section HandlerFrames.

Context (R : World -> World -> Prop) `{!PreOrder R}.
Hypothesis R_faults : forall w fs, R w (set_faults fs w).
Hypothesis R_log : forall w l, R w (add_log l w).

Lemma keeps_server_error (prefix msg : string) (e : JsError) : keeps R (server_error prefix msg e).
Proof. apply keeps_bind; [apply _ | intros w; apply R_log | intros; apply keeps_ret, _]. Qed.

Lemma keeps_get_alerts (query : list (string * JsVal)) : keeps R (get_alerts query).
Proof.
  destruct (reads_keep R mongoose6 R_faults) as (Hf & Hc & _ & _).
  apply keeps_try; [apply _| |intros; apply keeps_server_error].
  apply keeps_bind; [apply _| |intros [? ?]; apply keeps_ret, _].
  by apply keeps_promise_all2.
Qed.

Lemma keeps_delete_alert (lib : MongooseLib) (id : string) :
  (forall a, keeps R (doc_remove lib a)) -> keeps R (delete_alert lib id).
Proof.
  intros Hrm. destruct (reads_keep R lib R_faults) as (_ & _ & Hfind & _).
  apply keeps_try; [apply _| |intros; apply keeps_server_error].
  apply keeps_bind; [apply _ | apply Hfind |].
  intros [a|]; [|apply keeps_ret, _].
  apply keeps_bind; [apply _ | apply Hrm | intros; apply keeps_ret, _].
Qed.

Lemma keeps_create_alert (body : JsVal) (user : User) :
  (forall t m u B (k : Alert -> M B), (forall a, keeps R (k a)) ->
     keeps R (Mbind (new_alert t m u) (fun a => Mbind (save a) k))) ->
  keeps R (create_alert body user).
Proof.
  intros Hns. destruct (reads_keep R mongoose6 R_faults) as (_ & _ & _ & Husers).
  assert (Hbf : forall k, keeps R (body_field body k)).
  { intros k. unfold body_field. destruct body; apply _ || apply keeps_ret, _ || apply keeps_throw, _. }
  assert (Htr : forall n v, keeps R (trim_or_throw n v)).
  { intros n v. unfold trim_or_throw. destruct (js_trim v); [apply keeps_ret | apply keeps_throw]; apply _. }
  apply keeps_try; [apply _| |intros; apply keeps_server_error].
  apply keeps_bind; [apply _ | apply Hbf | intros title].
  apply keeps_bind; [apply _ | apply Hbf | intros message].
  destruct (_ || _); [apply keeps_ret, _|].
  apply keeps_bind; [apply _ | apply Htr | intros t].
  apply keeps_bind; [apply _ | apply Htr | intros m].
  apply Hns. intros saved.
  apply keeps_bind; [apply _ | apply Husers | intros users].
  apply keeps_bind; [apply _ | intros w; apply R_log | intros; apply keeps_ret, _].
Qed.

End HandlerFrames.

(** What the router dispatches to: one of the three handlers behind the
    middleware. *)
Lemma router_cases (lib : MongooseLib) (rq : Request) (m : M Response) :
  router lib rq = Some m ->
  exists h, m = guarded ["mayor"] rq h /\
    (h = (fun _ => get_alerts (rq_query rq)) \/
     (exists id, h = (fun _ => delete_alert lib id)) \/
     h = create_alert (rq_body rq)).
Proof.
  unfold router, route_get, route_delete, route_post. destruct (rq_method rq), (rq_path rq) as [|id [|]]; intros [= <-];
    eexists; (split; [reflexivity|]); eauto.
Qed.

(** The handlers never touch the connection, the buffering flag, the
    clock or the users. *)
Lemma same_env_router (lib : MongooseLib) (rq : Request) (m : M Response) :
  router lib rq = Some m -> keeps same_env m.
Proof.
  intros (h & -> & [-> | [[id ->] | ->]])%router_cases; apply (keeps_guarded _ _ _ same_env); intros u.
  - apply (keeps_get_alerts same_env); [intros ??; apply same_env_set_faults | intros ??; apply same_env_add_log].
  - apply (keeps_delete_alert same_env); [intros ??; apply same_env_set_faults | intros ??; apply same_env_add_log |].
    apply same_env_doc_remove.
  - apply (keeps_create_alert same_env); [intros ??; apply same_env_set_faults | intros ??; apply same_env_add_log |].
    intros t m uid B k Hk. apply keeps_bind; [apply _ | apply same_env_new_alert | intros a].
    apply keeps_bind; [apply _ | apply same_env_save | apply Hk].
Qed.

(** The handlers keep the store well formed. *)
Lemma wf_pre_router (lib : MongooseLib) (rq : Request) (m : M Response) :
  router lib rq = Some m -> keeps wf_pre m.
Proof.
  assert (Hf : forall w fs, wf_pre w (set_faults fs w)) by (intros w fs Hw; done).
  assert (Hl : forall w l, wf_pre w (add_log l w)) by (intros w l Hw; done).
  intros (h & -> & [-> | [[id ->] | ->]])%router_cases; apply (keeps_guarded _ _ _ wf_pre); intros u.
  - by apply (keeps_get_alerts wf_pre).
  - apply (keeps_delete_alert wf_pre); [done | done |]. apply wf_pre_doc_remove.
  - apply (keeps_create_alert wf_pre); [done | done |].
    intros t m uid B k Hk. by apply wf_pre_new_save.
Qed.

(** Every request the router takes gets a response: the handlers and the
    middleware never let an error escape. *)
Lemma router_never_throws (lib : MongooseLib) (rq : Request) (m : M Response) (w : World) :
  router lib rq = Some m -> exists r w', m w = (Ok r, w').
Proof.
  intros (h & -> & [-> | [[id ->] | ->]])%router_cases; apply guarded_ok; intros u;
    apply Mtry_server_error_ok.
Qed.
