(* ===== verification/Interleaving.v ===== *)
(** Requests interleaved at their [await]s (spec, section 5).  Node runs
    one handler at a time, but only until it awaits: while the listing
    waits for its two queries, the deletion for [findById], or the
    creation for [save()], the database may serve the queries of other
    requests.  A [Prog] is a handler of [src/server/routes/mayorAlert.js]
    cut at its [await]s: each [PAwait] is one step (a round trip and the
    synchronous code up to the next [await]), executed atomically, and
    [PAll] the two round trips of [Promise.all], which settle one after
    the other in either order.  The console lines ([console.error] of a
    [catch] block, [console.log] of the creation) are steps of their own,
    although Node runs them with the code before them: the model allows
    more interleavings than Node, so what holds for every schedule holds
    for Node's.  [listing_prog], [deletion_prog] and
    [creation_prog] are the three handlers cut this way; [run_alone] runs
    a program with no other request in between, which gives back the
    handlers of [Listing], [Deletion] and [Creation]
    ([listing_prog_alone] and the like).

    A [Config] is the store and the requests in progress; [cstep] lets
    the database serve the next step of the request a scheduler picks,
    and [run_sched] follows a schedule.  [race_delete_list] and
    [race_delete_delete] are the two races of the spec's section 5, for
    every store and request: a deletion served between the listing's two
    queries gives a page read before it with a page count read after it,
    and two deletions of one alert both report success.  [Conservation]
    and [ConcurrentDelete] prove what holds under every schedule. *)

From Stdlib Require Import ZArith Lia.
From stdpp Require Import base list option strings.
From S2P Require Import Prelude JsNumber JsValue ObjectId Mongo Express Handler Listing Deletion Creation.

Local Open Scope Z_scope.
Local Open Scope m_scope.

(** ** Handlers cut at their awaits *)

Inductive Prog : Type :=
  | PDone (r : Response)
  | PAwait {B : Type} (q : M B) (k : Outcome B -> Prog)
  | PAll {A B : Type} (q1 : M A) (q2 : M B) (k : Outcome (A * B) -> Prog)
  | PAllL {A B : Type} (o1 : Outcome A) (q2 : M B) (k : Outcome (A * B) -> Prog)
  | PAllR {A B : Type} (q1 : M A) (o2 : Outcome B) (k : Outcome (A * B) -> Prog).

(** [Promise.all] rejects with the first rejection to happen: the first
    query's when it settles first ([all_outcome]), the second's when that
    one settles first ([all_outcome_rev]). *)
Definition all_outcome {A B} (o1 : Outcome A) (o2 : Outcome B) : Outcome (A * B) :=
  match o1, o2 with
  | Ok a, Ok b => Ok (a, b)
  | Throw e, _ => Throw e
  | _, Throw e => Throw e
  end.

Definition all_outcome_rev {A B} (o1 : Outcome A) (o2 : Outcome B) : Outcome (A * B) :=
  match o2, o1 with
  | Ok b, Ok a => Ok (a, b)
  | Throw e, _ => Throw e
  | _, Throw e => Throw e
  end.

(** A program run with no other request in between, the first query of
    a [Promise.all] settling first. *)
Fixpoint run_alone (p : Prog) (w : World) : Response * World :=
  match p with
  | PDone r => (r, w)
  | PAwait q k => let '(o, w1) := q w in run_alone (k o) w1
  | PAll q1 q2 k =>
      let '(o1, w1) := q1 w in
      let '(o2, w2) := q2 w1 in
      run_alone (k (all_outcome o1 o2)) w2
  | PAllL o1 q2 k => let '(o2, w1) := q2 w in run_alone (k (all_outcome o1 o2)) w1
  | PAllR q1 o2 k => let '(o1, w1) := q1 w in run_alone (k (all_outcome_rev o1 o2)) w1
  end.

(** The [catch] block: the log line, then the 500 envelope. *)
Definition catch_prog (prefix msg : string) (e : JsError) : Prog :=
  PAwait (console_error prefix e) (fun _ => PDone (res_status_json 500 (error_body msg e))).

(** [GET /] cut at [await Promise.all([...])]. *)
Definition listing_prog (query : list (string * JsVal)) : Prog :=
  let page := page_of query in
  let limit := limit_of query in
  let skip := offset page limit in
  PAll (find_sorted_page skip limit) count_documents (fun o =>
    match o with
    | Ok (alerts, total) =>
        PDone (res_json
                 (list_body alerts page (js_ceil_div (num_of_nat total) limit)
                    (js_lt (js_add skip (num_of_nat (length alerts))) (num_of_nat total))))
    | Throw e => catch_prog "Error fetching mayor alerts:" "Server error while fetching alerts" e
    end).

(** [DELETE /:id] cut at [await findById(...)] and [await alert.remove()]. *)
Definition deletion_prog (lib : MongooseLib) (id : string) : Prog :=
  let catch := catch_prog "Error deleting mayor alert:" "Server error while deleting alert" in
  PAwait (find_by_id lib id) (fun o =>
    match o with
    | Ok None => PDone (res_status_json 404 (fail_body "Alert not found"))
    | Ok (Some alert) =>
        PAwait (doc_remove lib alert) (fun o =>
          match o with
          | Ok _ => PDone (res_json (JObj [("success", JBool true);
                                           ("message", JStr "Alert deleted successfully")]))
          | Throw e => catch e
          end)
    | Throw e => catch e
    end).

(** [POST /] up to [await alert.save()]: the destructuring, the 400
    guard (answered without awaiting: [inl]), the trims and [new
    MayorAlert(...)], which takes its ObjectId and [createdAt] on the
    client before anything is awaited ([inr]). *)
Definition creation_prefix (body : JsVal) (user : User) : M (Response + Alert) :=
  let* title := body_field body "title" in
  let* message := body_field body "message" in
  if negb (truthy title) || negb (truthy message) then
    Mret (inl (res_status_json 400 (fail_body "Title and message are required")))
  else
    let* t := trim_or_throw "title" title in
    let* m := trim_or_throw "message" message in
    let* alert := new_alert t m (us_id user) in
    Mret (inr alert).

(** [POST /] cut at [await alert.save()] and [await User.find(...)]; the
    log line is a step of its own, as in [catch_prog]. *)
Definition creation_prog (body : JsVal) (user : User) : Prog :=
  let catch := catch_prog "Error sending mayor alert:" "Server error while sending alert" in
  PAwait (creation_prefix body user) (fun o =>
    match o with
    | Ok (inl r) => PDone r
    | Ok (inr alert) =>
        PAwait (save alert) (fun o =>
          match o with
          | Ok saved =>
              PAwait (users_in_roles notify_roles) (fun o =>
                match o with
                | Ok allUsers =>
                    PAwait (console_log (sent_log (length allUsers))) (fun _ =>
                      PDone (res_json (created_body saved)))
                | Throw e => catch e
                end)
          | Throw e => catch e
          end)
    | Throw e => catch e
    end).

(** A program as a handler of the monad [M]. *)
Definition to_M (p : Prog) : M Response := fun w =>
  let '(r, w') := run_alone p w in (Ok r, w').

(** ** Scheduling *)

(** The database serves the next round trip of a program; for a
    [Promise.all] whose two queries are both pending, [second] says that
    the second one is served first. *)
Definition pstep (second : bool) (p : Prog) (w : World) : option (Prog * World) :=
  match p with
  | PDone _ => None
  | PAwait q k => let '(o, w1) := q w in Some (k o, w1)
  | PAll q1 q2 k =>
      if second then let '(o2, w1) := q2 w in Some (PAllR q1 o2 k, w1)
      else let '(o1, w1) := q1 w in Some (PAllL o1 q2 k, w1)
  | PAllL o1 q2 k => let '(o2, w1) := q2 w in Some (k (all_outcome o1 o2), w1)
  | PAllR q1 o2 k => let '(o1, w1) := q1 w in Some (k (all_outcome_rev o1 o2), w1)
  end.

(** The store, the requests in progress, and the responses sent, in the
    order they were sent. *)
Record Config := mkConfig {
  cf_world : World;
  cf_threads : list Prog;
  cf_responses : list Response
}.

(** One round trip of request [i]; a request that reaches its response
    leaves the configuration.  [None]: there is no request [i]. *)
Definition cstep (ch : nat * bool) (c : Config) : option Config :=
  let '(i, second) := ch in
  match cf_threads c !! i with
  | None => None
  | Some p =>
      match pstep second p (cf_world c) with
      | None => None
      | Some (PDone r, w1) => Some (mkConfig w1 (delete i (cf_threads c)) (cf_responses c ++ [r]))
      | Some (p', w1) => Some (mkConfig w1 (<[i := p']> (cf_threads c)) (cf_responses c))
      end
  end.

(** A schedule; a choice of a request that does not exist is skipped. *)
Definition run_sched (sched : list (nat * bool)) (c : Config) : Config :=
  fold_left (fun c ch => default c (cstep ch c)) sched c.

(** [n] round trips, each of some request. *)
Inductive steps : nat -> Config -> Config -> Prop :=
  | steps_refl (c : Config) : steps 0 c c
  | steps_step (n : nat) (ch : nat * bool) (c c1 c2 : Config) :
      cstep ch c = Some c1 -> steps n c1 c2 -> steps (S n) c c2.

(** A request of the router, as the thread it starts. *)
Inductive Call :=
  | CallList (query : list (string * JsVal))
  | CallDelete (id : string)
  | CallCreate (body : JsVal) (user : User).

Definition spawn (lib : MongooseLib) (call : Call) : Prog :=
  match call with
  | CallList q => listing_prog q
  | CallDelete id => deletion_prog lib id
  | CallCreate body user => creation_prog body user
  end.

(** Whether every choice of a schedule serves a request. *)
Fixpoint all_enabled (sched : list (nat * bool)) (c : Config) : bool :=
  match sched with
  | [] => true
  | ch :: sched' =>
      match cstep ch c with
      | Some c' => all_enabled sched' c'
      | None => false
      end
  end.

(** The configuration at the start: the requests [calls] have each run
    up to their first [await], nothing has been answered yet. *)
Definition start (lib : MongooseLib) (calls : list Call) (w : World) : Config :=
  mkConfig w (map (spawn lib) calls) [].

(** A request that has not yet answered. *)
Definition not_done (p : Prog) : Prop :=
  match p with
  | PDone _ => False
  | _ => True
  end.

Lemma catch_prog_run (prefix msg : string) (e : JsError) (w : World) :
  to_M (catch_prog prefix msg e) w = server_error prefix msg e w.
Proof. reflexivity. Qed.

Lemma listing_prog_alone (query : list (string * JsVal)) (w : World) :
  to_M (listing_prog query) w = get_alerts query w.
Proof.
  unfold to_M, listing_prog, get_alerts, get_alerts_body, Mtry, Mbind, promise_all2.
  cbn [run_alone].
  destruct (find_sorted_page _ _ w) as [[a|e] w1]; destruct (count_documents w1) as [[t|e'] w2];
    reflexivity.
Qed.

Lemma deletion_prog_alone (lib : MongooseLib) (id : string) (w : World) :
  to_M (deletion_prog lib id) w = delete_alert lib id w.
Proof.
  unfold to_M, deletion_prog, delete_alert, Mtry, Mbind. cbn [run_alone].
  destruct (find_by_id lib id w) as [[[a|]|e] w1]; [|reflexivity|reflexivity].
  cbn [run_alone]. destruct (doc_remove lib a w1) as [[[]|e] w2]; reflexivity.
Qed.

(** The three ways the synchronous part of [POST /] ends; which one,
    and the fields of the alert, depend on the body only. *)
Lemma creation_prefix_uniform (body : JsVal) (u : User) :
  (forall w, creation_prefix body u w =
     (Ok (inl (res_status_json 400 (fail_body "Title and message are required"))), w)) \/
  (exists e, forall w, creation_prefix body u w = (Throw e, w)) \/
  (exists t m, forall w, creation_prefix body u w =
     (Ok (inr (mkAlert (w_next_oid w) t m (us_id u) (w_now w))), set_next_oid (w_next_oid w + 1) w)).
Proof.
  unfold creation_prefix, Mbind, body_field, trim_or_throw, new_alert, Mret, Mthrow.
  destruct body; cbn; repeat case_match; eauto 10.
Qed.

Lemma sum_list_delete (ns : list nat) (i n : nat) :
  ns !! i = Some n -> (sum_list (delete i ns) + n = sum_list ns)%nat.
Proof.
  revert i. induction ns as [|m ns IH]; intros [|i] Hi; simplify_eq/=; [lia|].
  rewrite <- (IH i Hi). lia.
Qed.

Lemma sum_list_insert (ns : list nat) (i n m : nat) :
  ns !! i = Some n -> (sum_list (<[i := m]> ns) + n = sum_list ns + m)%nat.
Proof.
  revert i. induction ns as [|k ns IH]; intros [|i] Hi; simplify_eq/=; [lia|].
  specialize (IH i Hi). lia.
Qed.

(** A round trip of a configuration, unfolded: request [i], in program
    [p], is served, and either answers or goes on as [p']. *)
Lemma cstep_inv (ch : nat * bool) (c c' : Config) :
  cstep ch c = Some c' ->
  exists p p' w', cf_threads c !! ch.1 = Some p /\ pstep ch.2 p (cf_world c) = Some (p', w') /\
    ((exists r, p' = PDone r /\
        c' = mkConfig w' (delete ch.1 (cf_threads c)) (cf_responses c ++ [r])) \/
     (not_done p' /\ c' = mkConfig w' (<[ch.1 := p']> (cf_threads c)) (cf_responses c))).
Proof.
  destruct ch as [i second]. unfold cstep. simpl.
  destruct (cf_threads c !! i) as [p|] eqn:Hi; [|done].
  destruct (pstep second p (cf_world c)) as [[p' w']|] eqn:Hp; [|done].
  intros Hc. exists p, p', w'. split_and!; [done | done |].
  destruct p'; [left; eexists; split; [done | by simplify_eq] | right; split; [done | by simplify_eq]..].
Qed.

Lemma run_sched_step (ch : nat * bool) (sched : list (nat * bool)) (c c' : Config) :
  cstep ch c = Some c' -> run_sched (ch :: sched) c = run_sched sched c'.
Proof. intros Hc. unfold run_sched. simpl. by rewrite Hc. Qed.

(** Serve the next step of a schedule, rewriting the round trip it makes
    with one of the equations [tac] uses. *)
Ltac sched_step tac :=
  erewrite run_sched_step
    by (unfold cstep; cbn [cf_threads cf_world lookup list_lookup insert list_insert delete
                           list_delete pstep]; tac; reflexivity).

Lemma steps_run_sched (sched : list (nat * bool)) (c : Config) :
  all_enabled sched c = true -> steps (length sched) c (run_sched sched c).
Proof.
  revert c. induction sched as [|ch sched IH]; intros c; simpl; [intros _; constructor|].
  destruct (cstep ch c) as [c1|] eqn:Hc; [|done]. intros He.
  econstructor; [exact Hc | by apply IH].
Qed.

Lemma creation_prog_alone (body : JsVal) (u : User) (w : World) :
  to_M (creation_prog body u) w = create_alert body u w.
Proof.
  unfold to_M, creation_prog, creation_prefix, create_alert, Mtry, Mbind. cbn [run_alone].
  destruct (body_field body "title" w) as [[title|e] w1]; [|reflexivity].
  destruct (body_field body "message" w1) as [[message|e] w2]; [|reflexivity].
  destruct (negb (truthy title) || negb (truthy message)); [reflexivity|].
  destruct (trim_or_throw "title" title w2) as [[t|e] w3]; [|reflexivity].
  destruct (trim_or_throw "message" message w3) as [[m|e] w4]; [|reflexivity].
  cbn [new_alert Mret run_alone].
  destruct (save _ _) as [[saved|e] w5]; cbn [run_alone]; [|reflexivity].
  destruct (users_in_roles notify_roles w5) as [[all|e] w6]; reflexivity.
Qed.

Lemma length_delete_first_found (n : Z) (l : list Alert) (a : Alert) :
  find_alert n l = Some a -> length (delete_first n l) = pred (length l).
Proof.
  unfold find_alert. induction l as [|b l IH]; [done|]. simpl.
  destruct (al_id b =? n); [done|]. intros Hf. cbn [length]. rewrite (IH Hf).
  destruct l; [done | reflexivity].
Qed.

(** The listing for a query in the safe range, cut at its [Promise.all]. *)
Lemma listing_prog_safe (query : list (string * JsVal)) (w : World) (P L : Z) :
  safe_page query w P L ->
  listing_prog query =
  PAll (find_sorted_page (NFin ((P - 1) * L)) (NFin L)) count_documents (fun o =>
    match o with
    | Ok (alerts, total) =>
        PDone (res_json
                 (list_body alerts (NFin P) (js_ceil_div (num_of_nat total) (NFin L))
                    (js_lt (js_add (NFin ((P - 1) * L)) (num_of_nat (length alerts)))
                       (num_of_nat total))))
    | Throw e => catch_prog "Error fetching mayor alerts:" "Server error while fetching alerts" e
    end).
Proof.
  intros (HP & HL & HP1 & HL1 & HPL & _). unfold listing_prog.
  by rewrite HP, HL, offset_safe by done.
Qed.

(** The listing's response for a page read from one store and a count
    [T] read from another, in the safe range. *)
Lemma listing_response_safe (alerts : list Alert) (P L T : Z) :
  1 <= P -> 1 <= L -> P * L <= 2 ^ 53 -> 0 <= T < 2 ^ 53 -> (length alerts <= Z.to_nat L)%nat ->
  res_json (list_body alerts (NFin P) (js_ceil_div (num_of_nat (Z.to_nat T)) (NFin L))
              (js_lt (js_add (NFin ((P - 1) * L)) (num_of_nat (length alerts)))
                 (num_of_nat (Z.to_nat T)))) =
  res_json (list_body alerts (NFin P) (NFin (- (- T / L)))
              ((P - 1) * L + Z.of_nat (length alerts) <? T)).
Proof.
  intros HP HL HPL HT Ha.
  rewrite (num_of_nat_small (length alerts)), (num_of_nat_small (Z.to_nat T)) by nia.
  rewrite Z2Nat.id by lia.
  by rewrite js_add_fin, round_int_small, js_lt_fin, js_ceil_div_small by nia.
Qed.

(** C25. A deletion served between the two queries of a
    listing's [Promise.all] puts two states of the store in one
    response: the page is read before the deletion (so it still holds
    the deleted alert if the alert is on it) and the page count after
    it, from one alert fewer.  Neither order of the two requests gives
    such a response when the deleted alert is on the page and the count
    changes. *)
Theorem race_delete_list (lib : MongooseLib) (query : list (string * JsVal)) (id : string)
    (n : Z) (a : Alert) (w : World) (P L : Z) :
  healthy w -> lib_doc_remove lib = true -> cast_oid lib id = Some n ->
  find_alert n (w_alerts w) = Some a -> safe_page query w P L ->
  let N := Z.of_nat (length (w_alerts w)) in
  let page := ((sort_desc (w_alerts w)) ⟦Z.to_nat ((P - 1) * L) +: Z.to_nat L⟧)%city in
  cf_responses (run_sched [(0, false); (1, false); (1, false); (0, false)]%nat
                  (start lib [CallList query; CallDelete id] w)) =
    [res_json (JObj [("success", JBool true); ("message", JStr "Alert deleted successfully")]);
     res_json (list_body page (NFin P) (NFin (- (- (N - 1) / L)))
                 ((P - 1) * L + Z.of_nat (length page) <? N - 1))].
Proof.
  intros Hw Hl Hc Hf Hq N page.
  pose proof Hq as (_ & _ & HP & HL & HPL & HN).
  destruct (find_alert_id _ _ _ Hf) as [Hid Hin].
  assert (HN1 : 1 <= N) by (destruct (w_alerts w); [by apply not_elem_of_nil in Hin | simpl in *; lia]).
  set (w1 := set_alerts (delete_first n (w_alerts w)) w).
  assert (HFS : find_sorted_page (NFin ((P - 1) * L)) (NFin L) w = (Ok page, w)).
  { assert (Hs : to_long (NFin ((P - 1) * L)) = (P - 1) * L) by (apply to_long_small; nia).
    rewrite find_sorted_page_healthy by (done || (rewrite Hs; nia)).
    rewrite Hs, driver_limit_pos, to_long_small, apply_limit_pos by nia. done. }
  assert (HF : find_by_id lib id w = (Ok (Some a), w))
    by (by rewrite (find_by_id_healthy lib id n w Hw Hc), Hf).
  assert (Hrem : doc_remove lib a w = (Ok tt, w1)) by (by rewrite doc_remove_healthy, Hid).
  assert (HC : count_documents w1 = (Ok (Z.to_nat (N - 1)), w1)).
  { rewrite count_documents_healthy by (by apply healthy_set_alerts). cbn [w_alerts set_alerts w1].
    do 3 f_equal. rewrite (length_delete_first_found _ _ _ Hf). lia. }
  assert (Hpage : (length page <= Z.to_nat L)%nat) by (subst page; rewrite length_take; lia).
  unfold start. cbn [map spawn]. rewrite (listing_prog_safe query w P L Hq).
  unfold deletion_prog.
  sched_step ltac:(rewrite HFS). sched_step ltac:(rewrite HF).
  sched_step ltac:(rewrite Hrem). sched_step ltac:(rewrite HC).
  cbn [run_sched fold_left cf_responses app all_outcome].
  by rewrite listing_response_safe by (done || lia).
Qed.

(** C24. Two concurrent deletions of the same alert both succeed.  With
    Mongoose 6 on a connected store, [DELETE /:id] twice: served one after
    the other, the first answers 200 and the second 404; but with both
    [findById]s served before either [remove()], both find the alert and
    both answer 200 "Alert deleted successfully", although the second
    deleted nothing.  Either way the store ends without the alert. *)
Theorem race_delete_delete (lib : MongooseLib) (id : string) (n : Z) (a : Alert) (w : World) :
  healthy w -> lib_doc_remove lib = true -> NoDup (map al_id (w_alerts w)) ->
  cast_oid lib id = Some n -> find_alert n (w_alerts w) = Some a ->
  let c0 := start lib [CallDelete id; CallDelete id] w in
  let deleted := res_json (JObj [("success", JBool true);
                                 ("message", JStr "Alert deleted successfully")]) in
  cf_responses (run_sched [(0, false); (0, false); (0, false)]%nat c0) =
    [deleted; res_status_json 404 (fail_body "Alert not found")] /\
  cf_responses (run_sched [(0, false); (1, false); (0, false); (0, false)]%nat c0) =
    [deleted; deleted] /\
  w_alerts (cf_world (run_sched [(0, false); (0, false); (0, false)]%nat c0)) =
    delete_first n (w_alerts w) /\
  w_alerts (cf_world (run_sched [(0, false); (1, false); (0, false); (0, false)]%nat c0)) =
    delete_first n (w_alerts w).
Proof.
  intros Hw Hl Hnd Hc Hf c0 deleted.
  destruct (find_alert_id _ _ _ Hf) as [Hid _].
  set (w1 := set_alerts (delete_first n (w_alerts w)) w).
  assert (Hw1 : healthy w1) by (by apply healthy_set_alerts).
  assert (Habs : forall x, x ∈ w_alerts w1 -> al_id x <> n) by (by apply delete_first_not_in).
  assert (HF : find_by_id lib id w = (Ok (Some a), w))
    by (by rewrite (find_by_id_healthy lib id n w Hw Hc), Hf).
  assert (HF1 : find_by_id lib id w1 = (Ok None, w1))
    by (by rewrite (find_by_id_healthy lib id n w1 Hw1 Hc), find_alert_absent).
  assert (Hrem : doc_remove lib a w = (Ok tt, w1)) by (by rewrite doc_remove_healthy, Hid).
  assert (Hrem1 : doc_remove lib a w1 = (Ok tt, w1))
    by (rewrite doc_remove_healthy, Hid, delete_first_absent by done; by destruct w).
  unfold c0, start. cbn [map spawn]. unfold deletion_prog.
  split_and!;
    repeat sched_step ltac:(rewrite ?HF, ?HF1, ?Hrem, ?Hrem1);
    cbn [run_sched fold_left cf_responses cf_world app w_alerts w1 set_alerts]; reflexivity.
Qed.

(** ** Witnesses *)

Lemma race_delete_list_witness :
  let N := Z.of_nat (length (w_alerts (demo_world 11))) in
  let page := ((sort_desc (w_alerts (demo_world 11))) ⟦Z.to_nat ((2 - 1) * 10) +: Z.to_nat 10⟧)%city in
  cf_responses (run_sched [(0, false); (1, false); (1, false); (0, false)]%nat
                  (start mongoose6 [CallList (page_limit_query 2 10); CallDelete (oid_hex 1)]
                     (demo_world 11))) =
    [res_json (JObj [("success", JBool true); ("message", JStr "Alert deleted successfully")]);
     res_json (list_body page (NFin 2) (NFin (- (- (N - 1) / 10)))
                 ((2 - 1) * 10 + Z.of_nat (length page) <? N - 1))].
Proof.
  apply (race_delete_list mongoose6 _ _ 1 (demo_alert 1));
    [apply demo_world_healthy | reflexivity | concrete | concrete | split_and!; concrete].
Defined.

(** On that run the page holds the deleted alert, and the response says
    there is one page although it is page 2. *)
Example race_delete_list_demo :
  cf_responses (run_sched [(0, false); (1, false); (1, false); (0, false)]%nat
                  (start mongoose6 [CallList (page_limit_query 2 10); CallDelete (oid_hex 1)]
                     (demo_world 11))) =
    [res_json (JObj [("success", JBool true); ("message", JStr "Alert deleted successfully")]);
     res_json (list_body [demo_alert 1] (NFin 2) (NFin 1) false)].
Proof. vm_compute. reflexivity. Qed.

Lemma race_delete_delete_witness :
  let c0 := start mongoose6 [CallDelete (oid_hex 1); CallDelete (oid_hex 1)] (demo_world 3) in
  let deleted := res_json (JObj [("success", JBool true);
                                 ("message", JStr "Alert deleted successfully")]) in
  cf_responses (run_sched [(0, false); (0, false); (0, false)]%nat c0) =
    [deleted; res_status_json 404 (fail_body "Alert not found")] /\
  cf_responses (run_sched [(0, false); (1, false); (0, false); (0, false)]%nat c0) =
    [deleted; deleted] /\
  w_alerts (cf_world (run_sched [(0, false); (0, false); (0, false)]%nat c0)) =
    delete_first 1 (w_alerts (demo_world 3)) /\
  w_alerts (cf_world (run_sched [(0, false); (1, false); (0, false); (0, false)]%nat c0)) =
    delete_first 1 (w_alerts (demo_world 3)).
Proof.
  apply (race_delete_delete mongoose6 (oid_hex 1) 1 (demo_alert 1) (demo_world 3));
    [apply demo_world_healthy | reflexivity | concrete | concrete | reflexivity].
Defined.
