(* ===== verification/Conservation.v ===== *)
(** Concurrent creations are neither lost nor duplicated.  On a connected
    store without faults ([healthy]), however the database interleaves the
    steps of several [POST /] requests, including their [save()]s and user
    lookups, every request that answers 200 has stored exactly one alert
    and every other request has stored none, and the alerts already there
    stay in place.  [stores p a s] says that program [p], under every
    interleaving that keeps the store healthy, appends [a] more alerts and
    sends [s] responses with status 200; [count_inv] is the bookkeeping of
    the configuration: the alerts stored plus those still to come are the
    initial ones plus the 200 responses, sent or still to come.  Which
    branch a creation takes depends on its body only
    ([Interleaving.creation_prefix_uniform]), so each creation's [a] and
    [s] are fixed, and equal, from the start. *)

From Stdlib Require Import ZArith Lia.
From stdpp Require Import base list option strings.
From S2P Require Import Prelude JsValue ObjectId Mongo Express Handler Listing Deletion Creation Interleaving.

Local Open Scope Z_scope.

(** The number of responses with status 200. *)
Definition count200 (rs : list Response) : nat :=
  length (List.filter (fun r => res_status r =? 200) rs).

(** A round trip that leaves the store healthy and its alerts as they
    are. *)
Definition keeps_count {B} (q : M B) : Prop :=
  forall w, healthy w -> healthy (q w).2 /\ w_alerts (q w).2 = w_alerts w.

(** [p] appends [a] alerts and answers [s] times with status 200, in
    every interleaving that keeps the store healthy. *)
Fixpoint stores (p : Prog) (a s : nat) : Prop :=
  match p with
  | PDone r => a = 0%nat /\ s = count200 [r]
  | PAwait q k =>
      forall w, healthy w ->
      healthy (q w).2 /\ w_alerts w `prefix_of` w_alerts (q w).2 /\
      exists a', (length (w_alerts (q w).2) + a' = length (w_alerts w) + a)%nat /\
                 stores (k (q w).1) a' s
  | PAll q1 q2 k => keeps_count q1 /\ keeps_count q2 /\ forall o, stores (k o) a s
  | PAllL _ q2 k => keeps_count q2 /\ forall o, stores (k o) a s
  | PAllR q1 _ k => keeps_count q1 /\ forall o, stores (k o) a s
  end.

(** The store is healthy and extends the initial alerts [A0]; each
    request in progress has its share [(a, s)], and the alerts stored plus
    the shares [a] are [A0] plus the 200s sent plus the shares [s]. *)
Definition count_inv (A0 : list Alert) (c : Config) : Prop :=
  healthy (cf_world c) /\ A0 `prefix_of` w_alerts (cf_world c) /\
  exists gs : list (nat * nat),
    Forall2 (fun p g => stores p g.1 g.2) (cf_threads c) gs /\
    (length (w_alerts (cf_world c)) + sum_list (fst <$> gs) =
     length A0 + count200 (cf_responses c) + sum_list (snd <$> gs))%nat.

(** The requests of a list of [POST /] bodies and callers. *)
Definition creations (reqs : list (JsVal * User)) : list Call :=
  map (fun '(body, u) => CallCreate body u) reqs.

(** Three overlapping creations, the third with a blank title: the
    second is saved first, the third is refused by the validators, the
    first is saved last. *)
Definition demo_creations : list (JsVal * User) :=
  [(demo_body (JStr " Flood ") (JStr "Evacuate"), mkUser 7 "mayor");
   (demo_body (JStr "Heat") (JStr "Stay in"), mkUser 7 "mayor");
   (demo_body (JStr "   ") (JStr "Blank"), mkUser 7 "mayor")].

Definition demo_creation_sched : list (nat * bool) :=
  [(0, false); (1, false); (2, false); (1, false); (2, false); (0, false);
   (1, false); (1, false); (0, false); (0, false); (0, false)]%nat.

(** ** Lemmas *)

Lemma count200_app (rs rs' : list Response) : count200 (rs ++ rs') = (count200 rs + count200 rs')%nat.
Proof. unfold count200. by rewrite List.filter_app, length_app. Qed.

(** A step that keeps the count and settles with [o], whatever the
    world. *)
Lemma stores_fixed_step {B} (q : M B) (k : Outcome B -> Prog) (o : Outcome B) (a s : nat) :
  keeps_count q -> (forall w, (q w).1 = o) -> stores (k o) a s -> stores (PAwait q k) a s.
Proof.
  intros Hq Ho Hk w Hw. destruct (Hq w Hw) as [Hw' ->]. rewrite Ho.
  split_and!; [done | reflexivity | exists a; split; [lia | done]].
Qed.

Lemma stores_catch_prog (prefix msg : string) (e : JsError) : stores (catch_prog prefix msg e) 0 0.
Proof. apply (stores_fixed_step _ _ (Ok tt)); [done | done | split; reflexivity]. Qed.

(** A step that adds nothing and leaves the share as it is. *)
Lemma stores_await_keeps {B} (q : M B) (k : Outcome B -> Prog) (a s : nat) :
  keeps_count q -> (forall o, stores (k o) a s) -> stores (PAwait q k) a s.
Proof.
  intros Hq Hk w Hw. destruct (Hq w Hw) as [Hw' ->].
  split_and!; [done | done | exists a; split; [lia | apply Hk]].
Qed.

(** A step that keeps the count and succeeds on a healthy store. *)
Lemma stores_await_ok {B} (q : M B) (k : Outcome B -> Prog) (a s : nat) :
  keeps_count q -> (forall w, healthy w -> exists v, (q w).1 = Ok v) ->
  (forall v, stores (k (Ok v)) a s) -> stores (PAwait q k) a s.
Proof.
  intros Hq Ho Hk w Hw. destruct (Hq w Hw) as [Hw' ->]. destruct (Ho w Hw) as [v ->].
  split_and!; [done | reflexivity | exists a; split; [lia | done]].
Qed.

Lemma keeps_count_users (roles : list string) : keeps_count (users_in_roles roles).
Proof. intros w Hw. by rewrite users_in_roles_healthy. Qed.

Lemma keeps_count_console_log (msg : string) : keeps_count (console_log msg).
Proof. done. Qed.

(** The save of a built alert: stored when both fields are non-empty
    (the creation then answers 200), refused by the validators otherwise
    (the creation then answers 500). *)
Lemma stores_save (a : Alert) (k : Outcome Alert -> Prog) :
  (forall e, stores (k (Throw e)) 0 0) -> stores (k (Ok a)) 0 1 ->
  stores (PAwait (save a) k)
    (if String.eqb (al_title a) "" || String.eqb (al_message a) "" then 0 else 1)
    (if String.eqb (al_title a) "" || String.eqb (al_message a) "" then 0 else 1).
Proof.
  intros Hthrow Hok w Hw. unfold save, missing_paths.
  destruct (String.eqb (al_title a) "") eqn:Et, (String.eqb (al_message a) "") eqn:Em;
    cbn [orb app Mthrow fst snd];
    try (split_and!; [done | reflexivity | exists 0%nat; split; [lia | apply Hthrow]]).
  rewrite db_call_healthy by done. cbn [fst snd w_alerts set_alerts].
  split_and!; [by apply healthy_set_alerts | by exists [a] |].
  exists 0%nat. rewrite length_app. simpl. split; [lia | exact Hok].
Qed.

Lemma creation_stores (body : JsVal) (u : User) : exists n, stores (creation_prog body u) n n.
Proof.
  destruct (creation_prefix_uniform body u) as [H | [[e H] | (t & m & H)]].
  - exists 0%nat.
    apply (stores_fixed_step _ _ (Ok (inl (res_status_json 400 (fail_body "Title and message are required")))));
      [intros w Hw; by rewrite H | intros w; by rewrite H | done].
  - exists 0%nat. apply (stores_fixed_step _ _ (Throw e)); [intros w Hw; by rewrite H | intros w; by rewrite H |].
    apply stores_catch_prog.
  - set (n := if String.eqb t "" || String.eqb m "" then 0%nat else 1%nat). exists n.
    intros w Hw. rewrite H. cbn [fst snd w_alerts set_next_oid].
    split_and!; [by apply healthy_set_next_oid | done |].
    exists n. split; [lia|].
    apply (stores_save (mkAlert (w_next_oid w) t m (us_id u) (w_now w))).
    + intros e. apply stores_catch_prog.
    + apply stores_await_ok; [apply keeps_count_users | |].
      * intros w' Hw'. rewrite users_in_roles_healthy by done. eauto.
      * intros all. apply stores_await_keeps; [apply keeps_count_console_log | done].
Qed.

Lemma pstep_stores (second : bool) (p p' : Prog) (w w' : World) (a s : nat) :
  stores p a s -> healthy w -> pstep second p w = Some (p', w') ->
  healthy w' /\ w_alerts w `prefix_of` w_alerts w' /\
  exists a', (length (w_alerts w') + a' = length (w_alerts w) + a)%nat /\ stores p' a' s.
Proof.
  destruct p as [r|B q k|A B q1 q2 k|A B o1 q2 k|A B q1 o2 k]; simpl; [done|..].
  - intros Hs Hw. specialize (Hs w Hw). destruct (q w). by intros [= <- <-].
  - intros (Hq1 & Hq2 & Hk) Hw. destruct second;
      [destruct (Hq2 w Hw) as [Hw' Ha]; destruct (q2 w) | destruct (Hq1 w Hw) as [Hw' Ha]; destruct (q1 w)];
      intros [= <- <-]; simpl in Ha; rewrite Ha;
      (split_and!; [done | done | exists a; split; [lia | simpl; auto]]).
  - intros [Hq Hk] Hw. destruct (Hq w Hw) as [Hw' Ha]. destruct (q2 w). intros [= <- <-].
    simpl in Ha. rewrite Ha. split_and!; [done | done | exists a; split; [lia | auto]].
  - intros [Hq Hk] Hw. destruct (Hq w Hw) as [Hw' Ha]. destruct (q1 w). intros [= <- <-].
    simpl in Ha. rewrite Ha. split_and!; [done | done | exists a; split; [lia | auto]].
Qed.

Lemma cstep_count (A0 : list Alert) (ch : nat * bool) (c c' : Config) :
  count_inv A0 c -> cstep ch c = Some c' -> count_inv A0 c'.
Proof.
  intros (Hw & Hpre & gs & Hs & Hn) (p & p' & w' & Hi & Hp & Hc)%cstep_inv.
  destruct (Forall2_lookup_l _ _ _ _ _ Hs Hi) as ([a s] & Hg & Hpg).
  destruct (pstep_stores _ _ _ _ _ _ _ Hpg Hw Hp) as (Hw' & Hpre' & a' & Hlen & Hp').
  cbn [fst snd] in Hlen, Hp'.
  pose proof (sum_list_delete (fst <$> gs) ch.1 a) as Hd1.
  pose proof (sum_list_delete (snd <$> gs) ch.1 s) as Hd2.
  rewrite !list_lookup_fmap, Hg in Hd1, Hd2. specialize (Hd1 eq_refl). specialize (Hd2 eq_refl).
  destruct Hc as [(r & -> & ->) | (_ & ->)]; cbn [cf_world cf_threads cf_responses];
    (split_and!; [done | by trans (w_alerts (cf_world c)) |]).
  - destruct Hp' as [-> Hr]. exists (delete ch.1 gs). split; [by apply Forall2_delete|].
    simpl. rewrite !list_fmap_delete, count200_app. lia.
  - exists (<[ch.1 := (a', s)]> gs). split; [by apply Forall2_insert|].
    pose proof (sum_list_insert (fst <$> gs) ch.1 a a') as Hi1.
    pose proof (sum_list_insert (snd <$> gs) ch.1 s s) as Hi2.
    rewrite !list_lookup_fmap, Hg in Hi1, Hi2. specialize (Hi1 eq_refl). specialize (Hi2 eq_refl).
    rewrite !list_fmap_insert. simpl. lia.
Qed.

Lemma steps_count (A0 : list Alert) (n : nat) (c c' : Config) :
  steps n c c' -> count_inv A0 c -> count_inv A0 c'.
Proof. induction 1; eauto using cstep_count. Qed.

Lemma start_count (lib : MongooseLib) (reqs : list (JsVal * User)) (w : World) :
  healthy w -> count_inv (w_alerts w) (start lib (creations reqs) w).
Proof.
  intros Hw. split_and!; [done | done |]. cbn [start cf_threads cf_world cf_responses].
  assert (Hgs : exists gs : list (nat * nat),
            Forall2 (fun p g => stores p g.1 g.2) (map (spawn lib) (creations reqs)) gs /\
            sum_list (fst <$> gs) = sum_list (snd <$> gs)).
  { induction reqs as [|[body u] reqs (gs & Hs & Hsum)]; [by exists []|].
    destruct (creation_stores body u) as [n Hn]. exists ((n, n) :: gs).
    split; [by constructor | rewrite !fmap_cons; simpl; lia]. }
  destruct Hgs as (gs & Hs & Hsum). exists gs. split; [done|]. unfold count200. simpl. lia.
Qed.

(** C23. Concurrent creations are neither lost nor duplicated: on a
    connected store without faults, however the database interleaves the
    steps of concurrent [POST /] requests, once all have answered, the
    alerts that were there are still there, in place, and exactly one alert
    has been added after them for each response with status 200. *)
Theorem creations_conserved (lib : MongooseLib) (reqs : list (JsVal * User)) (w : World)
    (n : nat) (c' : Config) :
  healthy w -> steps n (start lib (creations reqs) w) c' -> cf_threads c' = [] ->
  w_alerts w `prefix_of` w_alerts (cf_world c') /\
  length (w_alerts (cf_world c')) = (length (w_alerts w) + count200 (cf_responses c'))%nat.
Proof.
  intros Hw Hst Hdone.
  destruct (steps_count _ _ _ _ Hst (start_count lib reqs w Hw)) as (_ & Hpre & gs & Hs & Hn).
  rewrite Hdone in Hs. apply Forall2_nil_inv_l in Hs as ->. simpl in Hn. split; [done | lia].
Qed.

(** ** Witnesses *)

Lemma creations_conserved_witness :
  healthy (demo_world 3) /\
  cf_threads (run_sched demo_creation_sched
                (start mongoose6 (creations demo_creations) (demo_world 3))) = [] /\
  (w_alerts (demo_world 3) `prefix_of`
     w_alerts (cf_world (run_sched demo_creation_sched
                           (start mongoose6 (creations demo_creations) (demo_world 3)))) /\
   length (w_alerts (cf_world (run_sched demo_creation_sched
                                 (start mongoose6 (creations demo_creations) (demo_world 3))))) =
   (length (w_alerts (demo_world 3)) +
    count200 (cf_responses (run_sched demo_creation_sched
                              (start mongoose6 (creations demo_creations) (demo_world 3)))))%nat).
Proof.
  assert (Hw : healthy (demo_world 3)) by (split; [eexists; reflexivity | reflexivity]).
  assert (Hd : cf_threads (run_sched demo_creation_sched
                             (start mongoose6 (creations demo_creations) (demo_world 3))) = [])
    by (vm_compute; reflexivity).
  split; [exact Hw|]. split; [exact Hd|].
  apply (creations_conserved mongoose6 demo_creations (demo_world 3) (length demo_creation_sched)); [exact Hw | | exact Hd].
  apply (steps_run_sched demo_creation_sched). vm_compute. reflexivity.
Defined.
