(* ===== verification/ConcurrentDelete.v ===== *)
(** Concurrent deletions commute on the store.  With Mongoose 6 on a
    connected store without faults and with distinct ids, however the
    database interleaves the [findById] and [remove()] round trips of
    several [DELETE /:id] requests, once all have answered the store is the
    initial one without the alerts whose ids were requested, in their
    order: the result of running the deletions one after the other, in any
    order.  Their responses may differ from a sequential run
    ([Interleaving.race_delete_delete]); the store does not.

    [inv_store A0 T w]: the store is [A0] without the alerts of some ids
    [D], all of them requested ([T]).  [clears A0 T t p]: the deletion
    program [p], whose target is [t] ([None] when the id does not cast),
    keeps [inv_store] in each of its steps, only ever removes alerts, and
    when it answers its target is no longer in the store.  [del_inv] is the
    invariant of the configuration: the targets of the requests that have
    answered ([F]) are absent from the store, and with the targets of those
    in progress they are all the requested ids. *)

From Stdlib Require Import ZArith Lia.
From stdpp Require Import base list option strings.
From S2P Require Import Prelude JsValue ObjectId Mongo Express Handler Listing Deletion Creation Interleaving.

Local Open Scope Z_scope.

(** The store is [A0] without the alerts of some requested ids. *)
Definition inv_store (A0 : list Alert) (T : list Z) (w : World) : Prop :=
  healthy w /\ exists D : list Z, (forall n, n ∈ D -> n ∈ T) /\ w_alerts w = filter (fun x => al_id x ∉ D) A0.

(** No alert of the target id is left. *)
Definition absent (t : option Z) (w : World) : Prop :=
  match t with
  | Some n => n ∉ map al_id (w_alerts w)
  | None => True
  end.

(** The deletion program [p] with target [t]: each step keeps [inv_store],
    only removes alerts, and leaves the target absent when it answers.
    Deletions do not use [Promise.all]. *)
Fixpoint clears (A0 : list Alert) (T : list Z) (t : option Z) (p : Prog) : Prop :=
  match p with
  | PDone _ => True
  | PAwait q k =>
      forall w, inv_store A0 T w ->
      inv_store A0 T (q w).2 /\ w_alerts (q w).2 `sublist_of` w_alerts w /\
      (~ not_done (k (q w).1) -> absent t (q w).2) /\ clears A0 T t (k (q w).1)
  | _ => False
  end.

(** The targets [F] of the answered requests are absent, and with those of
    the requests in progress they are the requested ids [T]. *)
Definition del_inv (A0 : list Alert) (T : list Z) (c : Config) : Prop :=
  NoDup (map al_id A0) /\ inv_store A0 T (cf_world c) /\
  exists (F : list Z) (tgs : list (option Z)),
    Forall2 (clears A0 T) tgs (cf_threads c) /\ F ++ omap id tgs ≡ₚ T /\
    (forall n, n ∈ F -> n ∉ map al_id (w_alerts (cf_world c))).

(** Four deletions: alert 1 twice, an id that is not an ObjectId, and
    alert 3; both deletions of alert 1 pass [findById] before either
    removes it. *)
Definition demo_deletions : list string := [oid_hex 1; oid_hex 1; "abc123"; oid_hex 3].

Definition demo_deletion_sched : list (nat * bool) :=
  [(0, false); (1, false); (2, false); (3, false); (0, false); (0, false); (0, false); (0, false)]%nat.

(** ** Lemmas *)

Lemma absent_sublist (t : option Z) (w w' : World) :
  w_alerts w' `sublist_of` w_alerts w -> absent t w -> absent t w'.
Proof.
  destruct t as [n|]; simpl; [|done]. intros Hsub Hn Hn'. apply Hn.
  eapply elem_of_sublist; [exact Hn'|]. by apply fmap_sublist.
Qed.

Lemma inv_store_nodup (A0 : list Alert) (T : list Z) (w : World) :
  NoDup (map al_id A0) -> inv_store A0 T w -> NoDup (map al_id (w_alerts w)).
Proof.
  intros Hnd (_ & D & _ & ->). eapply NoDup_submseteq_inv; [|exact Hnd].
  apply fmap_submseteq, sublist_submseteq, sublist_filter.
Qed.

(** [remove()] of the alert of a requested id keeps [inv_store], removes
    only that alert, and leaves no alert of that id. *)
Lemma inv_store_remove (A0 : list Alert) (T : list Z) (n : Z) (w : World) :
  NoDup (map al_id A0) -> n ∈ T -> inv_store A0 T w ->
  inv_store A0 T (set_alerts (delete_first n (w_alerts w)) w) /\
  delete_first n (w_alerts w) `sublist_of` w_alerts w /\
  n ∉ map al_id (delete_first n (w_alerts w)).
Proof.
  intros Hnd HT Hw. pose proof (inv_store_nodup _ _ _ Hnd Hw) as Hndw.
  split_and!.
  - destruct Hw as (Hh & D & HD & HA). split; [by apply healthy_set_alerts|].
    exists (n :: D). split; [intros m [->|Hm]%elem_of_cons; auto|]. simpl.
    rewrite delete_first_filter, HA, list_filter_filter by done.
    apply list_filter_iff. intros x. rewrite elem_of_cons. tauto.
  - apply delete_first_sublist.
  - intros (x & Hx & Hin)%list_elem_of_fmap. by apply (delete_first_not_in n _ Hndw x Hin).
Qed.

Lemma deletion_clears (lib : MongooseLib) (A0 : list Alert) (T : list Z) (s : string) :
  lib_doc_remove lib = true -> NoDup (map al_id A0) ->
  (forall n, cast_oid lib s = Some n -> n ∈ T) ->
  clears A0 T (cast_oid lib s) (deletion_prog lib s).
Proof.
  intros Hl Hnd HT w Hw. unfold deletion_prog, find_by_id.
  destruct (cast_oid lib s) as [n|] eqn:Hc.
  - rewrite db_call_healthy by apply Hw. cbn [fst snd].
    split_and!; [done | done | |].
    + destruct (find_alert n (w_alerts w)) eqn:Hf; [done|]. intros _ Hn.
      apply list_elem_of_fmap in Hn as (x & -> & Hx). by apply (find_alert_None _ _ Hf x).
    + destruct (find_alert n (w_alerts w)) as [a|] eqn:Hf; [|done].
      destruct (find_alert_id _ _ _ Hf) as [Hid _]. intros w1 Hw1.
      unfold doc_remove. rewrite Hl, db_call_healthy by apply Hw1. cbn [fst snd]. rewrite Hid.
      destruct (inv_store_remove A0 T n w1 Hnd (HT n eq_refl) Hw1) as (H1 & H2 & H3).
      by split_and!.
  - cbn [Mthrow fst snd]. split_and!; [done | done | done |].
    intros w1 Hw1. split_and!; [by destruct Hw1 as [Hh ?] | done | done | done].
Qed.

Lemma pstep_clears (A0 : list Alert) (T : list Z) (t : option Z) (second : bool)
    (p p' : Prog) (w w' : World) :
  clears A0 T t p -> inv_store A0 T w -> pstep second p w = Some (p', w') ->
  inv_store A0 T w' /\ w_alerts w' `sublist_of` w_alerts w /\
  (~ not_done p' -> absent t w') /\ clears A0 T t p'.
Proof.
  destruct p as [r|B q k|? ? q1 q2 k|? ? o1 q2 k|? ? q1 o2 k]; simpl; try done.
  intros Hc Hw. specialize (Hc w Hw). destruct (q w). by intros [= <- <-].
Qed.

Lemma omap_id_delete (tgs : list (option Z)) (i : nat) (t : option Z) :
  tgs !! i = Some t -> omap id tgs ≡ₚ omap id [t] ++ omap id (delete i tgs).
Proof.
  revert i. induction tgs as [|t' tgs IH]; intros [|i] Hi; simplify_eq/=; [by destruct t|].
  pose proof (IH i Hi) as IH'. destruct t', t; simpl in *; rewrite IH'; solve_Permutation.
Qed.

Lemma cstep_del (A0 : list Alert) (T : list Z) (ch : nat * bool) (c c' : Config) :
  del_inv A0 T c -> cstep ch c = Some c' -> del_inv A0 T c'.
Proof.
  intros (Hnd & Hw & F & tgs & Hs & HF & Habs) (p & p' & w' & Hi & Hp & Hc)%cstep_inv.
  destruct (Forall2_lookup_r _ _ _ _ _ Hs Hi) as (t & Ht & Hpt).
  destruct (pstep_clears _ _ _ _ _ _ _ _ Hpt Hw Hp) as (Hw' & Hsub & Hdone & Hp').
  assert (Habs' : forall n, n ∈ F -> n ∉ map al_id (w_alerts w')).
  { intros n Hn. apply (absent_sublist (Some n) (cf_world c)); [done | by apply Habs]. }
  destruct Hc as [(r & -> & ->) | (_ & ->)]; cbn [cf_world cf_threads];
    (split_and!; [done | done |]).
  - exists (omap id [t] ++ F), (delete ch.1 tgs). split_and!; [by apply Forall2_delete | |].
    + rewrite <- HF, (omap_id_delete tgs ch.1 t Ht). solve_Permutation.
    + intros n [Hn|Hn]%elem_of_app; [|by apply Habs'].
      destruct t as [m|]; simpl in Hn; [|by apply not_elem_of_nil in Hn].
      apply list_elem_of_singleton in Hn as ->. by apply (Hdone (fun H => H)).
  - exists F, tgs. split_and!; [|done | done].
    rewrite <- (list_insert_id tgs ch.1 t Ht). by apply Forall2_insert.
Qed.

Lemma steps_del (A0 : list Alert) (T : list Z) (n : nat) (c c' : Config) :
  steps n c c' -> del_inv A0 T c -> del_inv A0 T c'.
Proof. induction 1; eauto using cstep_del. Qed.

Lemma start_del (lib : MongooseLib) (ids : list string) (w : World) :
  healthy w -> lib_doc_remove lib = true -> NoDup (map al_id (w_alerts w)) ->
  del_inv (w_alerts w) (omap (cast_oid lib) ids) (start lib (map CallDelete ids) w).
Proof.
  intros Hw Hl Hnd. split_and!; [done | |].
  - split; [done|]. exists []. split; [by intros n ?%not_elem_of_nil|].
    symmetry. apply list_filter_all. intros x _. apply not_elem_of_nil.
  - exists [], (map (cast_oid lib) ids). cbn [cf_threads cf_world start]. split_and!.
    + assert (Hall : forall l, (forall s, s ∈ l -> s ∈ ids) ->
                Forall2 (clears (w_alerts w) (omap (cast_oid lib) ids))
                  (map (cast_oid lib) l) (map (spawn lib) (map CallDelete l))).
      { induction l as [|s l IH]; intros Hin; simpl; constructor.
        - apply deletion_clears; [done | done |]. intros n Hn.
          apply list_elem_of_omap. exists s. split; [apply Hin; constructor | done].
        - apply IH. intros s' Hs'. apply Hin. by constructor. }
      by apply Hall.
    + simpl. clear. induction ids as [|s ids IH]; simpl; [done|].
      destruct (cast_oid lib s); simpl; by rewrite IH.
    + by intros n ?%not_elem_of_nil.
Qed.

(** C22. Concurrent deletions commute on the store: with Mongoose 6 on a
    connected store without faults and with distinct ids, however the
    database interleaves the round trips of concurrent [DELETE /:id]
    requests, once all have answered the store is the initial one, in its
    order, without the alerts whose ids were requested (those that cast to
    an ObjectId), as after the deletions run one after the other. *)
Theorem deletions_commute (lib : MongooseLib) (ids : list string) (w : World) (n : nat)
    (c' : Config) :
  healthy w -> lib_doc_remove lib = true -> NoDup (map al_id (w_alerts w)) ->
  steps n (start lib (map CallDelete ids) w) c' -> cf_threads c' = [] ->
  w_alerts (cf_world c') = filter (fun x => al_id x ∉ omap (cast_oid lib) ids) (w_alerts w).
Proof.
  intros Hw Hl Hnd Hst Hdone.
  destruct (steps_del _ _ _ _ _ Hst (start_del lib ids w Hw Hl Hnd))
    as (_ & (_ & D & HD & HA) & F & tgs & Hs & HF & Habs).
  rewrite Hdone in Hs. apply Forall2_nil_inv_r in Hs as ->. rewrite app_nil_r in HF.
  rewrite HA. apply list_filter_iff_in. intros x Hx. split; [|intros Hn HnD; by apply Hn, HD].
  intros HnD HnT. rewrite <- HF in HnT. apply (Habs _ HnT).
  rewrite HA. apply list_elem_of_fmap. exists x. split; [done|]. by apply list_elem_of_filter.
Qed.

(** ** Witnesses *)

Lemma deletions_commute_witness :
  healthy (demo_world 5) /\ lib_doc_remove mongoose6 = true /\
  NoDup (map al_id (w_alerts (demo_world 5))) /\
  cf_threads (run_sched demo_deletion_sched
                (start mongoose6 (map CallDelete demo_deletions) (demo_world 5))) = [] /\
  w_alerts (cf_world (run_sched demo_deletion_sched
                        (start mongoose6 (map CallDelete demo_deletions) (demo_world 5)))) =
    filter (fun x => al_id x ∉ omap (cast_oid mongoose6) demo_deletions) (w_alerts (demo_world 5)).
Proof.
  assert (Hw : healthy (demo_world 5)) by apply demo_world_healthy.
  assert (Hnd : NoDup (map al_id (w_alerts (demo_world 5)))) by concrete.
  assert (Hd : cf_threads (run_sched demo_deletion_sched
                             (start mongoose6 (map CallDelete demo_deletions) (demo_world 5))) = [])
    by (vm_compute; reflexivity).
  split_and!; [exact Hw | reflexivity | exact Hnd | exact Hd |].
  apply (deletions_commute mongoose6 demo_deletions (demo_world 5) (length demo_deletion_sched));
    [exact Hw | reflexivity | exact Hnd | | exact Hd].
  apply (steps_run_sched demo_deletion_sched). vm_compute. reflexivity.
Defined.
