(* ===== verification/Envelope.v ===== *)
(** The response envelope of the mayor-alert routes.  Every handler of
    [src/server/routes/mayorAlert.js], and the [protect] and [authorize]
    middleware in front of them, answers with a JSON object
    [{ success, ... }] whose [success] flag says whether the request
    succeeded, and whose failures carry a [message] string (spec, sections
    6 and 7: per-request errors are converted to a uniform JSON error
    envelope).  [is_envelope] is that shape as a decidable check on a
    [Response]; the lemmas show, handler by handler, that every value a
    handler returns has it, and [router_envelope] puts them together with
    [router_never_throws]. *)

From Stdlib Require Import ZArith Lia.
From stdpp Require Import base list option strings.
From S2P Require Import Prelude JsValue ObjectId Mongo Express Handler Listing Deletion Creation Router.

Local Open Scope Z_scope.

Definition is_js_string (v : JsVal) : bool :=
  match v with
  | JStr _ => true
  | _ => false
  end.

(** [{ success: b, ... }] with [b] true exactly for a status below 400,
    and a string [message] when [b] is false. *)
Definition is_envelope (r : Response) : bool :=
  match res_body r with
  | JObj fields =>
      match js_get fields "success" with
      | JBool b => Bool.eqb b (res_status r <? 400) && (b || is_js_string (js_get fields "message"))
      | _ => false
      end
  | _ => false
  end.

Definition envelope (r : Response) : Prop := is_envelope r = true.

(** ** Lemmas *)

(** Go through the [await]s of a handler body down to its [return]s. *)
Ltac returns_steps :=
  repeat (apply returns_bind; intros ?); try (apply returns_ret).

(** The three response builders of the routes. *)
Lemma fail_body_envelope (code : Z) (msg : string) :
  400 <= code -> envelope (res_status_json code (fail_body msg)).
Proof. intros Hc. unfold envelope, is_envelope. simpl. destruct_Zb; [lia | done]. Qed.

Lemma error_body_envelope (msg : string) (e : JsError) :
  envelope (res_status_json 500 (error_body msg e)).
Proof. done. Qed.

Lemma server_error_envelope (prefix msg : string) (e : JsError) :
  returns envelope (server_error prefix msg e).
Proof. apply returns_bind. intros _. apply returns_ret, error_body_envelope. Qed.

#[export] Hint Resolve fail_body_envelope error_body_envelope server_error_envelope : city.

(** A handler whose body returns envelopes, wrapped in the shared
    [try]/[catch], returns envelopes. *)
Lemma try_server_error_envelope (m : M Response) (prefix msg : string) :
  returns envelope m -> returns envelope (Mtry m (server_error prefix msg)).
Proof. intros Hm. apply returns_try; [exact Hm | intros e; apply server_error_envelope]. Qed.

Lemma get_alerts_envelope (query : list (string * JsVal)) :
  returns envelope (get_alerts query).
Proof.
  apply try_server_error_envelope. unfold get_alerts_body.
  apply returns_bind. intros [alerts total]. by apply returns_ret.
Qed.

Lemma delete_alert_envelope (lib : MongooseLib) (id : string) :
  returns envelope (delete_alert lib id).
Proof.
  apply try_server_error_envelope. apply returns_bind. intros [alert|]; returns_steps;
    [done | apply fail_body_envelope; lia].
Qed.

Lemma create_alert_envelope (body : JsVal) (user : User) :
  returns envelope (create_alert body user).
Proof.
  apply try_server_error_envelope.
  do 2 (apply returns_bind; intros ?).
  destruct (_ || _)%bool; returns_steps; [apply fail_body_envelope; lia | done].
Qed.

#[export] Hint Resolve get_alerts_envelope delete_alert_envelope create_alert_envelope : city.

#[export] Hint Extern 1 (envelope (res_status_json _ (fail_body _))) =>
  apply fail_body_envelope; lia : city.

(** C30. Whatever the request, the caller and the state of the store, a
    request the mayor-alert router takes is answered (no error escapes)
    with a JSON envelope: [success] is a boolean that is true exactly for
    a status below 400, and a failure carries a [message] string. *)
Theorem router_envelope (lib : MongooseLib) (rq : Request) (m : M Response) (w : World) :
  router lib rq = Some m -> exists r w', m w = (Ok r, w') /\ envelope r.
Proof.
  intros Hr. destruct (router_never_throws lib rq m w Hr) as (r & w' & Hm).
  exists r, w'. split; [done|]. revert Hm. revert w r w'. change (returns envelope m).
  destruct (router_cases lib rq m Hr) as (h & -> & [-> | [[id ->] | ->]]);
    apply returns_guarded; auto with city.
Qed.

Lemma router_envelope_witness :
  exists r w', guarded ["mayor"] (mkRequest DELETE [oid_hex 2] [] JUndefined
                                    (Some (mkUser 7 "mayor")))
                 (fun _ => delete_alert mongoose8 (oid_hex 2)) (demo_world 3) = (Ok r, w') /\
               envelope r.
Proof. apply (router_envelope mongoose8 (mkRequest DELETE [oid_hex 2] [] JUndefined
                                                   (Some (mkUser 7 "mayor")))).
       reflexivity. Defined.
