(* ===== verification/Server.v ===== *)
(** The server process as a transition system.  A state [Sys] holds how
    the process goes on ([Booting], [Running], [Exited]), the world, the
    connection attempts made, and the responses sent.  The events are the
    start of the process (which calls [connectDB()] up to its [await]),
    the settlement of the [mongoose.connect] promise, an HTTP request on
    the mayor-alert router, and the passing of time.  Requests are served
    from the moment [connectDB()] has reached its [await], so they
    interleave with the settlement: that is the ordering the source
    leaves open.  [reachable] is the set of states some sequence of
    events reaches from a freshly booted process; the invariants are
    proved by induction on it.  The process is written against the
    interface [Database.ConnectionManager], and its invariant uses only
    the laws of the interface; the theorems about the connection are
    stated for [connectDB_manager], the instance [connectDB] provides. *)

From Stdlib Require Import ZArith Lia.
From stdpp Require Import base list option strings.
From S2P Require Import Prelude JsValue ObjectId Mongo Database Express Handler Listing Deletion Creation Router.

Local Open Scope Z_scope.

(** How the process goes on: before [connectDB()] is called, serving,
    or ended by [process.exit(code)]. *)
Inductive ProcState :=
  | Booting
  | Running
  | Exited (code : Z).

(** The process after a part of [connectDB()] gives control back: an
    [await] or a [return] leave the event loop running, [process.exit]
    ends it. *)
Definition proc_after (st : ConnectStep) : ProcState :=
  match st with
  | Await _ | Returned => Running
  | Exit c => Exited c
  end.

(** The connection attempt a part of [connectDB()] has started, if any. *)
Definition attempt_of (st : ConnectStep) : list ConnectAttempt :=
  match st with
  | Await a => [a]
  | _ => []
  end.

Record Sys := mkSys {
  sys_proc : ProcState;
  sys_world : World;
  sys_attempts : list ConnectAttempt;
  sys_responses : list Response
}.

Inductive Event :=
  | EvStart (env_uri : option string)
  | EvSettle (o : ConnectOutcome)
  | EvRequest (rq : Request)
  | EvTick (dt : Z).

Definition method_name (m : Method) : string :=
  match m with
  | GET => "GET" | POST => "POST" | DELETE => "DELETE" | PUT => "PUT" | PATCH => "PATCH"
  end.

(** Express's final handler, for a request no route of the router takes. *)
Definition not_found (rq : Request) : Response :=
  res_status_json 404
    (JStr ("Cannot " ++ method_name (rq_method rq) ++ " /" ++ String.concat "/" (rq_path rq))).

Definition tick (dt : Z) (w : World) : World :=
  mkWorld (w_conn w) (w_buffer w) (w_alerts w) (w_users w) (w_next_oid w) (w_now w + dt)
    (w_faults w) (w_log w).

Section Server.

Context (lib : MongooseLib) `{CM : ConnectionManager}.

(** One request through the router.  The handlers catch everything, so
    the [Throw] branch is never taken (see [router_never_throws]). *)
Definition serve (rq : Request) (w : World) : Response * World :=
  match router lib rq with
  | Some m =>
      match m w with
      | (Ok r, w') => (r, w')
      | (Throw e, w') => (res_status_json 500 (JStr (err_message e)), w')
      end
  | None => (not_found rq, w)
  end.

Definition step (s : Sys) (ev : Event) : Sys :=
  match sys_proc s, ev with
  | Booting, EvStart env =>
      let '(w', st) := cm_start env (sys_world s) in
      mkSys (proc_after st) w' (sys_attempts s ++ attempt_of st) (sys_responses s)
  | Running, EvSettle o =>
      match w_conn (sys_world s) with
      | Connecting =>
          let '(w', st) := cm_settle o (sys_world s) in
          mkSys (proc_after st) w' (sys_attempts s) (sys_responses s)
      | _ => s
      end
  | Running, EvRequest rq =>
      let '(r, w') := serve rq (sys_world s) in
      mkSys Running w' (sys_attempts s) (sys_responses s ++ [r])
  | Running, EvTick dt =>
      if 0 <? dt then mkSys Running (tick dt (sys_world s)) (sys_attempts s) (sys_responses s)
      else s
  | _, _ => s
  end.

Definition run (evs : list Event) (s : Sys) : Sys := fold_left step evs s.

Definition boot (w0 : World) : Sys := mkSys Booting w0 [] [].

(** A fresh process: no connection, Mongoose's default buffering on, a
    well-formed store. *)
Inductive reachable : Sys -> Prop :=
  | reach_boot (w0 : World) :
      w_conn w0 = Disconnected -> w_buffer w0 = true -> wf w0 -> reachable (boot w0)
  | reach_step (s : Sys) (ev : Event) :
      reachable s -> reachable (step s ev).

End Server.

(** ** A concrete run, for the witnesses *)

(** A freshly booted process over three stored alerts. *)
Definition boot_world : World :=
  mkWorld Disconnected true (map demo_alert (seq 1 3))
    [mkUser 7 "mayor"; mkUser 8 "citizen"] 1000 5000 [] [].

Definition demo_uri : string := "mongodb+srv://cluster0.mongodb.net/smartcity".

(** Started, and the connection resolved. *)
Definition demo_running (lib : MongooseLib) : Sys :=
  step lib (step lib (boot boot_world) (EvStart (Some demo_uri)))
    (EvSettle (ConnectResolved "cluster0.mongodb.net")).

(** Started, the connection still pending. *)
Definition demo_connecting (lib : MongooseLib) : Sys :=
  step lib (boot boot_world) (EvStart (Some demo_uri)).

Definition mayor_get : Request := mkRequest GET [] [] JUndefined (Some (mkUser 7 "mayor")).

Definition citizen_delete : Request :=
  mkRequest DELETE [oid_hex 1] [] JUndefined (Some (mkUser 8 "citizen")).

(** ** The invariant of reachable states *)

Section Invariant.

Context (lib : MongooseLib) `{CM : ConnectionManager}.

(** How the process, the connection and the attempts go together. *)
Definition lifecycle (s : Sys) : Prop :=
  match sys_proc s with
  | Booting => sys_attempts s = [] /\ w_conn (sys_world s) = Disconnected
  | Running =>
      w_buffer (sys_world s) = false /\
      (exists uri, uri <> ""%string /\ sys_attempts s = [mkAttempt uri connect_options]) /\
      (w_conn (sys_world s) = Connecting \/ exists h, w_conn (sys_world s) = Connected h)
  | Exited c =>
      c = 1 /\
      (sys_attempts s = [] \/
       exists uri, uri <> ""%string /\ sys_attempts s = [mkAttempt uri connect_options])
  end.

Definition sys_inv (s : Sys) : Prop := wf (sys_world s) /\ lifecycle s.

Lemma serve_frame (rq : Request) (w : World) :
  same_env w (snd (serve lib rq w)) /\ wf_pre w (snd (serve lib rq w)).
Proof.
  unfold serve. destruct (router lib rq) as [m|] eqn:Hr; [|split; [reflexivity | by intros ?]].
  pose proof (same_env_router lib rq m Hr w) as He.
  pose proof (wf_pre_router lib rq m Hr w) as Hw.
  destruct (m w) as [[r|e] w']; split; done.
Qed.

Lemma wf_tick (dt : Z) (w : World) : 0 < dt -> wf w -> wf (tick dt w).
Proof.
  intros Hdt [Hnd Hf]. split; [done|]. simpl.
  eapply Forall_impl; [exact Hf|]. simpl. lia.
Qed.

Lemma wf_same_store (w w' : World) : same_store w w' -> wf w -> wf w'.
Proof.
  intros (Ha & _ & Hn & Ht) [Hnd Hf]. unfold wf. rewrite Ha, Hn, Ht. by split.
Qed.

Lemma sys_inv_step (s : Sys) (ev : Event) : sys_inv s -> sys_inv (step lib s ev).
Proof.
  destruct s as [p w att rs]. intros [Hwf Hlc]. unfold lifecycle in Hlc.
  cbn [sys_proc sys_world sys_attempts sys_responses] in Hwf, Hlc.
  destruct p as [| |c], ev as [env|o|rq|dt]; unfold step; cbn [sys_proc sys_world sys_attempts sys_responses];
    try (split; done).
  - (* start *)
    destruct Hlc as [-> Hc]. pose proof (cm_start_law env w) as [Hst Hcases].
    destruct (cm_start env w) as [w' st]; cbn [fst snd] in Hst, Hcases.
    split; [by eapply wf_same_store|]. unfold lifecycle. cbn [sys_proc sys_world sys_attempts].
    destruct Hcases as [(uri & _ & Hne & -> & Hconn & Hbuf) | (_ & ->)]; simpl.
    + split_and!; [done | by exists uri | by left].
    + split; [done | by left].
  - (* settle *)
    assert (Hold : sys_inv (mkSys Running w att rs)) by (split; [done | exact Hlc]).
    destruct Hlc as (Hb & Hatt & Hconn).
    destruct (w_conn w) eqn:Hc; try exact Hold.
    pose proof (cm_settle_law o w) as [Hst Hcases].
    destruct (cm_settle o w) as [w' st]; cbn [fst snd] in Hst, Hcases.
    split; [by eapply wf_same_store|]. unfold lifecycle. cbn [sys_proc sys_world sys_attempts].
    destruct Hcases as [(h & _ & -> & Hc' & Hb') | (e & _ & ->)]; simpl.
    + split_and!; [by rewrite Hb' | done | right; by exists h].
    + split; [done|]. by right.
  - (* request *)
    destruct (serve_frame rq w) as [(Hconn & Hbuf & _ & _) Hw'].
    destruct (serve lib rq w) as [r w'] eqn:Hs. simpl in *.
    split; [auto|]. unfold lifecycle. cbn [sys_proc sys_world sys_attempts].
    rewrite Hbuf, Hconn. exact Hlc.
  - (* tick *)
    destruct (0 <? dt) eqn:Hdt; [|split; done].
    apply Z.ltb_lt in Hdt. split; [by apply wf_tick | exact Hlc].
Qed.

Lemma reachable_inv (s : Sys) : reachable lib s -> sys_inv s.
Proof.
  induction 1 as [w0 Hc Hb Hw|s ev _ IH].
  - split; [done|]. simpl. by split.
  - by apply sys_inv_step.
Qed.

End Invariant.

(** ** Properties of every reachable state *)

Section Properties.

Context (lib : MongooseLib) `{CM : ConnectionManager}.

(** C27. A request the router takes from a caller who is not a mayor
    (or has no valid token) is refused with 401 or 403, and the world is
    left exactly as it was. *)
Theorem request_unauthorized (rq : Request) (w : World) :
  is_Some (router lib rq) ->
  (forall u, rq_user rq = Some u -> us_role u <> "mayor"%string) ->
  exists r, serve lib rq w = (r, w) /\ (res_status r = 401 \/ res_status r = 403).
Proof.
  intros [m Hm] Hnot. unfold serve. rewrite Hm.
  destruct (router_cases lib rq m Hm) as (h & -> & _).
  destruct (guarded_refused ["mayor"] rq h w) as (r & -> & Hs); [|by eauto].
  intros u Hu. simpl. rewrite orb_false_r. by apply String.eqb_neq, Hnot.
Qed.

End Properties.

(** C26. With [connectDB] as the connection manager, a mayor's listing
    served while the connection is still being established gets a 500
    carrying Mongoose's error for a query issued before the connection
    is open: [connectDB] turned [bufferCommands] off before its
    [await], so the query is not queued; the store is not read. *)
Theorem request_before_connect (lib : MongooseLib) (s : Sys) (rq : Request) (u : User) :
  reachable (CM := connectDB_manager) lib s -> sys_proc s = Running ->
  w_conn (sys_world s) = Connecting ->
  rq_method rq = GET -> rq_path rq = [] -> rq_user rq = Some u -> us_role u = "mayor"%string ->
  let e := not_connected_error "mayoralerts.find()" in
  serve lib rq (sys_world s) =
  (res_status_json 500 (error_body "Server error while fetching alerts" e),
   add_log (LogError "Error fetching mayor alerts:" e) (sys_world s)).
Proof.
  intros Hr Hp Hc Hm Hpath Hu Hrole e.
  unfold serve, router, route_get. rewrite Hm, Hpath.
  rewrite (guarded_pass _ _ _ u Hu) by (by rewrite Hrole).
  rewrite get_alerts_not_connected_run; [done | by rewrite Hc |].
  destruct (reachable_inv lib s Hr) as [_ Hlc].
  unfold lifecycle in Hlc. rewrite Hp in Hlc. by destruct Hlc.
Qed.

(** C28. Started without [MONGODB_URI] (unset or empty), the process logs
    the error and exits with code 1 before any connection attempt. *)
Theorem startup_missing_uri (lib : MongooseLib) (w0 : World) (env : option string) :
  env = None \/ env = Some ""%string ->
  step lib (boot w0) (EvStart env) =
  mkSys (Exited 1)
    (add_log (LogErrorText ("❌ Error connecting to MongoDB: " ++
                            "MONGODB_URI is not defined in environment variables")) w0)
    [] [].
Proof. intros [-> | ->]; reflexivity. Qed.

(** ** Witnesses *)

Lemma boot_world_wf : wf boot_world.
Proof. split; [concrete | repeat constructor; simpl; lia]. Qed.

Lemma demo_running_reachable (lib : MongooseLib) : reachable lib (demo_running lib).
Proof. apply reach_step, reach_step, reach_boot; [done | done | apply boot_world_wf]. Qed.

Lemma demo_connecting_reachable (lib : MongooseLib) : reachable lib (demo_connecting lib).
Proof. apply reach_step, reach_boot; [done | done | apply boot_world_wf]. Qed.

Lemma request_before_connect_witness :
  let e := not_connected_error "mayoralerts.find()" in
  serve mongoose6 mayor_get (sys_world (demo_connecting mongoose6)) =
  (res_status_json 500 (error_body "Server error while fetching alerts" e),
   add_log (LogError "Error fetching mayor alerts:" e) (sys_world (demo_connecting mongoose6))).
Proof.
  apply (request_before_connect mongoose6 _ _ (mkUser 7 "mayor"));
    [apply demo_connecting_reachable | concrete | concrete | concrete | concrete | concrete
    | concrete].
Defined.

Lemma request_unauthorized_witness :
  exists r, serve mongoose6 citizen_delete (sys_world (demo_running mongoose6)) =
              (r, sys_world (demo_running mongoose6)) /\
            (res_status r = 401 \/ res_status r = 403).
Proof.
  apply (request_unauthorized mongoose6); [by eexists |].
  intros u [= <-]. discriminate.
Defined.

Lemma startup_missing_uri_witness :
  step mongoose6 (boot boot_world) (EvStart (Some ""%string)) =
  mkSys (Exited 1)
    (add_log (LogErrorText ("❌ Error connecting to MongoDB: " ++
                            "MONGODB_URI is not defined in environment variables")) boot_world)
    [] [].
Proof. apply (startup_missing_uri mongoose6). by right. Defined.
