(* ===== verification/Progress.v ===== *)
(** Progress of the server process ([Server.step]).  The environment
    decides when [connectDB()] is started, how the connection promise
    settles, and which requests arrive; [settled] is the state the spec's
    connection manager promises to reach, serving from an open connection
    or terminated with code 1.  [connection_settles] shows that once the
    start and the settlement have been delivered, with any requests and
    clock ticks before, between and after them, the process is settled,
    and stays so. *)

From Stdlib Require Import ZArith Lia.
From stdpp Require Import base list option strings.
From S2P Require Import Prelude JsValue ObjectId Mongo Database Express Handler Listing Deletion Creation Router Server.

Local Open Scope Z_scope.

(** Events that neither start [connectDB()] nor settle its promise. *)
Definition quiet (ev : Event) : bool :=
  match ev with
  | EvRequest _ | EvTick _ => true
  | EvStart _ | EvSettle _ => false
  end.

(** Terminated by [process.exit(1)], or running with the connection open. *)
Definition settled (s : Sys) : Prop :=
  sys_proc s = Exited 1 \/ (sys_proc s = Running /\ exists h, w_conn (sys_world s) = Connected h).

(** ** Lemmas *)

Section Progress.

Context (lib : MongooseLib) `{CM : ConnectionManager}.

Lemma run_app (evs1 evs2 : list Event) (s : Sys) :
  run lib (evs1 ++ evs2) s = run lib evs2 (run lib evs1 s).
Proof. apply fold_left_app. Qed.

Lemma reachable_run (evs : list Event) (s : Sys) :
  reachable lib s -> reachable lib (run lib evs s).
Proof.
  revert s. induction evs as [|ev evs IH]; intros s Hs; [done|].
  apply IH. by apply reach_step.
Qed.

(** A quiet event changes neither the state of the process nor the
    connection. *)
Lemma step_quiet (s : Sys) (ev : Event) :
  quiet ev = true ->
  sys_proc (step lib s ev) = sys_proc s /\ w_conn (sys_world (step lib s ev)) = w_conn (sys_world s).
Proof.
  destruct s as [p w att rs], ev as [env|o|rq|dt]; intros Hq; try discriminate Hq;
    destruct p; unfold step; cbn [sys_proc sys_world]; try done.
  - destruct (serve_frame lib rq w) as [(Hc & _) _].
    destruct (serve lib rq w) as [r w'] eqn:Hs. simpl in Hc |- *. by rewrite Hc.
  - by destruct (0 <? dt).
Qed.

Lemma run_quiet (evs : list Event) (s : Sys) :
  Forall (fun ev => quiet ev = true) evs ->
  sys_proc (run lib evs s) = sys_proc s /\
  w_conn (sys_world (run lib evs s)) = w_conn (sys_world s).
Proof.
  revert s. induction evs as [|ev evs IH]; intros s Hq; [done|].
  inv_clear Hq. simpl. destruct (IH (step lib s ev)) as [-> ->]; [done|].
  by apply step_quiet.
Qed.

(** Once settled, always settled. *)
Lemma settled_step (s : Sys) (ev : Event) : settled s -> settled (step lib s ev).
Proof.
  intros [Hp | [Hp [h Hc]]].
  - left. unfold step. rewrite Hp. by destruct ev.
  - destruct (quiet ev) eqn:Hq.
    + destruct (step_quiet s ev Hq) as [Hp' Hc']. unfold settled. rewrite Hp', Hc'. right. eauto.
    + right. unfold step. rewrite Hp, Hc.
      destruct ev; try discriminate Hq; eauto.
Qed.

Lemma settled_run (evs : list Event) (s : Sys) : settled s -> settled (run lib evs s).
Proof.
  revert s. induction evs as [|ev evs IH]; intros s Hs; [done|].
  apply IH, settled_step, Hs.
Qed.

(** The start: a booted process either exits or starts connecting; a
    running or exited one ignores it. *)
Lemma step_start (s : Sys) (env : option string) :
  reachable lib s ->
  settled (step lib s (EvStart env)) \/
  (sys_proc (step lib s (EvStart env)) = Running /\
   w_conn (sys_world (step lib s (EvStart env))) = Connecting).
Proof.
  intros Hr. destruct (reachable_inv lib s Hr) as [_ Hlc]. unfold lifecycle in Hlc.
  destruct s as [[| |c] w att rs]; cbn [sys_proc sys_world] in Hlc; unfold step; cbn [sys_proc sys_world].
  - pose proof (cm_start_law env w) as [_ Hcases].
    destruct (cm_start env w) as [w' st]; cbn [fst snd] in Hcases.
    destruct Hcases as [(uri & _ & _ & -> & Hc & _) | (_ & ->)]; [by right | left; by left].
  - destruct Hlc as (_ & _ & [Hc | [h Hc]]); [by right | left; right; eauto].
  - destruct Hlc as [-> _]. left. by left.
Qed.

(** The settlement of a pending connection settles the process. *)
Lemma step_settle (s : Sys) (o : ConnectOutcome) :
  sys_proc s = Running -> w_conn (sys_world s) = Connecting -> settled (step lib s (EvSettle o)).
Proof.
  intros Hp Hc. unfold step. rewrite Hp, Hc.
  pose proof (cm_settle_law o (sys_world s)) as [_ Hcases].
  destruct (cm_settle o (sys_world s)) as [w' st]; cbn [fst snd] in Hcases.
  destruct Hcases as [(h & _ & -> & Hc' & _) | (e & _ & ->)].
  - right. split; [done|]. by exists h.
  - left. done.
Qed.

End Progress.

(** C31. Whatever [MONGODB_URI] holds and however the connection
    settles, a reachable process that is started and then sees its
    connection settle, with any requests and clock ticks before, between
    and after, ends up terminated with code 1 or serving from an open
    connection: it never stays with a pending connection, and never
    leaves the settled state. *)
Theorem connection_settles (lib : MongooseLib) (s : Sys) (env : option string)
    (o : ConnectOutcome) (evs1 evs2 evs3 : list Event) :
  reachable lib s ->
  Forall (fun ev => quiet ev = true) evs1 -> Forall (fun ev => quiet ev = true) evs2 ->
  settled (run lib (evs1 ++ [EvStart env] ++ evs2 ++ [EvSettle o] ++ evs3) s).
Proof.
  intros Hr Hq1 Hq2. rewrite !run_app. apply settled_run.
  set (s1 := run lib evs1 s). assert (Hr1 : reachable lib s1) by by apply reachable_run.
  simpl run at 3. set (s2 := step lib s1 (EvStart env)).
  assert (Hr2 : reachable lib (run lib evs2 s2)) by (apply reachable_run; by apply reach_step).
  destruct (step_start lib s1 env Hr1) as [Hset | [Hp Hc]].
  - simpl. apply settled_step, settled_run, Hset.
  - destruct (run_quiet lib evs2 s2 Hq2) as [Hp2 Hc2]. simpl.
    apply step_settle; [by rewrite Hp2 | by rewrite Hc2].
Qed.

Lemma connection_settles_witness :
  Forall (fun ev => quiet ev = true) [EvRequest mayor_get] /\
  Forall (fun ev => quiet ev = true) [EvTick 5; EvRequest citizen_delete] /\
  settled (run mongoose8
             ([EvRequest mayor_get] ++ [EvStart (Some demo_uri)] ++
              [EvTick 5; EvRequest citizen_delete] ++
              [EvSettle (ConnectResolved "cluster0.mongodb.net")] ++ [EvRequest mayor_get])
             (boot boot_world)).
Proof.
  split; [repeat constructor | split; [repeat constructor |]].
  apply connection_settles; [|repeat constructor | repeat constructor].
  apply reach_boot; [done | done | apply boot_world_wf].
Defined.
